(** * Stage 2 of TP_BI: product reconciliation, scoring and ranking

    A shallow embedding of [src/Etape2/selection.py].

    Conventions of the embedding.
    - A DataFrame is the list of its rows, in index order; a row is a record
      with one field per column.  The index labels of [combined_df] are unique
      ([pd.concat(..., ignore_index=True)] followed only by row deletions), so
      selecting rows by label ([df.loc[labels]]) is selecting the rows.
    - A cell of a column on which the code dispatches by dynamic type
      ([price], [availability], [description]) is a [pyval]; a cell of a plain
      [VARCHAR]/[TEXT] column is an [option string] ([None] is SQL NULL).
    - Python floats are idealised as rationals ([Q]); a float column holds
      [option Q], where [None] is NaN.  Rounding, overflow and infinities of
      IEEE doubles are outside the model; equations between scores are stated
      with [==] ([Qeq]).
    - Text is a [string] of 8-bit characters; [\d] and [str.lower] are modelled
      on ASCII.
    - Database errors (lost connection, failed statement) are outside the
      model: every statement executes and every batch commits. *)

From Stdlib Require Import QArith Qminmax ZArith Lia Lqa String Ascii List Bool.
From Stdlib Require Import Sorting.Permutation Sorting.Sorted.
From stdpp Require Import gmap strings fin_maps.
Import ListNotations.

Local Open Scope string_scope.
Local Open Scope Q_scope.

(** ** Cells *)

Inductive pyval : Type :=
| PyNull                 (* None or NaN: [pd.isna] holds *)
| PyNum (q : Q)          (* an int or a float that is not NaN *)
| PyStr (s : string)     (* a str *)
| PyObj (repr : string). (* any other object (a decimal.Decimal, say), with its [str()] *)

(** [pd.isna] on an [option] cell. *)
Definition isna {A} (c : option A) : bool :=
  match c with None => true | Some _ => false end.

(** [Series.fillna(v)] on one cell. *)
Definition fillna {A} (v : A) (c : option A) : option A :=
  match c with None => Some v | Some x => Some x end.

(** ** Characters and strings *)

Definition is_digit (c : ascii) : bool :=
  let n := nat_of_ascii c in (48 <=? n)%nat && (n <=? 57)%nat.

Definition is_upper (c : ascii) : bool :=
  let n := nat_of_ascii c in (65 <=? n)%nat && (n <=? 90)%nat.

Definition lower_char (c : ascii) : ascii :=
  if is_upper c then ascii_of_nat (nat_of_ascii c + 32) else c.

(** [str.lower]. *)
Fixpoint lower (s : string) : string :=
  match s with
  | EmptyString => EmptyString
  | String c s' => String (lower_char c) (lower s')
  end.

Fixpoint filter_chars (keep : ascii -> bool) (s : string) : string :=
  match s with
  | EmptyString => EmptyString
  | String c s' => if keep c then String c (filter_chars keep s') else filter_chars keep s'
  end.

Fixpoint string_forall (p : ascii -> bool) (s : string) : bool :=
  match s with
  | EmptyString => true
  | String c s' => p c && string_forall p s'
  end.

Definition is_dot (c : ascii) : bool := Ascii.eqb c ".".

(** The characters the pattern [[^\d\.]] does not match. *)
Definition price_char (c : ascii) : bool := is_digit c || is_dot c.

(** [re.sub(r'[^\d\.]', '', s)]. *)
Definition strip_non_price (s : string) : string := filter_chars price_char s.

Definition not_minus (c : ascii) : bool := negb (Ascii.eqb c "-").

(** ** [float()] on a cleaned price *)

Definition digit_val (c : ascii) : Z := Z.of_nat (nat_of_ascii c - 48).

Fixpoint digits_value (acc : Z) (s : string) : Z :=
  match s with
  | EmptyString => acc
  | String c s' => digits_value (10 * acc + digit_val c) s'
  end.

Fixpoint pow10 (n : nat) : positive :=
  match n with O => 1%positive | S k => (10 * pow10 k)%positive end.

(** Splits at the first decimal point: the text before it and, when there is
    one, the text after it. *)
Fixpoint split_dot (s : string) : string * option string :=
  match s with
  | EmptyString => (EmptyString, None)
  | String c s' =>
      if is_dot c then (EmptyString, Some s')
      else let (a, b) := split_dot s' in (String c a, b)
  end.

Definition is_empty (s : string) : bool :=
  match s with EmptyString => true | _ => false end.

(** [float(s)] for a text [s] made of digits and decimal points only, which
    is all [cleaned_price] can hold: [None] is the [ValueError] Python raises
    when there is no digit or more than one point. *)
Definition py_float (s : string) : option Q :=
  match split_dot s with
  | (ip, None) =>
      if is_empty ip then None else Some (digits_value 0 ip # 1)
  | (ip, Some fp) =>
      if negb (string_forall is_digit fp) then None
      else if is_empty ip && is_empty fp then None
      else Some (digits_value 0 (ip ++ fp) # pow10 (String.length fp))
  end.

(** [clean_and_convert_price]; the result [None] is [np.nan]. *)
Definition clean_and_convert_price (price_val : pyval) : option Q :=
  match price_val with
  | PyNull => None
  | PyNum q => Some q
  | PyStr s | PyObj s =>
      let cleaned_price := strip_non_price s in
      if is_empty cleaned_price then None
      else match py_float cleaned_price with
           | Some q => Some q
           | None => None          (* except ValueError *)
           end
  end.

(** ** Availability flag *)

(** [lambda x: 1 if isinstance(x, str) and x.lower() == 'available' else 0]. *)
Definition availability_flag (x : pyval) : Z :=
  match x with
  | PyStr s => if String.eqb (lower s) "available" then 1%Z else 0%Z
  | _ => 0%Z
  end.

(** ** [clean_html] *)

Definition newline : ascii := ascii_of_nat 10.

(** Distance from just after a ["<"] to just after the first [">"], when no
    newline comes before it ([.] does not match a newline). *)
Fixpoint tag_length (s : string) : option nat :=
  match s with
  | EmptyString => None
  | String c s' =>
      if Ascii.eqb c ">" then Some 1%nat
      else if Ascii.eqb c newline then None
      else option_map S (tag_length s')
  end.

(** [re.sub('<.*?>', '', s)]: [skip] characters of a matched tag remain to be
    dropped. *)
Fixpoint strip_tags (skip : nat) (s : string) : string :=
  match s with
  | EmptyString => EmptyString
  | String c s' =>
      match skip with
      | S k => strip_tags k s'
      | O =>
          if Ascii.eqb c "<" then
            match tag_length s' with
            | Some n => strip_tags n s'
            | None => String c (strip_tags 0 s')
            end
          else String c (strip_tags 0 s')
      end
  end.

(** ASCII characters for which [str.isspace] holds. *)
Definition is_space (c : ascii) : bool :=
  let n := nat_of_ascii c in
  ((9 <=? n)%nat && (n <=? 13)%nat) || ((28 <=? n)%nat && (n <=? 32)%nat).

Fixpoint lstrip (s : string) : string :=
  match s with
  | EmptyString => EmptyString
  | String c s' => if is_space c then lstrip s' else s
  end.

Fixpoint rstrip (s : string) : string :=
  match s with
  | EmptyString => EmptyString
  | String c s' =>
      let t := rstrip s' in
      if is_space c && is_empty t then EmptyString else String c t
  end.

(** [str.strip]. *)
Definition strip (s : string) : string := rstrip (lstrip s).

Definition clean_html (raw_html : pyval) : string :=
  match raw_html with
  | PyStr s => strip (strip_tags 0 s)
  | _ => ""
  end.

(** ** Tables and frames *)

(** A row of the Shopify [products] table, as the query selects it. *)
Module Shopify.
Record row : Type := mk {
  product_url : option string;
  title : option string;
  vendor : option string;
  price : pyval;
  availability : pyval;
  description : pyval;
  category : option string;
  store_name : option string }.
End Shopify.

(** A row of the WooCommerce [barefoot_products] table, as the query selects it. *)
Module Woo.
Record row : Type := mk {
  product_url : option string;
  title : option string;
  price : pyval;
  tag : option string;
  sku : option string;
  category : option string }.
End Woo.

(** A row over [expected_cols]. *)
Module Unified.
Record row : Type := mk {
  product_url : option string;
  title : option string;
  vendor : option string;
  price : pyval;
  availability : pyval;
  description : pyval;
  product_category : option string;
  source_store_name : option string;
  source_platform : option string;
  product_tags : option string;
  sku : option string }.
End Unified.

(** A row of [combined_df] after [preprocess_combined_data]: [price] is now a
    float column and two columns are added. *)
Module Prep.
Record row : Type := mk {
  product_url : option string;
  title : option string;
  vendor : option string;
  price : option Q;
  availability : pyval;
  description : pyval;
  product_category : option string;
  source_store_name : option string;
  source_platform : option string;
  product_tags : option string;
  sku : option string;
  is_available_numeric : Z;
  description_text : string }.
End Prep.

(** A row after [calculate_attractiveness_score]: three more columns. *)
Module Scored.
Record row : Type := mk {
  base : Prep.row;
  availability_score : Z;
  price_score : Q;
  final_score : Q }.
End Scored.

Definition pyval_isnull (v : pyval) : bool :=
  match v with PyNull => true | _ => false end.

(** ** Source readers *)

(** [WHERE price IS NOT NULL AND title IS NOT NULL], then the constant
    columns of the platform. *)
Definition fetch_shopify_data (products : list Shopify.row) : list Unified.row :=
  map (fun r =>
         {| Unified.product_url := Shopify.product_url r;
            Unified.title := Shopify.title r;
            Unified.vendor := Shopify.vendor r;
            Unified.price := Shopify.price r;
            Unified.availability := Shopify.availability r;
            Unified.description := Shopify.description r;
            Unified.product_category := Shopify.category r;
            Unified.source_store_name := Shopify.store_name r;
            Unified.source_platform := Some "Shopify";
            Unified.product_tags := None;
            Unified.sku := None |})
      (List.filter (fun r => negb (pyval_isnull (Shopify.price r)) && negb (isna (Shopify.title r)))
                   products).

Definition fetch_woocommerce_data (barefoot_products : list Woo.row) : list Unified.row :=
  map (fun r =>
         {| Unified.product_url := Woo.product_url r;
            Unified.title := Woo.title r;
            Unified.vendor := Some "Barefoot Buttons";
            Unified.price := Woo.price r;
            Unified.availability := PyStr "Available";
            Unified.description := PyNull;
            Unified.product_category := Woo.category r;
            Unified.source_store_name := Some "Barefoot Buttons";
            Unified.source_platform := Some "WooCommerce";
            Unified.product_tags := Woo.tag r;
            Unified.sku := Woo.sku r |})
      (List.filter (fun r => negb (pyval_isnull (Woo.price r)) && negb (isna (Woo.title r)))
                   barefoot_products).

(** ** Merge *)

Definition all_null (r : Unified.row) : bool :=
  isna (Unified.product_url r) && isna (Unified.title r) && isna (Unified.vendor r)
  && pyval_isnull (Unified.price r) && pyval_isnull (Unified.availability r)
  && pyval_isnull (Unified.description r) && isna (Unified.product_category r)
  && isna (Unified.source_store_name r) && isna (Unified.source_platform r)
  && isna (Unified.product_tags r) && isna (Unified.sku r).

(** [dropna(how='all')]. *)
Definition dropna_all (df : list Unified.row) : list Unified.row :=
  List.filter (fun r => negb (all_null r)) df.

(** Keeps, of the rows that [same] relates, the first one. *)
Fixpoint keep_first {A} (same : A -> A -> bool) (l : list A) : list A :=
  match l with
  | [] => []
  | x :: l' => x :: List.filter (fun y => negb (same y x)) (keep_first same l')
  end.

Definition opt_string_eqb (a b : option string) : bool :=
  match a, b with
  | Some x, Some y => String.eqb x y
  | None, None => true
  | _, _ => false
  end.

Definition same_url (a b : Unified.row) : bool :=
  opt_string_eqb (Unified.product_url a) (Unified.product_url b).

(** [drop_duplicates(subset=['product_url'], keep='first')]; two null URLs
    count as equal. *)
Definition drop_duplicates_url (df : list Unified.row) : list Unified.row :=
  keep_first same_url df.

(** The merge of the main block: Shopify rows first, then WooCommerce rows. *)
Definition combine (df_shopify_raw df_woocommerce_raw : list Unified.row) : list Unified.row :=
  drop_duplicates_url (dropna_all (df_shopify_raw ++ df_woocommerce_raw)).

(** ** Normalizer *)

(** [df['price'].apply(clean_and_convert_price)]: each row with its new price cell. *)
Definition apply_clean_price (df : list Unified.row) : list (option Q * Unified.row) :=
  map (fun r => (clean_and_convert_price (Unified.price r), r)) df.

(** [df.dropna(subset=['price'])]. *)
Definition dropna_price (df : list (option Q * Unified.row)) : list (option Q * Unified.row) :=
  List.filter (fun pr => negb (isna (fst pr))) df.

(** The remaining column assignments of [preprocess_combined_data]. *)
Definition fill_columns (pr : option Q * Unified.row) : Prep.row :=
  let r := snd pr in
  {| Prep.product_url := Unified.product_url r;
     Prep.title := fillna "N/A" (Unified.title r);
     Prep.vendor := fillna "N/A" (Unified.vendor r);
     Prep.price := fst pr;
     Prep.availability := Unified.availability r;
     Prep.description := Unified.description r;
     Prep.product_category := fillna "N/A" (Unified.product_category r);
     Prep.source_store_name := fillna "N/A" (Unified.source_store_name r);
     Prep.source_platform := Unified.source_platform r;
     Prep.product_tags := fillna "N/A" (Unified.product_tags r);
     Prep.sku := fillna "N/A" (Unified.sku r);
     Prep.is_available_numeric := availability_flag (Unified.availability r);
     Prep.description_text := clean_html (Unified.description r) |}.

Definition preprocess_combined_data (df : list Unified.row) : list Prep.row :=
  map fill_columns (dropna_price (apply_clean_price df)).

(** ** Scorer *)

(** The values of a column that are not null. *)
Fixpoint some_values {A} (col : list (option A)) : list A :=
  match col with
  | [] => []
  | Some x :: col' => x :: some_values col'
  | None :: col' => some_values col'
  end.

(** The values of a float column that are not NaN. *)
Definition notna (col : list (option Q)) : list Q := some_values col.

(** [Series.nunique()]: NaN is not counted. *)
Definition nunique (col : list (option Q)) : nat :=
  length (keep_first Qeq_bool (notna col)).

(** [Series.isnull().all()]. *)
Definition isnull_all (col : list (option Q)) : bool := forallb isna col.

(** [Series.min()] and [Series.max()]: NaN is skipped, and the result is NaN
    when nothing is left. *)
Definition series_min (col : list (option Q)) : option Q :=
  match notna col with
  | [] => None
  | x :: xs => Some (fold_left Qmin xs x)
  end.

Definition series_max (col : list (option Q)) : option Q :=
  match notna col with
  | [] => None
  | x :: xs => Some (fold_left Qmax xs x)
  end.

(** Float arithmetic with NaN.  The one division of the scorer is guarded by
    [price_max == price_min], so its divisor is never zero. *)
Definition fsub (a b : option Q) : option Q :=
  match a, b with Some x, Some y => Some (x - y) | _, _ => None end.

Definition fdiv (a b : option Q) : option Q :=
  match a, b with Some x, Some y => Some (x / y) | _, _ => None end.

(** [a == b] on floats: false when either is NaN. *)
Definition feqb (a b : option Q) : bool :=
  match a, b with Some x, Some y => Qeq_bool x y | _, _ => false end.

(** The column [price_score_col] just before [fillna(0)]. *)
Definition price_score_col (price : list (option Q)) : list (option Q) :=
  if (1 <? nunique price)%nat && negb (isnull_all price) then
    let price_min := series_min price in
    let price_max := series_max price in
    if feqb price_max price_min then map (fun _ => Some (1 # 2)) price
    else map (fun p => fdiv (fsub price_max p) (fsub price_max price_min)) price
  else if (0 <? length price)%nat && negb (isnull_all price) then
    map (fun _ => Some (1 # 2)) price
  else map (fun _ => Some 0) price.

Definition fillna0 (c : option Q) : Q :=
  match c with Some x => x | None => 0 end.

Definition score_row (w_availability w_price : Q) (r : Prep.row) (ps : option Q) : Scored.row :=
  let availability_score := Prep.is_available_numeric r in
  let price_score := fillna0 ps in
  {| Scored.base := r;
     Scored.availability_score := availability_score;
     Scored.price_score := price_score;
     Scored.final_score :=
       inject_Z availability_score * w_availability + price_score * w_price |}.

Fixpoint zip_with {A B C} (f : A -> B -> C) (l : list A) (m : list B) : list C :=
  match l, m with
  | a :: l', b :: m' => f a b :: zip_with f l' m'
  | _, _ => []
  end.

(** [calculate_attractiveness_score]; on an empty frame there is no row to score. *)
Definition calculate_attractiveness_score
    (df : list Prep.row) (w_availability w_price : Q) : list Scored.row :=
  match df with
  | [] => []
  | _ => zip_with (score_row w_availability w_price) df
                  (price_score_col (map Prep.price df))
  end.

Definition WEIGHT_AVAILABILITY : Q := 6 # 10.
Definition WEIGHT_PRICE : Q := 4 # 10.
Definition TOP_K_OVERALL : nat := 20.
Definition FLAGSHIP_PER_STORE : nat := 3.
Definition DB_BATCH_SIZE : nat := 500.

(** ** Sorting and grouping *)

(** A stable insertion sort: [x] is put before the first element that
    [before x] accepts, so rows that compare equal keep their input order. *)
Fixpoint insert_sorted {A} (before : A -> A -> bool) (x : A) (l : list A) : list A :=
  match l with
  | [] => [x]
  | y :: l' => if before x y then x :: l else y :: insert_sorted before x l'
  end.

Fixpoint stable_sort {A} (before : A -> A -> bool) (l : list A) : list A :=
  match l with
  | [] => []
  | x :: l' => insert_sorted before x (stable_sort before l')
  end.

(** Descending order of a float key. *)
Definition desc {A} (key : A -> Q) (x y : A) : bool := Qle_bool (key y) (key x).

(** What [sort_values(..., ascending=False)] promises with its default
    [kind='quicksort']: the rows come back rearranged in descending order of
    the key.  pandas documents only [kind='mergesort'] and [kind='stable'] as
    stable, and the code asks for neither, so the order of rows with equal
    keys is left to the library. *)
Definition sorter : Type := forall A : Type, (A -> Q) -> list A -> list A.

Definition sorts_descending (sort_values : sorter) : Prop :=
  forall (A : Type) (key : A -> Q) (l : list A),
    Permutation (sort_values A key l) l /\
    StronglySorted (fun x y => key y <= key x) (sort_values A key l).

(** A sorter that keeps that promise and is stable (what [kind='stable']
    would give). *)
Definition stable_sorter : sorter := fun A key l => stable_sort (desc key) l.

(** What the default sort does with a frame of at most four rows.  For
    [ascending=False] pandas ([nargsort]) reverses the column, takes NumPy's
    [argsort(kind='quicksort')] of it and reverses the answer.  On x86-64
    with AVX2 or AVX-512, NumPy's [argsort] of 64-bit floats loads a short
    array into the lanes of one vector, the free lanes holding the largest
    value, and runs it through a bitonic network.  A compare-exchange of two
    lanes swaps them, key and row index together, only when the key of the
    lower lane is strictly greater; lanes with equal keys stay where they
    are.  With at most four rows the network is the one on four lanes
    (on eight lanes the further steps move nothing). *)

(** Is the key of lane [x] strictly greater than that of lane [y]?  [None] is
    a free lane. *)
Definition lane_gt {A} (key : A -> Q) (x y : option A) : bool :=
  match x, y with
  | Some a, Some b => negb (Qle_bool (key a) (key b))
  | None, Some _ => true
  | _, None => false
  end.

Definition compare_exchange {A} (key : A -> Q) (x y : option A) : option A * option A :=
  if lane_gt key x y then (y, x) else (x, y).

(** Lanes (0, 1) and (2, 3); then (0, 3) and (1, 2); then (0, 1) and (2, 3). *)
Definition bitonic4 {A} (key : A -> Q) (l0 l1 l2 l3 : option A) : list (option A) :=
  let '(l0, l1) := compare_exchange key l0 l1 in
  let '(l2, l3) := compare_exchange key l2 l3 in
  let '(l0, l3) := compare_exchange key l0 l3 in
  let '(l1, l2) := compare_exchange key l1 l2 in
  let '(l0, l1) := compare_exchange key l0 l1 in
  let '(l2, l3) := compare_exchange key l2 l3 in
  [l0; l1; l2; l3].

(** [argsort] of at most four keys: the rows in ascending order of the key. *)
Definition argsort4 {A} (key : A -> Q) (l : list A) : list A :=
  some_values (bitonic4 key (nth_error l 0) (nth_error l 1) (nth_error l 2) (nth_error l 3)).

(** [sort_values(..., ascending=False)] with the default kind.  Longer frames
    go through wider networks and, beyond 256 rows, a vectorised partition,
    which are not modelled: [longer] stands for what the library does with
    them. *)
Definition quicksort_sorter (longer : sorter) : sorter := fun A key l =>
  if (length l <=? 4)%nat then rev (argsort4 key (rev l))
  else longer A key l.

(** [Series.nlargest(n)] with its default [keep='first']: the [n] largest
    values in descending order, earlier rows first among equal values. *)
Definition nlargest {A} (key : A -> Q) (n : nat) (l : list A) : list A :=
  firstn n (stable_sort (desc key) l).

(** The group keys of [groupby(col)]: the distinct values that are not null,
    in ascending order ([sort=True], [dropna=True]). *)
Definition group_keys (col : list (option string)) : list string :=
  stable_sort String.leb (keep_first String.eqb (some_values col)).

(** The rows of one group, in frame order. *)
Definition group {A} (store : A -> option string) (s : string) (df : list A) : list A :=
  List.filter (fun r => opt_string_eqb (store r) (Some s)) df.

Definition store_of (r : Scored.row) : option string :=
  Prep.source_store_name (Scored.base r).

(** ** Rank derivers *)

(** [df.sort_values(by='final_score', ascending=False).head(k)]; [k] is a
    number of rows ([TOP_K_OVERALL] in the main block). *)
Definition display_top_k_products
    (sort_values : sorter) (df : list Scored.row) (k : nat) : list Scored.row :=
  match df with
  | [] => []
  | _ => firstn k (sort_values _ Scored.final_score df)
  end.

(** The top-K deriver as the specification words it: a stable sort by
    [final_score], descending, then the first [k] rows. *)
Definition stable_top_k (df : list Scored.row) (k : nat) : list Scored.row :=
  firstn k (stable_sort (desc Scored.final_score) df).

(** [df.loc[df.groupby('source_store_name')['final_score']
              .nlargest(n_flagship).index.get_level_values(1)]]: group after
    group, the [n_flagship] best rows of each. *)
Definition display_flagship_products_per_store
    (df : list Scored.row) (n_flagship : nat) : list Scored.row :=
  match df with
  | [] => []
  | _ => flat_map (fun s => nlargest Scored.final_score n_flagship (group store_of s df))
                  (group_keys (map store_of df))
  end.

(** [mean()] and [max()] of a group; a group has at least one row. *)
Definition Qsum (l : list Q) : Q := fold_left Qplus l 0.

Definition mean (l : list Q) : Q := Qsum l / inject_Z (Z.of_nat (length l)).

Definition maximum (l : list Q) : Q :=
  match l with
  | [] => 0
  | x :: xs => fold_left Qmax xs x
  end.

(** A Series indexed by store name. *)
Definition series : Type := list (string * Q).

Definition groupby_final_score (agg : list Q -> Q) (df : list Scored.row) : series :=
  map (fun s => (s, agg (map Scored.final_score (group store_of s df))))
      (group_keys (map store_of df)).

Definition display_store_rankings
    (sort_values : sorter) (df : list Scored.row) : series * series :=
  match df with
  | [] => ([], [])
  | _ => (sort_values _ snd (groupby_final_score mean df),
          sort_values _ snd (groupby_final_score maximum df))
  end.

(** ** The analysis database *)

(** The columns the code writes.  The columns the server fills in by itself
    ([id AUTO_INCREMENT], [analysis_timestamp]) are not part of a row. *)
Module ScoredProducts.
Record row : Type := mk {
  product_url : string;
  title : string;
  source_store_name : string;
  price : option Q;
  is_available_numeric : Z;
  description_text : string;
  product_category : string;
  product_tags : string;
  sku : string;
  source_platform : string;
  availability_score : Z;
  price_score : Q;
  final_score : Q }.
End ScoredProducts.

Module TopK.
Record row : Type := mk {
  rank_overall : nat;
  product_url : option string;
  title : option string;
  source_store_name : option string;
  final_score : Q;
  source_platform : option string }.
End TopK.

Module Flagship.
Record row : Type := mk {
  source_store_name : option string;
  store_rank : nat;
  product_url : option string;
  title : option string;
  final_score : Q;
  source_platform : option string }.
End Flagship.

Module StoreRankings.
Record row : Type := mk {
  source_store_name : string;
  avg_product_score : option Q;
  max_product_score : option Q;
  source_platform : string }.
End StoreRankings.

(** The four tables.  [scored_products] has a unique index on [product_url];
    it is a map from the index key of a URL to the row stored under it. *)
Record tables : Type := mk_tables {
  scored_products : gmap string ScoredProducts.row;
  top_k_products_overall : list TopK.row;
  flagship_products_by_store : list Flagship.row;
  store_rankings : list StoreRankings.row }.

(** A connection with autocommit off: statements act on [session], and
    [commit] makes the session's view durable. *)
Record connection : Type := mk_connection {
  committed : tables;
  session : tables }.

Definition db_connect (db : tables) : connection :=
  {| committed := db; session := db |}.

Definition commit (c : connection) : connection :=
  {| committed := session c; session := session c |}.

(** Closing drops what was not committed. *)
Definition close (c : connection) : tables := committed c.

Definition on_session (f : tables -> tables) (c : connection) : connection :=
  {| committed := committed c; session := f (session c) |}.

(** ** Sink writers *)

(** [fillna('N/A').astype(str)] on one cell. *)
Definition text_or_na (c : option string) : string :=
  match c with Some s => s | None => "N/A" end.

(** One element of [all_data_tuples]. *)
Definition scored_tuple (r : Scored.row) : ScoredProducts.row :=
  let b := Scored.base r in
  {| ScoredProducts.product_url := text_or_na (Prep.product_url b);
     ScoredProducts.title := text_or_na (Prep.title b);
     ScoredProducts.source_store_name := text_or_na (Prep.source_store_name b);
     ScoredProducts.price := Prep.price b;
     ScoredProducts.is_available_numeric := Prep.is_available_numeric b;
     ScoredProducts.description_text := Prep.description_text b;
     ScoredProducts.product_category := text_or_na (Prep.product_category b);
     ScoredProducts.product_tags := text_or_na (Prep.product_tags b);
     ScoredProducts.sku := text_or_na (Prep.sku b);
     ScoredProducts.source_platform := text_or_na (Prep.source_platform b);
     ScoredProducts.availability_score := Scored.availability_score r;
     ScoredProducts.price_score := Scored.price_score r;
     ScoredProducts.final_score := Scored.final_score r |}.

(** [ON DUPLICATE KEY UPDATE] sets every written column but [product_url]. *)
Definition update_row (old new : ScoredProducts.row) : ScoredProducts.row :=
  {| ScoredProducts.product_url := ScoredProducts.product_url old;
     ScoredProducts.title := ScoredProducts.title new;
     ScoredProducts.source_store_name := ScoredProducts.source_store_name new;
     ScoredProducts.price := ScoredProducts.price new;
     ScoredProducts.is_available_numeric := ScoredProducts.is_available_numeric new;
     ScoredProducts.description_text := ScoredProducts.description_text new;
     ScoredProducts.product_category := ScoredProducts.product_category new;
     ScoredProducts.product_tags := ScoredProducts.product_tags new;
     ScoredProducts.sku := ScoredProducts.sku new;
     ScoredProducts.source_platform := ScoredProducts.source_platform new;
     ScoredProducts.availability_score := ScoredProducts.availability_score new;
     ScoredProducts.price_score := ScoredProducts.price_score new;
     ScoredProducts.final_score := ScoredProducts.final_score new |}.

(** What [INSERT ... ON DUPLICATE KEY UPDATE] leaves under the key of the
    tuple [t], given what was there. *)
Definition upsert_cell (old : option ScoredProducts.row) (t : ScoredProducts.row)
    : ScoredProducts.row :=
  match old with
  | Some o => update_row o t
  | None => t
  end.

(** [INSERT ... ON DUPLICATE KEY UPDATE] of one tuple.  [ukey] gives the key
    under which the unique index [uni_scored_product_url (product_url(255))]
    files a URL (its first 255 characters, up to the collation of the
    column). *)
Definition upsert (ukey : string -> string)
    (tbl : gmap string ScoredProducts.row) (t : ScoredProducts.row)
    : gmap string ScoredProducts.row :=
  let k := ukey (ScoredProducts.product_url t) in
  <[k := upsert_cell (tbl !! k) t]> tbl.

(** [cursor.executemany(sql, batch_tuples)]. *)
Definition executemany_upsert (ukey : string -> string)
    (batch_tuples : list ScoredProducts.row) (db : tables) : tables :=
  {| scored_products := fold_left (upsert ukey) batch_tuples (scored_products db);
     top_k_products_overall := top_k_products_overall db;
     flagship_products_by_store := flagship_products_by_store db;
     store_rankings := store_rankings db |}.

(** The slices [all_data_tuples[i:i + batch_size]] for [i] in
    [range(0, len(all_data_tuples), batch_size)]. *)
Definition batches {A} (batch_size : nat) (l : list A) : list (list A) :=
  map (fun j => firstn batch_size (skipn (j * batch_size) l))
      (seq 0 ((length l + batch_size - 1) / batch_size)).

(** One turn of the loop over the batches: [executemany], then [commit]. *)
Definition save_batch (ukey : string -> string)
    (conn_analysis : connection) (batch_tuples : list ScoredProducts.row) : connection :=
  commit (on_session (executemany_upsert ukey batch_tuples) conn_analysis).

Definition save_scored_products_to_db (ukey : string -> string)
    (df : list Scored.row) (batch_size : nat) (conn_analysis : connection) : connection :=
  match df with
  | [] => conn_analysis
  | _ => fold_left (save_batch ukey) (batches batch_size (map scored_tuple df)) conn_analysis
  end.

(** One element of [data_tuples] in [save_top_k_to_db]; [i] counts from 0. *)
Definition top_k_tuple (i : nat) (r : Scored.row) : TopK.row :=
  let b := Scored.base r in
  {| TopK.rank_overall := i + 1;
     TopK.product_url := Prep.product_url b;
     TopK.title := Prep.title b;
     TopK.source_store_name := Prep.source_store_name b;
     TopK.final_score := Scored.final_score r;
     TopK.source_platform := Prep.source_platform b |}.

Fixpoint enumerate_from {A} (i : nat) (l : list A) : list (nat * A) :=
  match l with
  | [] => []
  | x :: l' => (i, x) :: enumerate_from (S i) l'
  end.

Definition top_k_tuples (top_k_df : list Scored.row) : list TopK.row :=
  map (fun ir => top_k_tuple (fst ir) (snd ir)) (enumerate_from 0 top_k_df).

Definition set_top_k (rows : list TopK.row) (db : tables) : tables :=
  {| scored_products := scored_products db;
     top_k_products_overall := rows;
     flagship_products_by_store := flagship_products_by_store db;
     store_rankings := store_rankings db |}.

(** [DELETE FROM top_k_products_overall], the bulk insert, then [commit]. *)
Definition save_top_k_to_db (top_k_df : list Scored.row) (conn_analysis : connection) : connection :=
  match top_k_df with
  | [] => conn_analysis
  | _ =>
      let c := on_session (set_top_k []) conn_analysis in
      let data_tuples := top_k_tuples top_k_df in
      commit (on_session (fun db => set_top_k (top_k_products_overall db ++ data_tuples) db) c)
  end.

Definition flagship_tuple (store_rank : nat) (r : Scored.row) : Flagship.row :=
  let b := Scored.base r in
  {| Flagship.source_store_name := Prep.source_store_name b;
     Flagship.store_rank := store_rank;
     Flagship.product_url := Prep.product_url b;
     Flagship.title := Prep.title b;
     Flagship.final_score := Scored.final_score r;
     Flagship.source_platform := Prep.source_platform b |}.

(** [ranked_flagship_list]: each group of [flagship_df] with
    [store_rank = range(1, len(group) + 1)]. *)
Definition ranked_flagship_list (flagship_df : list Scored.row) : list (list (nat * Scored.row)) :=
  map (fun s => enumerate_from 1 (group store_of s flagship_df))
      (group_keys (map store_of flagship_df)).

Definition flagship_tuples (flagship_df : list Scored.row) : list Flagship.row :=
  map (fun ir => flagship_tuple (fst ir) (snd ir)) (concat (ranked_flagship_list flagship_df)).

Definition set_flagship (rows : list Flagship.row) (db : tables) : tables :=
  {| scored_products := scored_products db;
     top_k_products_overall := top_k_products_overall db;
     flagship_products_by_store := rows;
     store_rankings := store_rankings db |}.

(** The [DELETE] runs first; when no group is left the function returns
    before its [commit]. *)
Definition save_flagship_to_db (flagship_df : list Scored.row) (conn_analysis : connection) : connection :=
  match flagship_df with
  | [] => conn_analysis
  | _ =>
      let c := on_session (set_flagship []) conn_analysis in
      match ranked_flagship_list flagship_df with
      | [] => c
      | _ =>
          let data_tuples := flagship_tuples flagship_df in
          commit (on_session (fun db => set_flagship (flagship_products_by_store db ++ data_tuples) db) c)
      end
  end.

(** The value of a Series at a label; NaN when the label is missing. *)
Definition series_at (s : series) (k : string) : option Q :=
  option_map snd (List.find (fun e => String.eqb (fst e) k) s).

(** The index of [pd.DataFrame({...: avg, ...: max})]: the common index when
    the two Series are indexed alike, their sorted union otherwise. *)
Definition union_index (a b : series) : list string :=
  if bool_decide (map fst a = map fst b) then map fst a
  else stable_sort String.leb (keep_first String.eqb (map fst a ++ map fst b)).

(** [pd.merge(rankings_df, platform_map_df, on='source_store_name', how='left')]
    for one row of [rankings_df], then [fillna('Unknown')]. *)
Definition merge_platform (platform_map_df : list (option string * option string))
    (k : string) : list string :=
  match List.filter (fun e => opt_string_eqb (fst e) (Some k)) platform_map_df with
  | [] => ["Unknown"]
  | matches => map (fun e => match snd e with Some p => p | None => "Unknown" end) matches
  end.

Definition store_ranking_tuples (avg_scores_series max_scores_series : series)
    (platform_map_df : list (option string * option string)) : list StoreRankings.row :=
  flat_map (fun k =>
              map (fun p =>
                     {| StoreRankings.source_store_name := k;
                        StoreRankings.avg_product_score := series_at avg_scores_series k;
                        StoreRankings.max_product_score := series_at max_scores_series k;
                        StoreRankings.source_platform := p |})
                  (merge_platform platform_map_df k))
           (union_index avg_scores_series max_scores_series).

Definition set_store_rankings (rows : list StoreRankings.row) (db : tables) : tables :=
  {| scored_products := scored_products db;
     top_k_products_overall := top_k_products_overall db;
     flagship_products_by_store := flagship_products_by_store db;
     store_rankings := rows |}.

Definition save_store_rankings_to_db (avg_scores_series max_scores_series : series)
    (platform_map_df : list (option string * option string))
    (conn_analysis : connection) : connection :=
  match avg_scores_series, max_scores_series with
  | [], [] => conn_analysis
  | _, _ =>
      let c := on_session (set_store_rankings []) conn_analysis in
      let data_tuples :=
        store_ranking_tuples avg_scores_series max_scores_series platform_map_df in
      commit (on_session (fun db => set_store_rankings (store_rankings db ++ data_tuples) db) c)
  end.

(** The four writes of the main block, on one connection. *)
Definition persistence_stage (ukey : string -> string) (batch_size : nat)
    (combined_df top_k_df flagship_df_display : list Scored.row)
    (avg_scores max_scores : series)
    (platform_map_df : list (option string * option string))
    (db : tables) : tables :=
  let conn_analysis := db_connect db in
  let c1 := save_scored_products_to_db ukey combined_df batch_size conn_analysis in
  let c2 := save_top_k_to_db top_k_df c1 in
  let c3 := save_flagship_to_db flagship_df_display c2 in
  let c4 := save_store_rankings_to_db avg_scores max_scores platform_map_df c3 in
  close c4.

(** [combined_df.drop_duplicates(subset=['source_store_name'])
       [['source_store_name', 'source_platform']]]. *)
Definition platform_map (combined_df : list Scored.row) : list (option string * option string) :=
  map (fun r => (store_of r, Prep.source_platform (Scored.base r)))
      (keep_first (fun a b => opt_string_eqb (store_of a) (store_of b)) combined_df).

(** ** The main block *)

(** The frame after each stage of the run. *)
Definition scored_frame (products : list Shopify.row) (barefoot_products : list Woo.row)
    (w_availability w_price : Q) : list Scored.row :=
  calculate_attractiveness_score
    (preprocess_combined_data
       (combine (fetch_shopify_data products) (fetch_woocommerce_data barefoot_products)))
    w_availability w_price.

Definition run (sort_values : sorter) (ukey : string -> string)
    (w_availability w_price : Q) (k n_flagship batch_size : nat)
    (products : list Shopify.row) (barefoot_products : list Woo.row)
    (db : tables) : tables :=
  let combined_df := scored_frame products barefoot_products w_availability w_price in
  match combined_df with
  | [] => db                     (* one of the three "Analysis halted" exits *)
  | _ =>
      let top_k_df := display_top_k_products sort_values combined_df k in
      let flagship_df_display := display_flagship_products_per_store combined_df n_flagship in
      let '(avg_scores, max_scores) := display_store_rankings sort_values combined_df in
      persistence_stage ukey batch_size combined_df top_k_df flagship_df_display
                        avg_scores max_scores (platform_map combined_df) db
  end.

Definition main (sort_values : sorter) (ukey : string -> string)
    (products : list Shopify.row) (barefoot_products : list Woo.row)
    (db : tables) : tables :=
  run sort_values ukey WEIGHT_AVAILABILITY WEIGHT_PRICE
      TOP_K_OVERALL FLAGSHIP_PER_STORE DB_BATCH_SIZE products barefoot_products db.

Definition empty_tables : tables :=
  {| scored_products := ∅; top_k_products_overall := [];
     flagship_products_by_store := []; store_rankings := [] |}.

(** ** Example data *)

(** A scored row with the given URL, store and final score. *)
Definition example_row (url store : string) (final_score : Q) : Scored.row :=
  {| Scored.base :=
       {| Prep.product_url := Some url; Prep.title := Some "N/A"; Prep.vendor := Some "N/A";
          Prep.price := Some 1; Prep.availability := PyNull; Prep.description := PyNull;
          Prep.product_category := Some "N/A"; Prep.source_store_name := Some store;
          Prep.source_platform := Some "Shopify"; Prep.product_tags := Some "N/A";
          Prep.sku := Some "N/A"; Prep.is_available_numeric := 0;
          Prep.description_text := "" |};
     Scored.availability_score := 0;
     Scored.price_score := 0;
     Scored.final_score := final_score |}.

(** A preprocessed row with the given URL, price and availability flag. *)
Definition example_product (url : string) (price : Q) (is_available_numeric : Z) : Prep.row :=
  {| Prep.product_url := Some url; Prep.title := Some "N/A"; Prep.vendor := Some "N/A";
     Prep.price := Some price; Prep.availability := PyNull; Prep.description := PyNull;
     Prep.product_category := Some "N/A"; Prep.source_store_name := Some "N/A";
     Prep.source_platform := Some "Shopify"; Prep.product_tags := Some "N/A";
     Prep.sku := Some "N/A"; Prep.is_available_numeric := is_available_numeric;
     Prep.description_text := "" |}.

(** Two Shopify rows, the second with a price that does not parse, and one
    WooCommerce row. *)
Definition example_products : list Shopify.row :=
  [ Shopify.mk (Some "https://s/b") (Some "Lamp") (Some "V") (PyObj "30.00")
               (PyStr "sold out") (PyStr "<p>A lamp</p>") (Some "Home") (Some "S");
    Shopify.mk (Some "https://s/c") (Some "Desk") (Some "V") (PyStr "call for price")
               (PyStr "available") PyNull (Some "Home") (Some "S") ].

Definition example_barefoot_products : list Woo.row :=
  [ Woo.mk (Some "https://w/a") (Some "Button") (PyStr "$10.00") None (Some "BB-1")
           (Some "Buttons") ].

(** * Further definitions *)

(** The number of characters of [s] that [p] accepts. *)
Fixpoint count_chars (p : ascii -> bool) (s : string) : nat :=
  match s with
  | EmptyString => 0
  | String c s' => (if p c then 1 else 0) + count_chars p s'
  end.

(** No tag is left in [s]: wherever a ["<"] stands, no [">"] follows it on
    the same line. *)
Fixpoint tag_free (s : string) : bool :=
  match s with
  | EmptyString => true
  | String c s' =>
      (negb (Ascii.eqb c "<") || match tag_length s' with None => true | Some _ => false end)
      && tag_free s'
  end.

(** The row [stored] holds the values of the tuple [t] in every column that
    [ON DUPLICATE KEY UPDATE] sets, that is in all of them but [product_url]. *)
Definition holds_values (stored t : ScoredProducts.row) : Prop :=
  ScoredProducts.title stored = ScoredProducts.title t /\
  ScoredProducts.source_store_name stored = ScoredProducts.source_store_name t /\
  ScoredProducts.price stored = ScoredProducts.price t /\
  ScoredProducts.is_available_numeric stored = ScoredProducts.is_available_numeric t /\
  ScoredProducts.description_text stored = ScoredProducts.description_text t /\
  ScoredProducts.product_category stored = ScoredProducts.product_category t /\
  ScoredProducts.product_tags stored = ScoredProducts.product_tags t /\
  ScoredProducts.sku stored = ScoredProducts.sku t /\
  ScoredProducts.source_platform stored = ScoredProducts.source_platform t /\
  ScoredProducts.availability_score stored = ScoredProducts.availability_score t /\
  ScoredProducts.price_score stored = ScoredProducts.price_score t /\
  ScoredProducts.final_score stored = ScoredProducts.final_score t.

(** * The WooCommerce scraper ([src/Etape1/Scrapping_Woo.py])

    The network is outside the program: what a request returns is given by an
    oracle, indexed by the number of requests made before it, so that the
    same URL may answer differently each time. *)

(** Python truthiness of an optional text: [None] and [""] are false. *)
Definition truthy (o : option string) : bool :=
  match o with
  | Some s => negb (is_empty s)
  | None => false
  end.

(** [fetch_page_with_retries]: [attempt i] is what the [i]-th call of
    [s.get] (counting from 0) gives, [None] when it raises.  The result comes
    with the number of times the function slept. *)
Fixpoint retry_loop {R} (attempt : nat -> option R) (retries i remaining : nat)
    : option R * nat :=
  match remaining with
  | O => (None, 0%nat)
  | S remaining' =>
      match attempt i with
      | Some r => (Some r, 0%nat)
      | None =>
          if (i <? retries - 1)%nat then
            let (r, sleeps) := retry_loop attempt retries (S i) remaining' in
            (r, S sleeps)
          else (None, 0%nat)
      end
  end.

Definition fetch_page_with_retries {R} (attempt : nat -> option R) (retries : nat)
    : option R * nat :=
  retry_loop attempt retries 0 retries.

(** [if link not in all_links_for_category: all_links_for_category.append(link)]. *)
Definition append_if_new (all_links : list string) (link : string) : list string :=
  if existsb (String.eqb link) all_links then all_links else (all_links ++ [link])%list.

(** What [get_product_links_from_category_page] returns for a page: its
    product links and the URL of the next page. *)
Definition page_oracle : Type := nat -> string -> list string * option string.

(** The page to go to after [current_page_url], if any. *)
Definition next_page (current_page_url : string) (next_page_url_candidate : option string)
    : option string :=
  match next_page_url_candidate with
  | Some next =>
      if negb (is_empty next) && negb (String.eqb next current_page_url)
      then Some next else None
  | None => None
  end.

(** The loop of [get_all_product_links_for_category], with [remaining] the
    pages still allowed ([max_pages - pages_scraped]); it returns the links
    and the number of pages scraped. *)
Fixpoint scrape_category (get_page : page_oracle) (remaining pages_scraped : nat)
    (current_page_url : option string) (all_links : list string) : list string * nat :=
  match remaining with
  | O => (all_links, pages_scraped)
  | S remaining' =>
      match current_page_url with
      | Some url =>
          if is_empty url then (all_links, pages_scraped)
          else
            let (links_on_page, next_page_url_candidate) := get_page pages_scraped url in
            scrape_category get_page remaining' (S pages_scraped)
                            (next_page url next_page_url_candidate)
                            (fold_left append_if_new links_on_page all_links)
      | None => (all_links, pages_scraped)
      end
  end.

Definition max_pages : nat := 20.

Definition get_all_product_links_for_category (get_page : page_oracle)
    (start_category_url : string) : list string * nat :=
  scrape_category get_page max_pages 0 (Some start_category_url) [].

(** The pages the loop fetches, in order: each with its URL and its links. *)
Fixpoint pages_fetched (get_page : page_oracle) (remaining pages_scraped : nat)
    (current_page_url : option string) : list (string * list string) :=
  match remaining with
  | O => []
  | S remaining' =>
      match current_page_url with
      | Some url =>
          if is_empty url then []
          else
            let (links_on_page, next_page_url_candidate) := get_page pages_scraped url in
            (url, links_on_page)
            :: pages_fetched get_page remaining' (S pages_scraped)
                             (next_page url next_page_url_candidate)
      | None => []
      end
  end.

(** What the selectors of [get_product_data] find on a product page: the
    text of each element found. *)
Record product_page : Type := {
  title_el : option string;          (* h1.product_title.entry-title *)
  price_elements : list string;      (* span.woocommerce-Price-amount.amount bdi *)
  price_any : option string;         (* p.price span.woocommerce-Price-amount.amount *)
  tag_el : option string;            (* span.tagged_as a[rel=tag] *)
  sku_el : option string }.          (* span.sku *)

(** How the request for a product page ends. *)
Inductive page_outcome : Type :=
| FetchFailed                        (* no response, or no HTML *)
| ParseFailed                        (* an exception while reading the page *)
| Parsed (page : product_page).

Record product_details : Type := {
  pd_title : string;
  pd_price : string;
  pd_tag : string;
  pd_sku : string }.

Definition text_or (default : string) (el : option string) : string :=
  match el with Some t => strip t | None => default end.

(** The price text kept: the second amount when there are several. *)
Definition scraped_price (page : product_page) : string :=
  match price_elements page with
  | _ :: second :: _ => strip second
  | [first] => strip first
  | [] => text_or "N/A" (price_any page)
  end.

Definition get_product_data (outcome : page_outcome) : option product_details :=
  match outcome with
  | FetchFailed => None
  | ParseFailed =>
      Some {| pd_title := "N/A (Parse Error)"; pd_price := "N/A (Parse Error)";
              pd_tag := "N/A (Parse Error)"; pd_sku := "N/A (Parse Error)" |}
  | Parsed page =>
      Some {| pd_title := text_or "N/A" (title_el page);
              pd_price := scraped_price page;
              pd_tag := text_or "N/A" (tag_el page);
              pd_sku := text_or "N/A" (sku_el page) |}
  end.

(** The row [insert_product_data] sends to [barefoot_products]. *)
Definition insert_values (product_data : product_details) (product_url : string)
    (category_name_from_config : string) : Woo.row :=
  {| Woo.product_url := Some product_url;
     Woo.title := Some (pd_title product_data);
     Woo.price := PyStr (pd_price product_data);
     Woo.tag := Some (pd_tag product_data);
     Woo.sku := Some (pd_sku product_data);
     Woo.category := Some category_name_from_config |}.

(** * The Shopify scraper ([src/Etape1/Scrapping_Shop.py]) *)

(** [s.replace(pat, "")]: the occurrences of [pat] are removed from left to
    right, without overlap; [skip] characters of a matched occurrence remain
    to be dropped. *)
Fixpoint remove_all (pat : string) (skip : nat) (s : string) : string :=
  match s with
  | EmptyString => EmptyString
  | String c s' =>
      match skip with
      | S k => remove_all pat k s'
      | O =>
          if String.prefix pat s then remove_all pat (String.length pat - 1) s'
          else String c (remove_all pat 0 s')
      end
  end.

(** [base_url.replace("https://www.", "").replace("https://", "").split('.')[0]]. *)
Definition store_name_of (base_url : string) : string :=
  fst (split_dot (remove_all "https://" 0 (remove_all "https://www." 0 base_url))).

(** The first character of [s] that is a point or a colon. *)
Fixpoint first_mark (s : string) : option ascii :=
  match s with
  | EmptyString => None
  | String c s' => if is_dot c || Ascii.eqb c ":" then Some c else first_mark s'
  end.

(** A key of a JSON object as [dict.get] sees it: missing, [null], or a
    value.  Text keys hold text and [available] holds a boolean, as in
    Shopify's [products.json]. *)
Inductive json_field (A : Type) : Type :=
| Missing
| Null
| Value (a : A).
Arguments Missing {A}.
Arguments Null {A}.
Arguments Value {A} a.

(** [d.get(key, default)]; the result [None] is Python's [None]. *)
Definition dict_get {A} (field : json_field A) (default : option A) : option A :=
  match field with
  | Missing => default
  | Null => None
  | Value a => Some a
  end.

Record shopify_variant : Type := {
  variant_price : json_field string;
  variant_available : json_field bool }.

Record shopify_product : Type := {
  json_title : json_field string;
  json_vendor : json_field string;
  json_variants : list shopify_variant;
  json_body_html : json_field string;
  json_product_type : json_field string;
  json_handle : json_field string }.

(** The tuple [values] of the [INSERT]; [None] is sent as SQL NULL. *)
Record shopify_values : Type := {
  val_product_link : string;
  val_title : option string;
  val_vendor : option string;
  val_price : Q;
  val_availability : string;
  val_description : option string;
  val_category : option string;
  val_store_name : string }.

(** [variants[0] if variants else {}]. *)
Definition first_variant (product : shopify_product) : shopify_variant :=
  match json_variants product with
  | v :: _ => v
  | [] => {| variant_price := Missing; variant_available := Missing |}
  end.

(** The body of the loop over [products_on_page], up to the [INSERT];
    [float_of] is Python's [float] on a text, [None] when it raises
    [ValueError], in which case the product is skipped. *)
Definition product_values (float_of : string -> option Q)
    (base_url store_name : string) (product : shopify_product) : option shopify_values :=
  let title := dict_get (json_title product) (Some "N/A") in
  let vendor := dict_get (json_vendor product) (Some "N/A") in
  let price_str := dict_get (variant_price (first_variant product)) (Some "0.0") in
  let price := if truthy price_str
               then match price_str with Some s => float_of s | None => None end
               else Some 0 in
  let availability :=
    match dict_get (variant_available (first_variant product)) (Some false) with
    | Some true => "Available"
    | _ => "Out of Stock"
    end in
  let description := dict_get (json_body_html product) (Some "") in
  let category := dict_get (json_product_type product) (Some "N/A") in
  let handle := dict_get (json_handle product) None in
  let product_link :=
    if truthy handle
    then match handle with Some h => base_url ++ "/products/" ++ h | None => "N/A" end
    else "N/A" in
  match price with
  | Some p =>
      Some {| val_product_link := product_link; val_title := title; val_vendor := vendor;
              val_price := p; val_availability := availability;
              val_description := description; val_category := category;
              val_store_name := store_name |}
  | None => None
  end.

(** The row of [products] that stage 2 reads for such a tuple, [None] when
    the [INSERT] fails: [title] is declared [NOT NULL] in
    [create_table_if_not_exists], and the error is caught by the loop, which
    goes on to the next product.  [price_cell] is the cell [pd.read_sql] gives
    for the [DECIMAL(10, 2)] value stored for the price. *)
Definition stored_product (price_cell : pyval) (v : shopify_values) : option Shopify.row :=
  match val_title v with
  | None => None
  | Some title =>
      Some {| Shopify.product_url := Some (val_product_link v);
              Shopify.title := Some title;
              Shopify.vendor := val_vendor v;
              Shopify.price := price_cell;
              Shopify.availability := PyStr (val_availability v);
              Shopify.description :=
                match val_description v with Some d => PyStr d | None => PyNull end;
              Shopify.category := val_category v;
              Shopify.store_name := Some (val_store_name v) |}
  end.

(** * Properties *)

(** ** Price cleaning *)

Lemma digits_value_nonneg (s : string) : forall acc : Z,
  (0 <= acc)%Z -> (0 <= digits_value acc s)%Z.
Proof.
  induction s as [|c s IH]; intros acc Hacc; simpl.
  - exact Hacc.
  - apply IH. unfold digit_val. lia.
Qed.

Lemma py_float_nonneg (s : string) (q : Q) : py_float s = Some q -> 0 <= q.
Proof.
  unfold py_float. destruct (split_dot s) as [ip [fp|]].
  - destruct (negb (string_forall is_digit fp)); [discriminate|].
    destruct (is_empty ip && is_empty fp); [discriminate|].
    intros [= <-]. unfold Qle; simpl.
    pose proof (digits_value_nonneg (ip ++ fp) 0 ltac:(lia)). lia.
  - destruct (is_empty ip); [discriminate|].
    intros [= <-]. unfold Qle; simpl.
    pose proof (digits_value_nonneg ip 0 ltac:(lia)). lia.
Qed.

Lemma filter_chars_forall (keep : ascii -> bool) (s : string) :
  string_forall keep (filter_chars keep s) = true.
Proof.
  induction s as [|c s IH]; simpl; [reflexivity|].
  destruct (keep c) eqn:E; simpl; [rewrite E|]; exact IH.
Qed.

Lemma string_forall_impl (p q : ascii -> bool) (s : string) :
  (forall c, p c = true -> q c = true) ->
  string_forall p s = true -> string_forall q s = true.
Proof.
  intros Hpq. induction s as [|c s IH]; simpl; [reflexivity|].
  intros [Hc Hs]%andb_prop. rewrite (Hpq c Hc). simpl. exact (IH Hs).
Qed.

Lemma price_char_not_minus (c : ascii) : price_char c = true -> not_minus c = true.
Proof.
  unfold not_minus. destruct (Ascii.eqb c "-") eqn:E; [|reflexivity].
  apply Ascii.eqb_eq in E. subst c. vm_compute. discriminate.
Qed.

(** C9.  The cleaning of a textual price keeps digits and decimal points only,
    so the minus sign goes with the rest; the parsed price is then NaN (and
    the row is dropped) or a number that is not negative.  The text ["-5.00"]
    becomes the price 5. *)
Theorem clean_price_drops_sign :
  (forall s : string,
      string_forall not_minus (strip_non_price s) = true /\
      (clean_and_convert_price (PyStr s) = None \/
       exists q, clean_and_convert_price (PyStr s) = Some q /\ 0 <= q)) /\
  (exists q, clean_and_convert_price (PyStr "-5.00") = Some q /\ q == 5) /\
  preprocess_combined_data
    [Unified.mk (Some "u") (Some "t") None (PyStr "-5.00") PyNull PyNull None None None None None]
  = [Prep.mk (Some "u") (Some "t") (Some "N/A") (Some (500 # 100)) PyNull PyNull
             (Some "N/A") (Some "N/A") None (Some "N/A") (Some "N/A") 0 ""].
Proof.
  split; [|split].
  - intros s. split.
    + apply (string_forall_impl price_char); [exact price_char_not_minus|].
      apply filter_chars_forall.
    + unfold clean_and_convert_price.
      destruct (is_empty (strip_non_price s)); [left; reflexivity|].
      destruct (py_float (strip_non_price s)) as [q|] eqn:E; [|left; reflexivity].
      right. exists q. split; [reflexivity|]. exact (py_float_nonneg _ _ E).
  - exists (500 # 100). split; reflexivity.
  - reflexivity.
Qed.

(** ** Availability *)

Lemma availability_flag_one (x : pyval) :
  availability_flag x = 1%Z <-> exists s, x = PyStr s /\ lower s = "available".
Proof.
  split.
  - destruct x as [|q|s|s]; simpl; try discriminate.
    destruct (String.eqb (lower s) "available") eqn:E; [|discriminate].
    intros _. exists s. split; [reflexivity|]. apply String.eqb_eq. exact E.
  - intros (s & -> & Hs). simpl. rewrite Hs. reflexivity.
Qed.

Lemma availability_flag_zero (x : pyval) :
  availability_flag x = 0%Z <-> ~ exists s, x = PyStr s /\ lower s = "available".
Proof.
  rewrite <- availability_flag_one. split.
  - intros H. rewrite H. discriminate.
  - intros H. destruct x as [|q|s|s]; simpl in *; try reflexivity.
    destruct (String.eqb (lower s) "available"); [|reflexivity].
    exfalso. apply H. reflexivity.
Qed.

(** ** Lists *)

Lemma keep_first_In {A} (same : A -> A -> bool) (l : list A) (x : A) :
  In x (keep_first same l) -> In x l.
Proof.
  revert x. induction l as [|a l IH]; simpl; intros x; [tauto|].
  intros [->|Hx]; [left; reflexivity|].
  apply filter_In in Hx. right. apply IH. apply Hx.
Qed.

Section KeepFirstEquivalence.
Context {A : Type} (same : A -> A -> bool).
Hypothesis same_refl : forall x, same x x = true.
Hypothesis same_sym : forall x y, same x y = true -> same y x = true.
Hypothesis same_trans : forall x y z, same x y = true -> same y z = true -> same x z = true.

(** Every element has a representative among the ones kept. *)
Lemma keep_first_repr (l : list A) (x : A) :
  In x l -> exists y, In y (keep_first same l) /\ same y x = true.
Proof.
  induction l as [|a l IH]; simpl; [tauto|].
  intros [->|Hx].
  - exists x. split; [left; reflexivity | apply same_refl].
  - destruct (IH Hx) as (y & Hy & Hyx).
    destruct (same y a) eqn:E.
    + exists a. split; [left; reflexivity|].
      apply same_trans with y; [apply same_sym; exact E | exact Hyx].
    + exists y. split; [|exact Hyx].
      right. apply filter_In. split; [exact Hy|]. rewrite E. reflexivity.
Qed.

(** No two of the elements kept are related. *)
Lemma keep_first_distinct (l : list A) :
  ForallOrdPairs (fun x y => same y x = false) (keep_first same l).
Proof.
  induction l as [|a l IH]; simpl; constructor.
  - apply List.Forall_forall. intros y Hy. apply filter_In in Hy.
    destruct Hy as [_ Hy]. apply negb_true_iff in Hy. exact Hy.
  - clear -IH. induction IH as [|b m Hb Hm IHm]; simpl; [constructor|].
    destruct (negb (same b a)); [|exact IHm].
    constructor; [|exact IHm].
    apply List.Forall_forall. intros y Hy. apply filter_In in Hy.
    rewrite List.Forall_forall in Hb. apply Hb, Hy.
Qed.
End KeepFirstEquivalence.

Lemma zip_with_map {A B C D} (f : A -> C -> D) (g : B -> C) (h : A -> B) (l : list A) :
  zip_with f l (map g (map h l)) = map (fun a => f a (g (h a))) l.
Proof. induction l as [|a l IH]; simpl; [reflexivity|]. rewrite IH. reflexivity. Qed.

(** ** Scorer *)

Lemma Qeq_bool_sym (x y : Q) : Qeq_bool x y = true -> Qeq_bool y x = true.
Proof. rewrite !Qeq_bool_iff. intros H. symmetry. exact H. Qed.

Lemma Qeq_bool_trans (x y z : Q) :
  Qeq_bool x y = true -> Qeq_bool y z = true -> Qeq_bool x z = true.
Proof. rewrite !Qeq_bool_iff. intros H1 H2. rewrite H1. exact H2. Qed.

(** More than one distinct value: two of the values differ. *)
Lemma distinct_values_gt1 (vals : list Q) :
  (1 < length (keep_first Qeq_bool vals))%nat <->
  exists x y, In x vals /\ In y vals /\ ~ x == y.
Proof.
  destruct vals as [|x xs]; simpl.
  - split; [lia|]. intros (? & ? & [] & _).
  - split.
    + intros Hlen.
      destruct (List.filter (fun y => negb (Qeq_bool y x)) (keep_first Qeq_bool xs))
        as [|y ys] eqn:E; [simpl in Hlen; lia|].
      assert (Hy : In y (y :: ys)) by (left; reflexivity).
      rewrite <- E in Hy. apply filter_In in Hy. destruct Hy as [Hy Hne].
      exists y, x. split; [right; eapply keep_first_In; exact Hy|].
      split; [left; reflexivity|].
      apply negb_true_iff in Hne. intros Heq. apply Qeq_bool_iff in Heq. congruence.
    + intros (a & b & Ha & Hb & Hab).
      assert (Hc : exists c, In c xs /\ ~ c == x).
      { destruct (Qeq_dec a x) as [Hax|Hax].
        - destruct Hb as [<-|Hb].
          + exfalso. apply Hab. exact Hax.
          + exists b. split; [exact Hb|]. intros Hbx. apply Hab. rewrite Hax, Hbx. reflexivity.
        - destruct Ha as [->|Ha]; [exfalso; apply Hax; reflexivity|].
          exists a. split; assumption. }
      destruct Hc as (c & Hc & Hcx).
      destruct (keep_first_repr Qeq_bool Qeq_bool_refl Qeq_bool_sym Qeq_bool_trans xs c Hc)
        as (d & Hd & Hdc).
      assert (Hin : In d (List.filter (fun y => negb (Qeq_bool y x)) (keep_first Qeq_bool xs))).
      { apply filter_In. split; [exact Hd|]. apply negb_true_iff.
        destruct (Qeq_bool d x) eqn:E; [|reflexivity].
        exfalso. apply Hcx. apply Qeq_bool_iff in Hdc, E. rewrite <- Hdc. exact E. }
      destruct (List.filter _ _); [destruct Hin | simpl; lia].
Qed.

Lemma fold_min_spec (xs : list Q) : forall x,
  In (fold_left Qmin xs x) (x :: xs) /\
  Forall (fun y => fold_left Qmin xs x <= y) (x :: xs).
Proof.
  induction xs as [|a xs IH]; intros x; simpl.
  - split; [left; reflexivity|]. constructor; [apply Qle_refl|constructor].
  - destruct (IH (Qmin x a)) as [Hin Hall]. split.
    + destruct Hin as [Hin|Hin]; [|right; right; exact Hin].
      rewrite <- Hin. unfold Qmin, GenericMinMax.gmin.
      destruct (x ?= a); [left|left|right; left]; reflexivity.
    + inversion Hall as [|m ms Hm Hms]; subst.
      constructor; [|constructor; [|exact Hms]].
      * eapply Qle_trans; [exact Hm | apply Q.le_min_l].
      * eapply Qle_trans; [exact Hm | apply Q.le_min_r].
Qed.

Lemma fold_max_spec (xs : list Q) : forall x,
  In (fold_left Qmax xs x) (x :: xs) /\
  Forall (fun y => y <= fold_left Qmax xs x) (x :: xs).
Proof.
  induction xs as [|a xs IH]; intros x; simpl.
  - split; [left; reflexivity|]. constructor; [apply Qle_refl|constructor].
  - destruct (IH (Qmax x a)) as [Hin Hall]. split.
    + destruct Hin as [Hin|Hin]; [|right; right; exact Hin].
      rewrite <- Hin. unfold Qmax, GenericMinMax.gmax.
      destruct (x ?= a); [left|right; left|left]; reflexivity.
    + inversion Hall as [|m ms Hm Hms]; subst.
      constructor; [|constructor; [|exact Hms]].
      * eapply Qle_trans; [apply Q.le_max_l | exact Hm].
      * eapply Qle_trans; [apply Q.le_max_r | exact Hm].
Qed.

Lemma notna_map_Some (vals : list Q) : notna (map Some vals) = vals.
Proof.
  unfold notna. induction vals as [|v vals IH]; simpl; [reflexivity|]. f_equal. exact IH.
Qed.

Lemma isnull_all_map_Some (vals : list Q) :
  vals <> [] -> isnull_all (map Some vals) = false.
Proof. destruct vals; [congruence | reflexivity]. Qed.

Lemma nonnull_column (df : list Prep.row) :
  Forall (fun r => Prep.price r <> None) df ->
  exists vals, map Prep.price df = map Some vals.
Proof.
  induction 1 as [|r df Hr _ [vals IH]].
  - exists []. reflexivity.
  - destruct (Prep.price r) as [v|] eqn:E; [|congruence].
    exists (v :: vals). simpl. rewrite E, IH. reflexivity.
Qed.

(** The batch holds two different prices: min-max normalisation. *)
Lemma price_score_col_minmax (vals : list Q) :
  (exists a b, In a vals /\ In b vals /\ ~ a == b) ->
  exists mn mx,
    In mn vals /\ In mx vals /\
    Forall (fun v => mn <= v <= mx) vals /\ mn < mx /\
    price_score_col (map Some vals)
    = map (fun p => match p with
                    | Some v => Some ((mx - v) / (mx - mn))
                    | None => None
                    end) (map Some vals).
Proof.
  intros Hdiff.
  assert (Hne : vals <> []) by (destruct Hdiff as (a & _ & Ha & _); intros ->; destruct Ha).
  unfold price_score_col, nunique, series_min, series_max.
  rewrite notna_map_Some, (isnull_all_map_Some _ Hne).
  apply distinct_values_gt1 in Hdiff as Hlen. apply Nat.ltb_lt in Hlen. rewrite Hlen. simpl.
  destruct vals as [|x xs]; [congruence|].
  destruct (fold_min_spec xs x) as [Hmin_in Hmin].
  destruct (fold_max_spec xs x) as [Hmax_in Hmax].
  set (mn := fold_left Qmin xs x) in *. set (mx := fold_left Qmax xs x) in *.
  assert (Hbounds : Forall (fun v => mn <= v <= mx) (x :: xs)).
  { rewrite List.Forall_forall in *. intros v Hv. split; [apply Hmin | apply Hmax]; exact Hv. }
  assert (Hlt : mn < mx).
  { destruct Hdiff as (a & b & Ha & Hb & Hab).
    rewrite List.Forall_forall in Hbounds.
    pose proof (Hbounds a Ha) as [Ha1 Ha2]. pose proof (Hbounds b Hb) as [Hb1 Hb2].
    destruct (Qlt_le_dec mn mx) as [Hlt|Hle]; [exact Hlt|].
    exfalso. apply Hab. apply Qle_antisym.
    - eapply Qle_trans; [exact Ha2|]. eapply Qle_trans; [exact Hle | exact Hb1].
    - eapply Qle_trans; [exact Hb2|]. eapply Qle_trans; [exact Hle | exact Ha1]. }
  exists mn, mx. split; [exact Hmin_in|]. split; [exact Hmax_in|].
  split; [exact Hbounds|]. split; [exact Hlt|].
  assert (Hneq : Qeq_bool mx mn = false).
  { destruct (Qeq_bool mx mn) eqn:E; [|reflexivity].
    apply Qeq_bool_iff in E. rewrite E in Hlt. exfalso. exact (Qlt_irrefl _ Hlt). }
  unfold feqb. rewrite Hneq. apply map_ext. intros [v|]; reflexivity.
Qed.

(** The batch holds one price only: the constant 0.5. *)
Lemma price_score_col_constant (vals : list Q) :
  vals <> [] ->
  (forall a b, In a vals -> In b vals -> a == b) ->
  price_score_col (map Some vals) = map (fun _ => Some (1 # 2)) (map Some vals).
Proof.
  intros Hne Hsame.
  unfold price_score_col, nunique.
  rewrite notna_map_Some, (isnull_all_map_Some _ Hne).
  destruct (1 <? length (keep_first Qeq_bool vals))%nat eqn:Hlen.
  - apply Nat.ltb_lt, distinct_values_gt1 in Hlen.
    destruct Hlen as (a & b & Ha & Hb & Hab). exfalso. apply Hab, Hsame; assumption.
  - simpl. rewrite length_map.
    destruct vals; [congruence|]. reflexivity.
Qed.

Lemma calculate_as_map (df : list Prep.row) (w_availability w_price : Q)
    (g : option Q -> option Q) :
  price_score_col (map Prep.price df) = map g (map Prep.price df) ->
  calculate_attractiveness_score df w_availability w_price
  = map (fun r => score_row w_availability w_price r (g (Prep.price r))) df.
Proof.
  intros Hcol. unfold calculate_attractiveness_score. rewrite Hcol, zip_with_map.
  destruct df; reflexivity.
Qed.

Lemma zip_with_base (w_availability w_price : Q) (df : list Prep.row) :
  forall col, length col = length df ->
  map Scored.base (zip_with (score_row w_availability w_price) df col) = df.
Proof.
  induction df as [|r df IH]; intros [|c col] Hlen; simpl in *; try reflexivity; try lia.
  f_equal. apply IH. lia.
Qed.

Lemma price_score_col_length (price : list (option Q)) :
  length (price_score_col price) = length price.
Proof.
  unfold price_score_col.
  repeat match goal with |- context [if ?b then _ else _] => destruct b end;
    apply length_map.
Qed.

(** Scoring adds columns: it keeps every row, in order. *)
Lemma calculate_base (df : list Prep.row) (w_availability w_price : Q) :
  map Scored.base (calculate_attractiveness_score df w_availability w_price) = df.
Proof.
  unfold calculate_attractiveness_score. destruct df as [|r df]; [reflexivity|].
  apply zip_with_base. rewrite price_score_col_length, length_map. reflexivity.
Qed.

Lemma unit_interval (mn mx v : Q) :
  mn <= v <= mx -> mn < mx -> 0 <= (mx - v) / (mx - mn) <= 1.
Proof.
  intros [H1 H2] Hlt.
  assert (Hpos : 0 < mx - mn) by lra.
  split.
  - apply Qle_shift_div_l; [exact Hpos | lra].
  - apply Qle_shift_div_r; [exact Hpos | lra].
Qed.

(** C1.  On a batch that is not empty and whose prices are all parsed, every
    row gets a [price_score] between 0 and 1; when all the prices are equal,
    and so when there is a single row, it is exactly 0.5 for every row;
    otherwise it is [(max - price) / (max - min)] for the minimum and the
    maximum of the prices of the batch. *)
Theorem price_score_min_max (df : list Prep.row) (w_availability w_price : Q) :
  df <> [] ->
  Forall (fun r => Prep.price r <> None) df ->
  let scored := calculate_attractiveness_score df w_availability w_price in
  let differ := exists r1 r2 p1 p2,
      In r1 df /\ In r2 df /\ Prep.price r1 = Some p1 /\ Prep.price r2 = Some p2 /\ ~ p1 == p2 in
  map Scored.base scored = df /\
  Forall (fun r => 0 <= Scored.price_score r <= 1) scored /\
  (~ differ -> Forall (fun r => Scored.price_score r = 1 # 2) scored) /\
  (length df = 1%nat -> Forall (fun r => Scored.price_score r = 1 # 2) scored) /\
  (differ ->
   exists price_min price_max,
     (exists r, In r df /\ Prep.price r = Some price_min) /\
     (exists r, In r df /\ Prep.price r = Some price_max) /\
     Forall (fun r => exists p, Prep.price r = Some p /\ price_min <= p <= price_max) df /\
     price_min < price_max /\
     Forall (fun r => exists p, Prep.price (Scored.base r) = Some p /\
                      Scored.price_score r == (price_max - p) / (price_max - price_min))
            scored).
Proof.
  intros Hne Hnonnull scored differ.
  destruct (nonnull_column df Hnonnull) as [vals Hvals].
  assert (Hvne : vals <> []).
  { intros ->. destruct df; [congruence | discriminate]. }
  assert (Hin : forall r p, In r df -> Prep.price r = Some p -> In p vals).
  { intros r p Hr Hp. apply (in_map Prep.price) in Hr. rewrite Hvals, Hp in Hr.
    apply in_map_iff in Hr. destruct Hr as (v & [= ->] & Hv). exact Hv. }
  assert (Hfrom : forall v, In v vals -> exists r, In r df /\ Prep.price r = Some v).
  { intros v Hv. apply (in_map Some) in Hv. rewrite <- Hvals in Hv.
    apply in_map_iff in Hv. destruct Hv as (r & Hr & Hrin). exists r. split; assumption. }
  assert (Hcases : differ <-> exists a b, In a vals /\ In b vals /\ ~ a == b).
  { split.
    - intros (r1 & r2 & p1 & p2 & H1 & H2 & E1 & E2 & Hd).
      exists p1, p2. split; [exact (Hin r1 p1 H1 E1)|]. split; [exact (Hin r2 p2 H2 E2)|exact Hd].
    - intros (a & b & Ha & Hb & Hab).
      destruct (Hfrom a Ha) as (r1 & H1 & E1). destruct (Hfrom b Hb) as (r2 & H2 & E2).
      exists r1, r2, a, b. repeat split; assumption. }
  assert (Hconst : ~ differ -> Forall (fun r => Scored.price_score r = 1 # 2) scored).
  { intros Hsame. subst scored.
    rewrite (calculate_as_map df _ _ (fun _ => Some (1 # 2))).
    - apply List.Forall_map. apply List.Forall_forall. intros r _. reflexivity.
    - rewrite Hvals. apply price_score_col_constant; [exact Hvne|].
      intros a b Ha Hb. destruct (Qeq_dec a b) as [E|E]; [exact E|].
      exfalso. apply Hsame, Hcases. exists a, b. repeat split; assumption. }
  assert (Hformula : differ ->
     exists price_min price_max,
       (exists r, In r df /\ Prep.price r = Some price_min) /\
       (exists r, In r df /\ Prep.price r = Some price_max) /\
       Forall (fun r => exists p, Prep.price r = Some p /\ price_min <= p <= price_max) df /\
       price_min < price_max /\
       Forall (fun r => exists p, Prep.price (Scored.base r) = Some p /\
                        Scored.price_score r == (price_max - p) / (price_max - price_min))
              scored).
  { intros Hd. apply Hcases in Hd.
    destruct (price_score_col_minmax vals Hd) as (mn & mx & Hmn & Hmx & Hb & Hlt & Hcol).
    exists mn, mx. split; [apply Hfrom, Hmn|]. split; [apply Hfrom, Hmx|].
    assert (Hdf : Forall (fun r => exists p, Prep.price r = Some p /\ mn <= p <= mx) df).
    { apply List.Forall_forall. intros r Hr.
      rewrite List.Forall_forall in Hnonnull. specialize (Hnonnull r Hr).
      destruct (Prep.price r) as [p|] eqn:E; [|congruence].
      exists p. split; [reflexivity|].
      rewrite List.Forall_forall in Hb. apply Hb. eapply Hin; eassumption. }
    split; [exact Hdf|]. split; [exact Hlt|].
    subst scored. rewrite <- Hvals in Hcol. rewrite (calculate_as_map df _ _ _ Hcol).
    apply List.Forall_map. eapply List.Forall_impl; [|exact Hdf].
    intros r (p & Hp & _). exists p. simpl. rewrite Hp. split; reflexivity. }
  assert (Hdec : differ \/ ~ differ).
  { destruct (1 <? length (keep_first Qeq_bool vals))%nat eqn:E.
    - left. apply Hcases, distinct_values_gt1, Nat.ltb_lt, E.
    - right. intros Hd. apply Hcases, distinct_values_gt1, Nat.ltb_lt in Hd. congruence. }
  split; [|split; [|split; [exact Hconst|split]]].
  - destruct Hdec as [Hd|Hd].
    + apply calculate_base.
    + apply calculate_base.
  - destruct Hdec as [Hd|Hd].
    + destruct (Hformula Hd) as (mn & mx & _ & _ & Hdf & Hlt & Hall).
      rewrite List.Forall_forall in Hall, Hdf. apply List.Forall_forall. intros r Hr.
      destruct (Hall r Hr) as (p & Hp & Hscore).
      assert (Hb : In (Scored.base r) df).
      { rewrite <- (calculate_base df w_availability w_price). apply in_map. exact Hr. }
      destruct (Hdf _ Hb) as (p' & Hp' & Hbounds).
      rewrite Hp in Hp'. injection Hp' as <-.
      rewrite Hscore. apply unit_interval; assumption.
    + eapply List.Forall_impl; [|exact (Hconst Hd)].
      intros r ->. split; [unfold Qle; simpl; lia | unfold Qle; simpl; lia].
  - intros Hone. apply Hconst. intros (r1 & r2 & p1 & p2 & H1 & H2 & E1 & E2 & Hd).
    destruct df as [|r [|? ?]]; simpl in Hone; try lia.
    destruct H1 as [<-|[]]. destruct H2 as [<-|[]].
    rewrite E1 in E2. injection E2 as <-. apply Hd. reflexivity.
  - exact Hformula.
Qed.

Lemma zip_with_Forall2 {A B C} (f : A -> B -> C) (R : C -> B -> Prop) (l : list A) :
  forall m, length m = length l ->
  (forall a b, R (f a b) b) -> Forall2 R (zip_with f l m) m.
Proof.
  induction l as [|a l IH]; intros [|b m] Hlen HR; simpl in *; try lia; constructor.
  - apply HR.
  - apply IH; [lia | exact HR].
Qed.

(** C2.  Every scored row has
    [final_score = w_avail * availability_score + w_price * price_score], for
    the weights as they are passed (0.6 and 0.4 in the main block); its
    [price_score] is the cell of [price_score_col] with NaN replaced by 0,
    and that substitution is made before the sum. *)
Theorem final_score_weighted_sum (df : list Prep.row) (w_availability w_price : Q) :
  let scored := calculate_attractiveness_score df w_availability w_price in
  Forall (fun r =>
            Scored.final_score r
            == w_availability * inject_Z (Scored.availability_score r)
               + w_price * Scored.price_score r) scored /\
  Forall2 (fun r ps =>
             match ps with
             | None => Scored.price_score r = 0 /\
                       Scored.final_score r
                       == w_availability * inject_Z (Scored.availability_score r)
             | Some x => Scored.price_score r = x
             end) scored (price_score_col (map Prep.price df)) /\
  price_score_col [Some 1; None; Some 3]
  = [Some ((3 - 1) / (3 - 1)); None; Some ((3 - 3) / (3 - 1))] /\
  map fillna0 (price_score_col [Some 1; None; Some 3])
  = [(3 - 1) / (3 - 1); 0; (3 - 3) / (3 - 1)] /\
  WEIGHT_AVAILABILITY == 0.6 /\ WEIGHT_PRICE == 0.4.
Proof.
  intros scored. subst scored. split; [|split; [|split; [|split; [|split]]]].
  - unfold calculate_attractiveness_score. destruct df as [|r0 df0]; [constructor|].
    generalize (price_score_col (map Prep.price (r0 :: df0))).
    generalize (r0 :: df0). clear.
    induction l as [|r l IH]; intros [|c col]; simpl; constructor.
    + simpl. ring.
    + apply IH.
  - unfold calculate_attractiveness_score.
    destruct df as [|r0 df0]; [constructor|].
    apply zip_with_Forall2.
    + rewrite price_score_col_length, length_map. reflexivity.
    + intros r [x|]; simpl; [reflexivity|]. split; [reflexivity|]. ring.
  - reflexivity.
  - reflexivity.
  - reflexivity.
  - reflexivity.
Qed.

(** ** Normalizer *)

Lemma preprocess_as_flat_map (df : list Unified.row) :
  preprocess_combined_data df
  = flat_map (fun r => match clean_and_convert_price (Unified.price r) with
                       | Some q => [fill_columns (Some q, r)]
                       | None => []
                       end) df.
Proof.
  unfold preprocess_combined_data, apply_clean_price, dropna_price.
  induction df as [|r df IH]; simpl; [reflexivity|].
  destruct (clean_and_convert_price (Unified.price r)); simpl; rewrite IH; reflexivity.
Qed.

(** Every preprocessed row comes from a row whose price parsed. *)
Lemma preprocess_origin (df : list Unified.row) (r : Prep.row) :
  In r (preprocess_combined_data df) <->
  exists u q, In u df /\ clean_and_convert_price (Unified.price u) = Some q /\
              r = fill_columns (Some q, u).
Proof.
  rewrite preprocess_as_flat_map, in_flat_map. split.
  - intros (u & Hu & Hr). destruct (clean_and_convert_price (Unified.price u)) as [q|] eqn:E.
    + destruct Hr as [<-|[]]. exists u, q. repeat split; assumption.
    + destruct Hr.
  - intros (u & q & Hu & E & ->). exists u. split; [exact Hu|]. rewrite E. left. reflexivity.
Qed.

Lemma calculate_rows (df : list Prep.row) (w_availability w_price : Q) :
  Forall (fun r => In (Scored.base r) df /\
                   Scored.availability_score r = Prep.is_available_numeric (Scored.base r))
         (calculate_attractiveness_score df w_availability w_price).
Proof.
  apply List.Forall_forall. intros r Hr. split.
  - rewrite <- (calculate_base df w_availability w_price). apply in_map. exact Hr.
  - unfold calculate_attractiveness_score in Hr. destruct df as [|r0 df0]; [destruct Hr|].
    revert Hr. generalize (price_score_col (map Prep.price (r0 :: df0))).
    generalize (r0 :: df0). clear.
    induction l as [|a l IH]; intros [|c col]; simpl; try tauto.
    intros [<-|Hr]; [reflexivity | exact (IH _ Hr)].
Qed.

(** C10.  [availability_score] is 1 exactly when the raw availability is a
    string whose lower-cased form is ["available"]; for anything else (a value
    that is not a string, a null, another wording such as ["in stock"]) it is 0. *)
Theorem availability_score_exact (df : list Unified.row) (w_availability w_price : Q) :
  (forall x : pyval,
      (availability_flag x = 1%Z <-> exists s, x = PyStr s /\ lower s = "available") /\
      (availability_flag x = 0%Z <-> ~ exists s, x = PyStr s /\ lower s = "available")) /\
  Forall (fun r => exists u,
              In u df /\
              Prep.availability (Scored.base r) = Unified.availability u /\
              Scored.availability_score r = availability_flag (Unified.availability u))
         (calculate_attractiveness_score (preprocess_combined_data df) w_availability w_price) /\
  availability_flag (PyStr "Available") = 1%Z /\
  availability_flag (PyStr "AVAILABLE") = 1%Z /\
  availability_flag (PyStr "in stock") = 0%Z /\
  availability_flag (PyStr "available now") = 0%Z /\
  availability_flag PyNull = 0%Z /\
  availability_flag (PyNum 1) = 0%Z /\
  availability_flag (PyObj "available") = 0%Z.
Proof.
  split; [|split; [|repeat split]].
  - intros x. split; [apply availability_flag_one | apply availability_flag_zero].
  - eapply List.Forall_impl; [|apply calculate_rows].
    intros r [Hb Hs]. apply preprocess_origin in Hb. destruct Hb as (u & q & Hu & _ & Hr).
    exists u. split; [exact Hu|]. rewrite Hs, Hr. split; reflexivity.
Qed.

Lemma clean_html_not_text (x : pyval) :
  (forall s, x <> PyStr s) -> clean_html x = "".
Proof. destruct x; try reflexivity. intros H. exfalso. exact (H s eq_refl). Qed.

(** A WooCommerce row after preprocessing: its description is still null and
    its [description_text] is the empty text, not ["N/A"]. *)
Lemma woo_description_is_not_na :
  let df := preprocess_combined_data
              (fetch_woocommerce_data
                 [Woo.mk (Some "https://shop/p") (Some "Button") (PyStr "$10.00") None None None]) in
  exists r, In r df /\
            Prep.description r = PyNull /\
            Prep.description_text r = "" /\
            Prep.description_text r <> "N/A".
Proof.
  eexists. split; [left; reflexivity|]. repeat split. discriminate.
Qed.

(** C7, amended.  After preprocessing, the six text fields [title], [vendor],
    [product_category], [source_store_name], [product_tags] and [sku] of every
    row are never null: each holds the source value, or ["N/A"] where the
    source had none.  [price] is never null, [is_available_numeric] is 0 when
    the availability is null, and [description_text] is the empty text when
    the description is null or not a string.  The raw [description] and
    [availability] cells are kept as they were. *)
Theorem absent_fields_filled (df : list Unified.row) :
  Forall (fun r =>
            exists u q,
              In u df /\
              Prep.title r = Some (text_or_na (Unified.title u)) /\
              Prep.vendor r = Some (text_or_na (Unified.vendor u)) /\
              Prep.product_category r = Some (text_or_na (Unified.product_category u)) /\
              Prep.source_store_name r = Some (text_or_na (Unified.source_store_name u)) /\
              Prep.product_tags r = Some (text_or_na (Unified.product_tags u)) /\
              Prep.sku r = Some (text_or_na (Unified.sku u)) /\
              Prep.price r = Some q /\
              (Unified.availability u = PyNull -> Prep.is_available_numeric r = 0%Z) /\
              ((forall s, Unified.description u <> PyStr s) -> Prep.description_text r = "") /\
              Prep.description r = Unified.description u /\
              Prep.availability r = Unified.availability u)
         (preprocess_combined_data df) /\
  text_or_na None = "N/A" /\
  (forall s, text_or_na (Some s) = s) /\
  Forall (fun r => Prep.product_tags r = Some "N/A" /\ Prep.sku r = Some "N/A")
         (preprocess_combined_data (fetch_shopify_data
            [Shopify.mk (Some "https://s/p") (Some "Lamp") (Some "V") (PyObj "12.50")
                        PyNull PyNull None (Some "S")])).
Proof.
  split; [|split; [reflexivity|split; [reflexivity|]]].
  - apply List.Forall_forall. intros r Hr. apply preprocess_origin in Hr.
    destruct Hr as (u & q & Hu & _ & ->). exists u, q.
    split; [exact Hu|].
    unfold fill_columns; simpl.
    repeat split;
      try (destruct (Unified.title u), (Unified.vendor u), (Unified.product_category u),
             (Unified.source_store_name u), (Unified.product_tags u), (Unified.sku u);
           reflexivity).
    + intros ->. reflexivity.
    + apply clean_html_not_text.
  - repeat constructor.
Qed.

(** ** Merge *)

Lemma filter_filter_none {A} (p q : A -> bool) (l : list A) :
  (forall y, p y = true -> q y = false) -> List.filter p (List.filter q l) = [].
Proof.
  intros H. induction l as [|a l IH]; simpl; [reflexivity|].
  destruct (q a) eqn:Eq; [|exact IH]. simpl.
  destruct (p a) eqn:Ep; [|exact IH]. rewrite (H a Ep) in Eq. discriminate.
Qed.

Lemma filter_filter_all {A} (p q : A -> bool) (l : list A) :
  (forall y, p y = true -> q y = true) -> List.filter p (List.filter q l) = List.filter p l.
Proof.
  intros H. induction l as [|a l IH]; simpl; [reflexivity|].
  destruct (q a) eqn:Eq; simpl.
  - destruct (p a); [f_equal|]; exact IH.
  - destruct (p a) eqn:Ep; [|exact IH]. rewrite (H a Ep) in Eq. discriminate.
Qed.

Section KeepFirstFind.
Context {A : Type} (same : A -> A -> bool).
Hypothesis same_sym : forall x y, same x y = true -> same y x = true.
Hypothesis same_trans : forall x y z, same x y = true -> same y z = true -> same x z = true.

(** Of the rows related to [x], [keep_first] keeps the first and only it. *)
Lemma keep_first_filter_find (l : list A) (x : A) :
  List.filter (fun y => same y x) (keep_first same l)
  = match List.find (fun y => same y x) l with Some y => [y] | None => [] end.
Proof.
  induction l as [|a l IH]; simpl; [reflexivity|].
  destruct (same a x) eqn:E.
  - f_equal. apply filter_filter_none. intros y Hy.
    apply negb_false_iff. apply same_trans with x; [exact Hy | apply same_sym, E].
  - rewrite filter_filter_all; [exact IH|].
    intros y Hy. apply negb_true_iff.
    destruct (same y a) eqn:Eya; [|reflexivity].
    rewrite <- E. symmetry. apply same_trans with y; [apply same_sym, Eya | exact Hy].
Qed.
End KeepFirstFind.

Lemma opt_string_eqb_eq (a b : option string) : opt_string_eqb a b = true <-> a = b.
Proof.
  destruct a as [x|], b as [y|]; simpl; try (split; congruence).
  rewrite String.eqb_eq. split; congruence.
Qed.

Lemma same_url_sym (x y : Unified.row) : same_url x y = true -> same_url y x = true.
Proof. unfold same_url. rewrite !opt_string_eqb_eq. congruence. Qed.

Lemma same_url_trans (x y z : Unified.row) :
  same_url x y = true -> same_url y z = true -> same_url x z = true.
Proof. unfold same_url. rewrite !opt_string_eqb_eq. congruence. Qed.

Lemma same_url_refl (x : Unified.row) : same_url x x = true.
Proof. unfold same_url. apply opt_string_eqb_eq. reflexivity. Qed.

Lemma distinct_pairs_NoDup {A K} (key : A -> K) (l : list A) :
  ForallOrdPairs (fun x y => key y <> key x) l -> List.NoDup (map key l).
Proof.
  induction 1 as [|a l Ha _ IH]; simpl; constructor; [|exact IH].
  intros Hin. apply in_map_iff in Hin. destruct Hin as (y & Hy & Hyl).
  rewrite List.Forall_forall in Ha. exact (Ha y Hyl Hy).
Qed.

Lemma ForallOrdPairs_impl {A} (P Q : A -> A -> Prop) (l : list A) :
  (forall x y, P x y -> Q x y) -> ForallOrdPairs P l -> ForallOrdPairs Q l.
Proof.
  intros H. induction 1 as [|a l Ha _ IH]; constructor; [|exact IH].
  eapply List.Forall_impl; [|exact Ha]. intros y. apply H.
Qed.

Lemma drop_duplicates_url_NoDup (df : list Unified.row) :
  List.NoDup (map Unified.product_url (drop_duplicates_url df)).
Proof.
  apply distinct_pairs_NoDup.
  eapply ForallOrdPairs_impl; [|apply (keep_first_distinct same_url)].
  intros x y H Heq. unfold same_url in H. rewrite Heq in H.
  rewrite (proj2 (opt_string_eqb_eq _ _) eq_refl) in H. discriminate.
Qed.

(** Fetched rows carry their platform, so none of them is entirely empty. *)
Lemma dropna_all_fetched (products : list Shopify.row) (barefoot_products : list Woo.row) :
  dropna_all (fetch_shopify_data products ++ fetch_woocommerce_data barefoot_products)
  = (fetch_shopify_data products ++ fetch_woocommerce_data barefoot_products)%list.
Proof.
  unfold dropna_all. apply forallb_filter_id. apply forallb_forall.
  intros r Hr. apply in_app_or in Hr.
  unfold fetch_shopify_data, fetch_woocommerce_data in Hr.
  destruct Hr as [Hr|Hr]; apply in_map_iff in Hr; destruct Hr as (x & <- & _);
    unfold all_null; simpl; rewrite ?andb_false_r; reflexivity.
Qed.

Lemma find_app_l {A} (p : A -> bool) (l m : list A) (x : A) :
  List.find p l = Some x -> List.find p (l ++ m) = Some x.
Proof.
  induction l as [|a l IH]; simpl; [discriminate|].
  destruct (p a); [tauto | exact IH].
Qed.

Lemma find_some_of_In {A} (p : A -> bool) (l : list A) (x : A) :
  In x l -> p x = true -> exists y, List.find p l = Some y.
Proof.
  induction l as [|a l IH]; simpl; [tauto|].
  intros [->|Hx] Hp.
  - rewrite Hp. eauto.
  - destruct (p a); [eauto | exact (IH Hx Hp)].
Qed.

(** C4.  After the merge every product URL of the two sources occurs once;
    for a URL found in both sources the row that survives is the Shopify row
    (the first of them), Shopify rows being read before WooCommerce rows. *)
Theorem merge_keeps_first_read (products : list Shopify.row) (barefoot_products : list Woo.row) :
  let df_shopify_raw := fetch_shopify_data products in
  let df_woocommerce_raw := fetch_woocommerce_data barefoot_products in
  let combined_df := combine df_shopify_raw df_woocommerce_raw in
  let has_url u := fun r => opt_string_eqb (Unified.product_url r) u in
  List.NoDup (map Unified.product_url combined_df) /\
  (forall u, In u (map Unified.product_url (df_shopify_raw ++ df_woocommerce_raw)) <->
             In u (map Unified.product_url combined_df)) /\
  (forall u, In u (map Unified.product_url (df_shopify_raw ++ df_woocommerce_raw)) ->
             exists r, List.find (has_url u) (df_shopify_raw ++ df_woocommerce_raw) = Some r /\
                       List.filter (has_url u) combined_df = [r]) /\
  (forall u, In u (map Unified.product_url df_shopify_raw) ->
             In u (map Unified.product_url df_woocommerce_raw) ->
             exists r, List.find (has_url u) df_shopify_raw = Some r /\
                       In r df_shopify_raw /\
                       List.filter (has_url u) combined_df = [r]).
Proof.
  intros s w merged has_url.
  assert (Hmerged : merged = keep_first same_url (s ++ w)).
  { unfold merged, combine, drop_duplicates_url. subst s w.
    rewrite dropna_all_fetched. reflexivity. }
  assert (Hfilter : forall x, List.filter (has_url (Unified.product_url x)) merged
                    = match List.find (has_url (Unified.product_url x)) (s ++ w) with
                      | Some y => [y] | None => [] end).
  { intros x. rewrite Hmerged.
    exact (keep_first_filter_find same_url same_url_sym same_url_trans (s ++ w) x). }
  assert (Hone : forall u, In u (map Unified.product_url (s ++ w)) ->
                 exists r, List.find (has_url u) (s ++ w) = Some r /\
                           List.filter (has_url u) merged = [r]).
  { intros u Hu. apply in_map_iff in Hu. destruct Hu as (x & <- & Hx).
    destruct (find_some_of_In (has_url (Unified.product_url x)) _ x Hx (same_url_refl x))
      as [y Hy].
    exists y. split; [exact Hy|]. rewrite Hfilter, Hy. reflexivity. }
  split; [|split; [|split]].
  - unfold merged, combine. apply drop_duplicates_url_NoDup.
  - intros u. split.
    + intros Hu. destruct (Hone u Hu) as (r & _ & Hr).
      assert (Hin : In r (List.filter (has_url u) merged)) by (rewrite Hr; left; reflexivity).
      apply filter_In in Hin. destruct Hin as [Hin Hurl].
      apply opt_string_eqb_eq in Hurl. subst u. apply in_map. exact Hin.
    + rewrite Hmerged. intros Hu. apply in_map_iff in Hu. destruct Hu as (x & <- & Hx).
      apply in_map. eapply keep_first_In. exact Hx.
  - exact Hone.
  - intros u Hs _. apply in_map_iff in Hs. destruct Hs as (x & <- & Hx).
    destruct (find_some_of_In (has_url (Unified.product_url x)) _ x Hx (same_url_refl x))
      as [y Hy].
    exists y. split; [exact Hy|]. split; [apply find_some in Hy; apply Hy|].
    rewrite Hfilter, (find_app_l _ _ _ _ Hy). reflexivity.
Qed.

(** ** Sorting *)

Section StableSort.
Context {A : Type} (before : A -> A -> bool).

Lemma insert_sorted_perm (x : A) (l : list A) :
  Permutation (insert_sorted before x l) (x :: l).
Proof.
  induction l as [|y l IH]; simpl; [reflexivity|].
  destruct (before x y); [reflexivity|].
  rewrite IH. apply perm_swap.
Qed.

Lemma stable_sort_perm (l : list A) : Permutation (stable_sort before l) l.
Proof.
  induction l as [|x l IH]; simpl; [reflexivity|].
  rewrite insert_sorted_perm, IH. reflexivity.
Qed.

Hypothesis before_total : forall x y, before x y = false -> before y x = true.
Hypothesis before_trans :
  forall x y z, before x y = true -> before y z = true -> before x z = true.

Lemma insert_sorted_sorted (x : A) (l : list A) :
  StronglySorted (fun a b => before a b = true) l ->
  StronglySorted (fun a b => before a b = true) (insert_sorted before x l).
Proof.
  induction 1 as [|y l Hl IH Hy]; simpl.
  - constructor; constructor.
  - destruct (before x y) eqn:E.
    + constructor; [constructor; assumption|].
      constructor; [exact E|].
      eapply List.Forall_impl; [|exact Hy]. intros z Hz. exact (before_trans _ _ _ E Hz).
    + constructor; [exact IH|].
      eapply Permutation_Forall; [symmetry; apply insert_sorted_perm|].
      constructor; [apply before_total, E | exact Hy].
Qed.

Lemma stable_sort_sorted (l : list A) :
  StronglySorted (fun a b => before a b = true) (stable_sort before l).
Proof.
  induction l as [|x l IH]; simpl; [constructor|]. apply insert_sorted_sorted, IH.
Qed.
End StableSort.

Lemma desc_total {A} (key : A -> Q) (x y : A) : desc key x y = false -> desc key y x = true.
Proof.
  unfold desc. intros H. apply Qle_bool_iff.
  destruct (Qlt_le_dec (key x) (key y)) as [Hlt|Hle]; [apply Qlt_le_weak, Hlt|].
  apply Qle_bool_iff in Hle. congruence.
Qed.

Lemma desc_trans {A} (key : A -> Q) (x y z : A) :
  desc key x y = true -> desc key y z = true -> desc key x z = true.
Proof.
  unfold desc. rewrite !Qle_bool_iff. intros H1 H2. eapply Qle_trans; eassumption.
Qed.

Lemma stable_sort_desc_sorted {A} (key : A -> Q) (l : list A) :
  StronglySorted (fun x y => key y <= key x) (stable_sort (desc key) l).
Proof.
  pose proof (stable_sort_sorted (desc key) (desc_total key) (desc_trans key) l) as H.
  induction H as [|x m Hm IH Hx]; constructor; [exact IH|].
  eapply List.Forall_impl; [|exact Hx]. intros y Hy. apply Qle_bool_iff. exact Hy.
Qed.

Lemma stable_sorter_sorts : sorts_descending stable_sorter.
Proof.
  intros A key l. split; [apply stable_sort_perm | apply stable_sort_desc_sorted].
Qed.

Lemma Qle_bool_false (x y : Q) : Qle_bool x y = false -> y < x.
Proof.
  intros H. destruct (Qlt_le_dec y x) as [Hlt|Hle]; [exact Hlt|].
  apply Qle_bool_iff in Hle. congruence.
Qed.

(** Finds the head of the left list in the right one. *)
Ltac perm_front :=
  lazymatch goal with
  | |- Permutation [] [] => apply perm_nil
  | |- Permutation (?x :: _) (?x :: _) => apply perm_skip; perm_front
  | |- Permutation (?x :: ?l) (?y :: ?x :: ?l2) =>
      apply (@Permutation_cons_app _ l [y] l2 x); cbn [app]; perm_front
  | |- Permutation (?x :: ?l) (?y :: ?z :: ?x :: ?l2) =>
      apply (@Permutation_cons_app _ l [y; z] l2 x); cbn [app]; perm_front
  | |- Permutation (?x :: ?l) (?y :: ?z :: ?w :: ?x :: ?l2) =>
      apply (@Permutation_cons_app _ l [y; z; w] l2 x); cbn [app]; perm_front
  end.

Ltac network_cases :=
  repeat match goal with
         | |- context [Qle_bool ?x ?y] =>
             let E := fresh "E" in
             destruct (Qle_bool x y) eqn:E;
             [apply Qle_bool_iff in E | apply Qle_bool_false in E];
             cbn [negb some_values rev app]
         end.

(** The network sorts: the default sort of a short frame keeps the promise
    of [sort_values]. *)
Lemma quicksort_sorter_sorts (longer : sorter) :
  sorts_descending longer -> sorts_descending (quicksort_sorter longer).
Proof.
  intros Hlonger A key l. unfold quicksort_sorter.
  destruct (length l <=? 4)%nat eqn:Hlen; [|apply Hlonger].
  destruct l as [|a [|b [|c [|d [|e l]]]]]; [| | | | |discriminate Hlen]; clear Hlen;
    cbn [rev app]; unfold argsort4, bitonic4, compare_exchange, lane_gt;
    cbn [nth_error some_values rev app];
    network_cases;
    (split;
     [perm_front
     |repeat first [apply SSorted_nil | apply SSorted_cons
                   | apply List.Forall_nil | apply List.Forall_cons];
      lra]).
Qed.

Lemma StronglySorted_app_inv {A} (R : A -> A -> Prop) (l1 l2 : list A) :
  StronglySorted R (l1 ++ l2)%list ->
  StronglySorted R l1 /\ StronglySorted R l2 /\ Forall (fun a => Forall (R a) l2) l1.
Proof.
  induction l1 as [|a l1 IH]; simpl; intros H.
  - repeat split; [constructor | exact H | constructor].
  - inversion H as [|? ? Hs Ha]; subst. destruct (IH Hs) as (H1 & H2 & H3).
    apply Forall_app in Ha. destruct Ha as [Ha1 Ha2].
    repeat split; [constructor; assumption | exact H2 | constructor; assumption].
Qed.

(** A sorted frame cut after [k] rows: the head is sorted, has [min k n]
    rows, and no row of the tail beats a row of the head. *)
Lemma sorted_head {A} (key : A -> Q) (k : nat) (s : list A) :
  StronglySorted (fun x y => key y <= key x) s ->
  StronglySorted (fun x y => key y <= key x) (firstn k s) /\
  length (firstn k s) = Nat.min k (length s) /\
  Forall (fun r => Forall (fun o => key r <= key o) (firstn k s)) (skipn k s).
Proof.
  intros Hs. rewrite <- (firstn_skipn k s) in Hs.
  apply StronglySorted_app_inv in Hs. destruct Hs as (H1 & _ & H3).
  split; [exact H1|]. split; [apply List.length_firstn|].
  apply List.Forall_forall. intros r Hr. apply List.Forall_forall. intros o Ho.
  rewrite List.Forall_forall in H3. specialize (H3 o Ho).
  rewrite List.Forall_forall in H3. exact (H3 r Hr).
Qed.

(** ** Rank derivers *)

(** Four rows in ascending order of [final_score], the last two with the
    same score: the default sort returns them in the reverse of their input
    order, so the top row is the second of the two tied rows, where a stable
    sort returns the first.  (With four rows the sort of longer frames plays
    no part; it is set to the stable one.) *)
Lemma top_k_ties_not_input_order :
  let a := example_row "https://s/a" "S" (1 # 4) in
  let b := example_row "https://s/b" "S" (1 # 2) in
  let c := example_row "https://s/c" "S" 1 in
  let d := example_row "https://s/d" "S" 1 in
  let sort_values := quicksort_sorter stable_sorter in
  sorts_descending sort_values /\
  sort_values _ Scored.final_score [a; b; c; d] = [d; c; b; a] /\
  display_top_k_products sort_values [a; b; c; d] 1 = [d] /\
  stable_top_k [a; b; c; d] 1 = [c] /\
  display_top_k_products sort_values [a; b; c; d] 1 <> stable_top_k [a; b; c; d] 1.
Proof.
  split; [exact (quicksort_sorter_sorts stable_sorter stable_sorter_sorts)|].
  split; [reflexivity|]. split; [reflexivity|]. split; [reflexivity|]. discriminate.
Qed.

(** C3, amended.  The top-K deriver returns exactly [min k (population size)]
    rows, in descending order of [final_score]; they are [k] best rows (no
    row left out beats a row returned), and the whole population when [k] is
    at least its size.  The order of rows with equal [final_score] is the one
    the library's default sort happens to give. *)
Theorem top_k_sorted_head (sort_values : sorter) (df : list Scored.row) (k : nat) :
  sorts_descending sort_values ->
  let top_k := display_top_k_products sort_values df k in
  length top_k = Nat.min k (length df) /\
  StronglySorted (fun x y => Scored.final_score y <= Scored.final_score x) top_k /\
  (exists rest,
      Permutation (top_k ++ rest) df /\
      Forall (fun r => Forall (fun o => Scored.final_score r <= Scored.final_score o) top_k)
             rest) /\
  ((length df <= k)%nat -> Permutation top_k df).
Proof.
  intros Hsort top_k. subst top_k. unfold display_top_k_products.
  destruct df as [|r0 df0].
  - rewrite Nat.min_0_r. repeat split; [constructor | | reflexivity].
    exists []. split; [reflexivity | constructor].
  - destruct (Hsort _ Scored.final_score (r0 :: df0)) as [Hperm Hsorted].
    set (s := sort_values _ Scored.final_score (r0 :: df0)) in *.
    destruct (sorted_head Scored.final_score k s Hsorted) as (H1 & H2 & H3).
    split; [rewrite H2, (Permutation_length Hperm); reflexivity|].
    split; [exact H1|]. split.
    + exists (skipn k s). split; [rewrite firstn_skipn; exact Hperm | exact H3].
    + intros Hk. rewrite firstn_all2; [exact Hperm|].
      rewrite (Permutation_length Hperm). exact Hk.
Qed.

Lemma top_k_sorted_head_witness :
  let a := example_row "https://s/a" "S" (1 # 5) in
  let b := example_row "https://s/b" "S" (1 # 2) in
  sorts_descending stable_sorter /\
  length (display_top_k_products stable_sorter [a; b] 1) = Nat.min 1 (length [a; b]) /\
  display_top_k_products stable_sorter [a; b] 1 = [b].
Proof.
  split; [exact stable_sorter_sorts|]. split; [|reflexivity].
  exact (proj1 (top_k_sorted_head stable_sorter
                  [example_row "https://s/a" "S" (1 # 5); example_row "https://s/b" "S" (1 # 2)]
                  1 stable_sorter_sorts)).
Defined.

(** Group keys *)

Lemma some_values_In {A} (col : list (option A)) (x : A) :
  In x (some_values col) <-> In (Some x) col.
Proof.
  induction col as [|[y|] col IH]; simpl.
  - tauto.
  - rewrite IH. split; (intros [H|H]; [left; congruence | right; exact H]).
  - rewrite IH. split; [tauto|]. intros [H|H]; [discriminate | exact H].
Qed.

Lemma string_eqb_sym (x y : string) : String.eqb x y = true -> String.eqb y x = true.
Proof. rewrite !String.eqb_eq. congruence. Qed.

Lemma string_eqb_trans (x y z : string) :
  String.eqb x y = true -> String.eqb y z = true -> String.eqb x z = true.
Proof. rewrite !String.eqb_eq. congruence. Qed.

Lemma group_keys_In (col : list (option string)) (s : string) :
  In s (group_keys col) <-> In (Some s) col.
Proof.
  unfold group_keys. rewrite <- some_values_In. split.
  - intros H. apply (Permutation_in _ (stable_sort_perm String.leb _)) in H.
    eapply keep_first_In. exact H.
  - intros H.
    apply (Permutation_in _ (Permutation_sym (stable_sort_perm String.leb _))).
    destruct (keep_first_repr String.eqb String.eqb_refl string_eqb_sym string_eqb_trans
                _ s H) as (y & Hy & Hys).
    apply String.eqb_eq in Hys. subst y. exact Hy.
Qed.

Lemma group_keys_NoDup (col : list (option string)) : List.NoDup (group_keys col).
Proof.
  unfold group_keys.
  eapply Permutation_NoDup; [symmetry; apply stable_sort_perm|].
  rewrite <- (map_id (keep_first String.eqb (some_values col))).
  apply distinct_pairs_NoDup.
  eapply ForallOrdPairs_impl;
    [|apply (keep_first_distinct String.eqb)].
  intros x y H Heq. simpl in Heq. subst y. rewrite String.eqb_refl in H. discriminate.
Qed.

Lemma group_In {A} (store : A -> option string) (s : string) (df : list A) (r : A) :
  In r (group store s df) <-> In r df /\ store r = Some s.
Proof. unfold group. rewrite filter_In, opt_string_eqb_eq. reflexivity. Qed.

Lemma group_nil_of_absent {A} (store : A -> option string) (s : string) (df : list A) :
  ~ In (Some s) (map store df) -> group store s df = [].
Proof.
  intros H. destruct (group store s df) as [|r g] eqn:E; [reflexivity|].
  exfalso. apply H. assert (Hr : In r (group store s df)) by (rewrite E; left; reflexivity).
  apply group_In in Hr. destruct Hr as [Hr <-]. apply in_map. exact Hr.
Qed.

(** Grouping a frame that was assembled group by group gives back the
    pieces. *)
Lemma group_flat_map {A} (store : A -> option string) (f : string -> list A)
    (keys : list string) (s : string) :
  List.NoDup keys ->
  (forall k r, In r (f k) -> store r = Some k) ->
  group store s (flat_map f keys) = if in_dec string_dec s keys then f s else [].
Proof.
  intros Hnd Hf. induction Hnd as [|k keys Hk _ IH]; simpl; [reflexivity|].
  unfold group in *. rewrite List.filter_app, IH.
  assert (Hown : forall k', List.filter (fun r => opt_string_eqb (store r) (Some k')) (f k)
                            = if bool_decide (k = k') then f k else []).
  { intros k'. case_bool_decide as E.
    - subst k'. apply forallb_filter_id, forallb_forall. intros r Hr.
      apply opt_string_eqb_eq, (Hf _ _ Hr).
    - destruct (List.filter _ (f k)) as [|r g] eqn:Eg; [reflexivity|].
      exfalso. assert (Hr : In r (List.filter (fun r => opt_string_eqb (store r) (Some k')) (f k)))
        by (rewrite Eg; left; reflexivity).
      apply filter_In in Hr. destruct Hr as [Hr Hs]. apply opt_string_eqb_eq in Hs.
      rewrite (Hf _ _ Hr) in Hs. congruence. }
  rewrite Hown.
  destruct (string_dec k s) as [->|Hne].
  - rewrite bool_decide_eq_true_2 by reflexivity.
    destruct (in_dec string_dec s keys) as [Hin|_]; [contradiction | apply app_nil_r].
  - rewrite bool_decide_eq_false_2 by exact Hne.
    destruct (in_dec string_dec s keys); reflexivity.
Qed.

Lemma firstn_In {A} (n : nat) (l : list A) (x : A) : In x (firstn n l) -> In x l.
Proof.
  intros H. rewrite <- (firstn_skipn n l). apply in_or_app. left. exact H.
Qed.

Lemma nlargest_In {A} (key : A -> Q) (n : nat) (l : list A) (r : A) :
  In r (nlargest key n l) -> In r l.
Proof.
  unfold nlargest. intros H. apply firstn_In in H.
  exact (Permutation_in _ (stable_sort_perm (desc key) l) H).
Qed.

Lemma flagship_group (df : list Scored.row) (n_flagship : nat) (s : string) :
  In (Some s) (map store_of df) ->
  group store_of s (display_flagship_products_per_store df n_flagship)
  = nlargest Scored.final_score n_flagship (group store_of s df).
Proof.
  intros Hs. unfold display_flagship_products_per_store.
  destruct df as [|r0 df0]; [destruct Hs|].
  rewrite group_flat_map.
  - destruct (in_dec string_dec s (group_keys (map store_of (r0 :: df0)))) as [_|Hn];
      [reflexivity|]. exfalso. apply Hn, group_keys_In, Hs.
  - apply group_keys_NoDup.
  - intros k r Hr. apply nlargest_In, group_In in Hr. apply Hr.
Qed.

Lemma enumerate_from_snd {A} (l : list A) : forall i, map snd (enumerate_from i l) = l.
Proof. induction l as [|x l IH]; intros i; simpl; [reflexivity|]. f_equal. apply IH. Qed.

Lemma enumerate_from_fst {A} (l : list A) : forall i,
  map fst (enumerate_from i l) = seq i (length l).
Proof. induction l as [|x l IH]; intros i; simpl; [reflexivity|]. f_equal. apply IH. Qed.

Lemma filter_map_comm {A B} (p : B -> bool) (f : A -> B) (l : list A) :
  List.filter p (map f l) = map f (List.filter (fun a => p (f a)) l).
Proof.
  induction l as [|a l IH]; simpl; [reflexivity|].
  destruct (p (f a)); simpl; rewrite IH; reflexivity.
Qed.

(** The tuples written for one store are its rows of [flagship_df], in
    order, numbered from 1. *)
Lemma flagship_tuples_of_store (flagship_df : list Scored.row) (s : string) :
  List.filter (fun t => opt_string_eqb (Flagship.source_store_name t) (Some s))
              (flagship_tuples flagship_df)
  = map (fun ir => flagship_tuple (fst ir) (snd ir))
        (enumerate_from 1 (group store_of s flagship_df)).
Proof.
  unfold flagship_tuples, ranked_flagship_list.
  rewrite filter_map_comm, <- flat_map_concat_map. f_equal.
  change (List.filter _ ?l) with (group (fun ir : nat * Scored.row => store_of (snd ir)) s l).
  rewrite group_flat_map.
  - destruct (in_dec string_dec s (group_keys (map store_of flagship_df))) as [_|Hn];
      [reflexivity|].
    rewrite group_nil_of_absent; [reflexivity|].
    intros H. apply Hn, group_keys_In, H.
  - apply group_keys_NoDup.
  - intros k [i r] Hr. simpl.
    apply (in_map snd) in Hr. rewrite enumerate_from_snd in Hr. simpl in Hr.
    apply group_In in Hr. apply Hr.
Qed.

(** C5.  Every store of the scored set has exactly [min n (group size)]
    entries in the flagship output; they are the store's top [n] rows by
    [final_score], in descending order; and the rows written for the store
    carry the ranks 1, 2, ..., up to their number. *)
Theorem flagship_per_store (df : list Scored.row) (n_flagship : nat) (s : string) :
  In (Some s) (map store_of df) ->
  let flagship := display_flagship_products_per_store df n_flagship in
  let members := group store_of s df in
  let entries := group store_of s flagship in
  let written :=
    List.filter (fun t => opt_string_eqb (Flagship.source_store_name t) (Some s))
                (flagship_tuples flagship) in
  members <> [] /\
  length entries = Nat.min n_flagship (length members) /\
  StronglySorted (fun x y => Scored.final_score y <= Scored.final_score x) entries /\
  (exists rest,
      Permutation (entries ++ rest) members /\
      Forall (fun r => Forall (fun o => Scored.final_score r <= Scored.final_score o) entries)
             rest) /\
  written = map (fun ir => flagship_tuple (fst ir) (snd ir)) (enumerate_from 1 entries) /\
  map Flagship.store_rank written = seq 1 (Nat.min n_flagship (length members)).
Proof.
  intros Hs flagship members entries written.
  assert (Hentries : entries = nlargest Scored.final_score n_flagship members)
    by (apply flagship_group, Hs).
  pose proof (stable_sort_desc_sorted Scored.final_score members) as Hsorted.
  pose proof (stable_sort_perm (desc Scored.final_score) members) as Hperm.
  destruct (sorted_head Scored.final_score n_flagship _ Hsorted) as (H1 & H2 & H3).
  assert (Hlen : length entries = Nat.min n_flagship (length members)).
  { rewrite Hentries. unfold nlargest. rewrite H2, (Permutation_length Hperm). reflexivity. }
  assert (Hwritten : written
                     = map (fun ir => flagship_tuple (fst ir) (snd ir)) (enumerate_from 1 entries))
    by apply flagship_tuples_of_store.
  split; [|split; [exact Hlen|split; [|split; [|split; [exact Hwritten|]]]]].
  - apply in_map_iff in Hs. destruct Hs as (r & Hr & Hin).
    assert (In r members) by (apply group_In; split; assumption).
    intros E. rewrite E in H. destruct H.
  - rewrite Hentries. exact H1.
  - rewrite Hentries. exists (skipn n_flagship (stable_sort (desc Scored.final_score) members)).
    split; [unfold nlargest; rewrite firstn_skipn; exact Hperm | exact H3].
  - rewrite Hwritten, map_map. simpl.
    rewrite <- Hlen, <- (enumerate_from_fst entries 1). reflexivity.
Qed.

Lemma flagship_per_store_witness :
  let df := [example_row "https://s/a" "S" (1 # 5); example_row "https://t/c" "T" (1 # 3);
             example_row "https://s/b" "S" (1 # 2)] in
  In (Some "S") (map store_of df) /\
  map Flagship.store_rank
      (List.filter (fun t => opt_string_eqb (Flagship.source_store_name t) (Some "S"))
                   (flagship_tuples (display_flagship_products_per_store df 3)))
  = seq 1 (Nat.min 3 (length (group store_of "S" df))).
Proof.
  split; [left; reflexivity|].
  refine (proj2 (proj2 (proj2 (proj2 (proj2 (flagship_per_store _ 3 "S" _)))))).
  left; reflexivity.
Defined.

(** ** Sink writers *)

Lemma firstn_then_firstn {A} (a b : nat) : forall l : list A,
  (firstn a l ++ firstn b (skipn a l))%list = firstn (a + b) l.
Proof.
  induction a as [|a IH]; intros l; [reflexivity|].
  destruct l as [|x l]; simpl.
  - rewrite firstn_nil. reflexivity.
  - f_equal. apply IH.
Qed.

(** The batches, put end to end, are all the tuples. *)
Lemma batches_concat {A} (batch_size : nat) (l : list A) :
  (0 < batch_size)%nat -> concat (batches batch_size l) = l.
Proof.
  intros Hpos. unfold batches.
  set (m := ((length l + batch_size - 1) / batch_size)%nat).
  assert (Hm : (length l <= m * batch_size)%nat).
  { subst m. pose proof (Nat.div_mod_eq (length l + batch_size - 1) batch_size) as E.
    pose proof (Nat.mod_upper_bound (length l + batch_size - 1) batch_size ltac:(lia)) as B.
    nia. }
  assert (Hgen : forall n, concat (map (fun j => firstn batch_size (skipn (j * batch_size) l))
                                       (seq 0 n)) = firstn (n * batch_size) l).
  { induction n as [|n IH]; [reflexivity|].
    rewrite seq_S, map_app, concat_app, IH. simpl. rewrite app_nil_r.
    rewrite firstn_then_firstn. f_equal. lia. }
  rewrite Hgen. apply firstn_all2. exact Hm.
Qed.

Lemma executemany_upsert_nil (ukey : string -> string) (db : tables) :
  executemany_upsert ukey [] db = db.
Proof. destruct db; reflexivity. Qed.

Lemma executemany_upsert_app (ukey : string -> string)
    (l1 l2 : list ScoredProducts.row) (db : tables) :
  executemany_upsert ukey l2 (executemany_upsert ukey l1 db)
  = executemany_upsert ukey (l1 ++ l2) db.
Proof. unfold executemany_upsert. simpl. rewrite fold_left_app. reflexivity. Qed.

Section Batches.
Variable ukey : string -> string.

Lemma batches_session (bl : list (list ScoredProducts.row)) : forall c,
  session (fold_left (save_batch ukey) bl c) = executemany_upsert ukey (concat bl) (session c).
Proof.
  induction bl as [|b bl IH]; intros c; simpl.
  - symmetry. apply executemany_upsert_nil.
  - rewrite IH. simpl. apply executemany_upsert_app.
Qed.

Lemma batches_committed (bl : list (list ScoredProducts.row)) (c : connection) :
  bl <> [] -> committed (fold_left (save_batch ukey) bl c) = session (fold_left (save_batch ukey) bl c).
Proof.
  destruct bl as [|b bl _] using rev_ind; [congruence|].
  intros _. rewrite fold_left_app. reflexivity.
Qed.

(** With no failure every batch commits, and the table ends as if the
    tuples had been sent in one go. *)
Lemma save_scored_products_connect (df : list Scored.row) (batch_size : nat) (db : tables) :
  (0 < batch_size)%nat ->
  save_scored_products_to_db ukey df batch_size (db_connect db)
  = db_connect (executemany_upsert ukey (map scored_tuple df) db).
Proof.
  intros Hpos. unfold save_scored_products_to_db.
  destruct df as [|r df]; [simpl; rewrite executemany_upsert_nil; reflexivity|].
  set (tuples := map scored_tuple (r :: df)).
  assert (Hne : batches batch_size tuples <> []).
  { intros E. pose proof (batches_concat batch_size tuples Hpos) as Hc.
    rewrite E in Hc. discriminate. }
  pose proof (batches_session (batches batch_size tuples) (db_connect db)) as Hs.
  pose proof (batches_committed (batches batch_size tuples) (db_connect db) Hne) as Hc.
  rewrite (batches_concat batch_size tuples Hpos) in Hs. simpl in Hs.
  destruct (fold_left (save_batch ukey) (batches batch_size tuples) (db_connect db)) as [cm ss].
  simpl in *. subst. reflexivity.
Qed.
End Batches.

Lemma update_row_left (a b c : ScoredProducts.row) :
  update_row (update_row a b) c = update_row a c.
Proof. reflexivity. Qed.

Lemma update_row_right (a b c : ScoredProducts.row) :
  update_row a (update_row b c) = update_row a c.
Proof. reflexivity. Qed.

Lemma update_row_self (a : ScoredProducts.row) : update_row a a = a.
Proof. destruct a; reflexivity. Qed.

Section Upsert.
Variable ukey : string -> string.

Lemma upsert_lookup (tbl : gmap string ScoredProducts.row) (t : ScoredProducts.row) (k : string) :
  upsert ukey tbl t !! k
  = if bool_decide (ukey (ScoredProducts.product_url t) = k)
    then Some (upsert_cell (tbl !! k) t) else tbl !! k.
Proof.
  unfold upsert. case_bool_decide as E.
  - subst k. apply lookup_insert_eq.
  - apply lookup_insert_ne. exact E.
Qed.

(** The row under a key after a run of upserts depends on the tuples of that
    key only. *)
Lemma fold_upsert_lookup (ts : list ScoredProducts.row) :
  forall (tbl : gmap string ScoredProducts.row) (k : string),
    fold_left (upsert ukey) ts tbl !! k
    = fold_left (fun o t => Some (upsert_cell o t))
                (List.filter (fun t => bool_decide (ukey (ScoredProducts.product_url t) = k)) ts)
                (tbl !! k).
Proof.
  induction ts as [|t ts IH]; intros tbl k; simpl; [reflexivity|].
  rewrite IH, upsert_lookup. destruct (bool_decide _); reflexivity.
Qed.

Lemma fold_cell_some (l : list ScoredProducts.row) : forall v,
  fold_left (fun o t => Some (upsert_cell o t)) l (Some v)
  = Some (update_row v (List.last l v)).
Proof.
  induction l as [|t l IH]; intros v; simpl.
  - rewrite update_row_self. reflexivity.
  - rewrite IH, update_row_left. destruct l as [|t' l']; [reflexivity|].
    f_equal. f_equal. clear. revert t'. induction l' as [|x l' IH]; intros t'; [reflexivity|].
    simpl in *. apply IH.
Qed.

Lemma last_default_irrelevant {A} (l : list A) (d d' : A) :
  l <> [] -> List.last l d = List.last l d'.
Proof.
  induction l as [|x l IH]; [congruence|]. intros _.
  destruct l as [|y l]; [reflexivity|]. simpl in *. apply IH. discriminate.
Qed.

Lemma fold_cell_idempotent (l : list ScoredProducts.row) (o : option ScoredProducts.row) :
  fold_left (fun o t => Some (upsert_cell o t)) l
            (fold_left (fun o t => Some (upsert_cell o t)) l o)
  = fold_left (fun o t => Some (upsert_cell o t)) l o.
Proof.
  destruct l as [|t0 l]; [reflexivity|]. simpl.
  set (u0 := upsert_cell o t0).
  rewrite (fold_cell_some l u0). simpl. rewrite fold_cell_some, !update_row_left.
  f_equal. destruct l as [|t1 l].
  - subst u0. destruct o as [v|]; reflexivity.
  - f_equal. apply last_default_irrelevant. discriminate.
Qed.

(** Sending the same tuples again leaves the table as it is. *)
Lemma fold_upsert_idempotent (ts : list ScoredProducts.row)
    (tbl : gmap string ScoredProducts.row) :
  fold_left (upsert ukey) ts (fold_left (upsert ukey) ts tbl) = fold_left (upsert ukey) ts tbl.
Proof.
  apply map_eq. intros k. rewrite !fold_upsert_lookup. apply fold_cell_idempotent.
Qed.

(** A key that no tuple has keeps its row: nothing is deleted. *)
Lemma fold_upsert_untouched (ts : list ScoredProducts.row)
    (tbl : gmap string ScoredProducts.row) (k : string) :
  Forall (fun t => ukey (ScoredProducts.product_url t) <> k) ts ->
  fold_left (upsert ukey) ts tbl !! k = tbl !! k.
Proof.
  intros H. rewrite fold_upsert_lookup.
  replace (List.filter _ ts) with (@nil ScoredProducts.row); [reflexivity|].
  symmetry. induction H as [|t ts Ht _ IH]; simpl; [reflexivity|].
  rewrite bool_decide_eq_false_2 by exact Ht. exact IH.
Qed.
End Upsert.

(** The tables after the four writes, column group by column group. *)
Lemma persistence_stage_tables (ukey : string -> string) (batch_size : nat)
    (combined_df top_k_df flagship_df : list Scored.row) (avg_scores max_scores : series)
    (platform_map_df : list (option string * option string)) (db : tables) :
  (0 < batch_size)%nat ->
  persistence_stage ukey batch_size combined_df top_k_df flagship_df
                    avg_scores max_scores platform_map_df db
  = {| scored_products :=
         fold_left (upsert ukey) (map scored_tuple combined_df) (scored_products db);
       top_k_products_overall :=
         match top_k_df with
         | [] => top_k_products_overall db
         | _ => top_k_tuples top_k_df
         end;
       flagship_products_by_store :=
         match flagship_df with
         | [] => flagship_products_by_store db
         | _ =>
             match ranked_flagship_list flagship_df with
             | [] => match avg_scores, max_scores with
                     | [], [] => flagship_products_by_store db
                     | _, _ => []
                     end
             | _ => flagship_tuples flagship_df
             end
         end;
       store_rankings :=
         match avg_scores, max_scores with
         | [], [] => store_rankings db
         | _, _ => store_ranking_tuples avg_scores max_scores platform_map_df
         end |}.
Proof.
  intros Hpos. unfold persistence_stage.
  rewrite (save_scored_products_connect ukey combined_df batch_size db Hpos).
  unfold save_top_k_to_db, save_flagship_to_db, save_store_rankings_to_db.
  destruct top_k_df as [|t top_k_df], flagship_df as [|f flagship_df];
    [| destruct (ranked_flagship_list (f :: flagship_df)) eqn:E
     | | destruct (ranked_flagship_list (f :: flagship_df)) eqn:E ];
    destruct avg_scores as [|a avg_scores], max_scores as [|m max_scores];
    reflexivity.
Qed.

(** A second run of the four writes on the same inputs changes nothing. *)
Lemma persistence_stage_twice (ukey : string -> string) (batch_size : nat)
    (combined_df top_k_df flagship_df : list Scored.row) (avg_scores max_scores : series)
    (platform_map_df : list (option string * option string)) (db : tables) :
  (0 < batch_size)%nat ->
  persistence_stage ukey batch_size combined_df top_k_df flagship_df
    avg_scores max_scores platform_map_df
    (persistence_stage ukey batch_size combined_df top_k_df flagship_df
       avg_scores max_scores platform_map_df db)
  = persistence_stage ukey batch_size combined_df top_k_df flagship_df
      avg_scores max_scores platform_map_df db.
Proof.
  intros Hpos.
  rewrite !(persistence_stage_tables ukey batch_size _ _ _ _ _ _ _ Hpos). simpl.
  rewrite fold_upsert_idempotent.
  destruct top_k_df; destruct flagship_df as [|f fl];
    [| destruct (ranked_flagship_list (f :: fl)) | | destruct (ranked_flagship_list (f :: fl))];
    destruct avg_scores, max_scores; reflexivity.
Qed.

(** C8.  Running the persistence stage a second time on the same scored set
    and views leaves the four tables as the first run left them (a row being
    the columns the code writes, so without the timestamp).  The upsert into
    [scored_products] rewrites the rows it matches with the values they
    already hold and deletes nothing; each view table that is written holds
    exactly the tuples of the current view, whatever it held before. *)
Theorem persistence_idempotent (ukey : string -> string) (batch_size : nat)
    (combined_df top_k_df flagship_df : list Scored.row) (avg_scores max_scores : series)
    (platform_map_df : list (option string * option string)) (db : tables) :
  (0 < batch_size)%nat ->
  let persist := persistence_stage ukey batch_size combined_df top_k_df flagship_df
                                   avg_scores max_scores platform_map_df in
  persist (persist db) = persist db /\
  fold_left (upsert ukey) (map scored_tuple combined_df) (scored_products (persist db))
  = scored_products (persist db) /\
  (forall k, Forall (fun t => ukey (ScoredProducts.product_url t) <> k)
                    (map scored_tuple combined_df) ->
             scored_products (persist db) !! k = scored_products db !! k) /\
  (top_k_df <> [] -> top_k_products_overall (persist db) = top_k_tuples top_k_df) /\
  (flagship_df <> [] -> ranked_flagship_list flagship_df <> [] ->
   flagship_products_by_store (persist db) = flagship_tuples flagship_df) /\
  (avg_scores <> [] \/ max_scores <> [] ->
   store_rankings (persist db)
   = store_ranking_tuples avg_scores max_scores platform_map_df).
Proof.
  intros Hpos persist. subst persist.
  split; [apply persistence_stage_twice, Hpos|].
  rewrite !(persistence_stage_tables ukey batch_size _ _ _ _ _ _ _ Hpos). simpl.
  split; [|split; [|split; [|split]]].
  - apply fold_upsert_idempotent.
  - intros k Hk. apply fold_upsert_untouched, Hk.
  - intros H. destruct top_k_df; [congruence | reflexivity].
  - intros H1 H2. destruct flagship_df; [congruence|].
    destruct (ranked_flagship_list _); [congruence | reflexivity].
  - intros [H|H]; destruct avg_scores, max_scores; try congruence; reflexivity.
Qed.

(** The whole run, twice on the same source tables, is the run once. *)
Corollary run_twice (sort_values : sorter) (ukey : string -> string)
    (w_availability w_price : Q) (k n_flagship batch_size : nat)
    (products : list Shopify.row) (barefoot_products : list Woo.row) (db : tables) :
  (0 < batch_size)%nat ->
  run sort_values ukey w_availability w_price k n_flagship batch_size
      products barefoot_products
      (run sort_values ukey w_availability w_price k n_flagship batch_size
           products barefoot_products db)
  = run sort_values ukey w_availability w_price k n_flagship batch_size
        products barefoot_products db.
Proof.
  intros Hpos. unfold run.
  destruct (scored_frame products barefoot_products w_availability w_price) as [|r0 rest];
    [reflexivity|].
  destruct (display_store_rankings sort_values (r0 :: rest)) as [avg_scores max_scores].
  apply persistence_stage_twice, Hpos.
Qed.

(** ** The run *)

Lemma fold_upsert_urls (ukey : string -> string) (P : string -> Prop)
    (ts : list ScoredProducts.row) :
  Forall (fun t => P (ScoredProducts.product_url t)) ts ->
  forall tbl : gmap string ScoredProducts.row,
    (forall k row, tbl !! k = Some row -> P (ScoredProducts.product_url row)) ->
    forall k row, fold_left (upsert ukey) ts tbl !! k = Some row ->
                  P (ScoredProducts.product_url row).
Proof.
  induction 1 as [|t ts Ht _ IH]; intros tbl Htbl; simpl; [exact Htbl|].
  apply IH. intros k row. rewrite upsert_lookup.
  case_bool_decide as E; [|apply Htbl].
  intros [= <-]. destruct (tbl !! k) as [old|] eqn:Eo; simpl; [|exact Ht].
  exact (Htbl k old Eo).
Qed.

Lemma enumerate_from_In {A} (l : list A) (i j : nat) (x : A) :
  In (j, x) (enumerate_from i l) -> In x l.
Proof.
  intros H. apply (in_map snd) in H. rewrite enumerate_from_snd in H. exact H.
Qed.

Lemma top_k_tuples_origin (top_k_df : list Scored.row) (t : TopK.row) :
  In t (top_k_tuples top_k_df) ->
  exists r, In r top_k_df /\ TopK.product_url t = Prep.product_url (Scored.base r).
Proof.
  unfold top_k_tuples. intros H. apply in_map_iff in H. destruct H as ([i r] & <- & H).
  exists r. split; [exact (enumerate_from_In _ _ _ _ H) | reflexivity].
Qed.

Lemma flagship_tuples_origin (flagship_df : list Scored.row) (t : Flagship.row) :
  In t (flagship_tuples flagship_df) ->
  exists r, In r flagship_df /\ Flagship.product_url t = Prep.product_url (Scored.base r).
Proof.
  unfold flagship_tuples, ranked_flagship_list. intros H.
  apply in_map_iff in H. destruct H as ([i r] & <- & H).
  apply in_concat in H. destruct H as (g & Hg & Hr).
  apply in_map_iff in Hg. destruct Hg as (s & <- & _).
  apply enumerate_from_In, group_In in Hr.
  exists r. split; [apply Hr | reflexivity].
Qed.

Lemma display_top_k_In (sort_values : sorter) (df : list Scored.row) (k : nat) (r : Scored.row) :
  sorts_descending sort_values ->
  In r (display_top_k_products sort_values df k) -> In r df.
Proof.
  intros Hsort. unfold display_top_k_products. destruct df as [|r0 df0]; [tauto|].
  intros H. apply firstn_In in H.
  exact (Permutation_in _ (proj1 (Hsort _ Scored.final_score (r0 :: df0))) H).
Qed.

Lemma display_flagship_In (df : list Scored.row) (n_flagship : nat) (r : Scored.row) :
  In r (display_flagship_products_per_store df n_flagship) -> In r df.
Proof.
  unfold display_flagship_products_per_store. destruct df as [|r0 df0]; [tauto|].
  intros H. apply in_flat_map in H. destruct H as (s & _ & H).
  apply nlargest_In, group_In in H. apply H.
Qed.

Lemma union_index_In (a b : series) (k : string) :
  In k (union_index a b) -> In k (map fst a) \/ In k (map fst b).
Proof.
  unfold union_index. case_bool_decide as E; [tauto|].
  intros H. apply (Permutation_in _ (stable_sort_perm String.leb _)) in H.
  apply keep_first_In, in_app_or in H. exact H.
Qed.

Lemma store_ranking_tuples_origin (avg_scores max_scores : series)
    (platform_map_df : list (option string * option string)) (t : StoreRankings.row) :
  In t (store_ranking_tuples avg_scores max_scores platform_map_df) ->
  In (StoreRankings.source_store_name t) (map fst avg_scores) \/
  In (StoreRankings.source_store_name t) (map fst max_scores).
Proof.
  unfold store_ranking_tuples. intros H. apply in_flat_map in H.
  destruct H as (k & Hk & H). apply in_map_iff in H. destruct H as (p & <- & _).
  simpl. apply union_index_In, Hk.
Qed.

Lemma display_store_rankings_index (sort_values : sorter) (df : list Scored.row) (k : string) :
  sorts_descending sort_values ->
  In k (map fst (fst (display_store_rankings sort_values df))) \/
  In k (map fst (snd (display_store_rankings sort_values df))) ->
  exists r, In r df /\ store_of r = Some k.
Proof.
  intros Hsort. unfold display_store_rankings. destruct df as [|r0 df0]; [simpl; tauto|].
  assert (Hkeys : forall agg,
            In k (map fst (sort_values _ snd (groupby_final_score agg (r0 :: df0)))) ->
            exists r, In r (r0 :: df0) /\ store_of r = Some k).
  { intros agg H.
    apply (Permutation_in _ (Permutation_map fst (proj1 (Hsort _ snd _)))) in H.
    unfold groupby_final_score in H. rewrite map_map in H. cbn [fst] in H.
    rewrite map_id in H. apply group_keys_In in H.
    apply (proj1 (in_map_iff store_of (r0 :: df0) (Some k))) in H.
    destruct H as (r & Hr & Hin).
    exists r. split; assumption. }
  simpl. intros [H|H]; eapply Hkeys; exact H.
Qed.

(** C6.  Preprocessing drops exactly the rows whose price does not parse
    (["call for price"] is one) and keeps the others, in order, with the
    parsed value as their price; so every row that is scored comes from a row
    whose price parsed, and so does every row that a run puts into one of the
    four tables: what a table holds after the run is either what it held
    before or comes from a scored row. *)
Theorem unparsed_price_dropped (sort_values : sorter) (ukey : string -> string)
    (w_availability w_price : Q) (k n_flagship batch_size : nat)
    (products : list Shopify.row) (barefoot_products : list Woo.row) (db0 : tables) :
  sorts_descending sort_values ->
  (0 < batch_size)%nat ->
  let combined_df :=
    combine (fetch_shopify_data products) (fetch_woocommerce_data barefoot_products) in
  let kept := preprocess_combined_data combined_df in
  let scored := scored_frame products barefoot_products w_availability w_price in
  let db := run sort_values ukey w_availability w_price k n_flagship batch_size
                products barefoot_products db0 in
  (forall df,
      preprocess_combined_data df
      = flat_map (fun r => match clean_and_convert_price (Unified.price r) with
                           | Some q => [fill_columns (Some q, r)]
                           | None => []
                           end) df) /\
  clean_and_convert_price (PyStr "call for price") = None /\
  Forall (fun r => exists u q, In u combined_df /\
                               clean_and_convert_price (Unified.price u) = Some q /\
                               Prep.price r = Some q /\
                               Prep.product_url r = Unified.product_url u) kept /\
  map Scored.base scored = kept /\
  (forall key row,
      scored_products db !! key = Some row ->
      (exists key0 row0, scored_products db0 !! key0 = Some row0 /\
                         ScoredProducts.product_url row = ScoredProducts.product_url row0) \/
      (exists r, In r scored /\
                 ScoredProducts.product_url row
                 = text_or_na (Prep.product_url (Scored.base r)))) /\
  Forall (fun t => In t (top_k_products_overall db0) \/
                   exists r, In r scored /\
                             TopK.product_url t = Prep.product_url (Scored.base r))
         (top_k_products_overall db) /\
  Forall (fun t => In t (flagship_products_by_store db0) \/
                   exists r, In r scored /\
                             Flagship.product_url t = Prep.product_url (Scored.base r))
         (flagship_products_by_store db) /\
  Forall (fun t => In t (store_rankings db0) \/
                   exists r, In r scored /\
                             store_of r = Some (StoreRankings.source_store_name t))
         (store_rankings db).
Proof.
  intros Hsort Hpos combined_df kept scored db.
  split; [exact preprocess_as_flat_map|]. split; [reflexivity|].
  split.
  { apply List.Forall_forall. intros r Hr. apply preprocess_origin in Hr.
    destruct Hr as (u & q & Hu & Hq & ->). exists u, q. repeat split; assumption. }
  split; [apply calculate_base|].
  subst db. unfold run. fold scored.
  destruct scored as [|r0 rest] eqn:Escored.
  { split; [intros key row H; left; exists key, row; split; [exact H | reflexivity]|].
    repeat split; apply List.Forall_forall; intros t Ht; left; exact Ht. }
  rewrite <- Escored.
  destruct (display_store_rankings sort_values scored) as [avg_scores max_scores] eqn:Eranks.
  rewrite (persistence_stage_tables ukey batch_size _ _ _ _ _ _ _ Hpos). simpl.
  split; [|split; [|split]].
  - apply (fold_upsert_urls ukey
             (fun url =>
                (exists key0 row0, scored_products db0 !! key0 = Some row0 /\
                                   url = ScoredProducts.product_url row0) \/
                (exists r, In r scored /\
                           url = text_or_na (Prep.product_url (Scored.base r))))).
    + apply List.Forall_forall. intros t Ht. apply in_map_iff in Ht.
      destruct Ht as (r & <- & Hr). right. exists r. split; [exact Hr | reflexivity].
    + intros key row H. left. exists key, row. split; [exact H | reflexivity].
  - apply List.Forall_forall. intros t Ht.
    destruct (display_top_k_products sort_values scored k) as [|t0 top] eqn:Etop;
      [left; exact Ht|].
    rewrite <- Etop in Ht. apply top_k_tuples_origin in Ht. destruct Ht as (r & Hr & Hurl).
    right. exists r. split; [exact (display_top_k_In _ _ _ _ Hsort Hr) | exact Hurl].
  - apply List.Forall_forall. intros t Ht.
    destruct (display_flagship_products_per_store scored n_flagship) as [|f0 fl] eqn:Eflag;
      [left; exact Ht|].
    rewrite <- Eflag in Ht.
    destruct (ranked_flagship_list _).
    + destruct avg_scores, max_scores; [left; exact Ht | destruct Ht ..].
    + apply flagship_tuples_origin in Ht. destruct Ht as (r & Hr & Hurl).
      right. exists r. split; [exact (display_flagship_In _ _ _ Hr) | exact Hurl].
  - apply List.Forall_forall. intros t Ht.
    destruct avg_scores as [|a avg_scores'] eqn:Eavg, max_scores as [|m max_scores'] eqn:Emax;
      [left; exact Ht | right ..];
      rewrite <- ?Eavg, <- ?Emax in *;
      apply store_ranking_tuples_origin in Ht;
      apply (display_store_rankings_index sort_values scored _ Hsort);
      rewrite Eranks; exact Ht.
Qed.

(** ** Instances *)

Lemma price_score_min_max_witness :
  let df := [example_product "https://s/a" 10 1; example_product "https://s/b" 30 0] in
  df <> [] /\
  Forall (fun r => Prep.price r <> None) df /\
  Forall (fun r => 0 <= Scored.price_score r <= 1)
         (calculate_attractiveness_score df WEIGHT_AVAILABILITY WEIGHT_PRICE).
Proof.
  assert (H1 : [example_product "https://s/a" 10 1; example_product "https://s/b" 30 0] <> [])
    by discriminate.
  assert (H2 : Forall (fun r => Prep.price r <> None)
                      [example_product "https://s/a" 10 1; example_product "https://s/b" 30 0])
    by (repeat constructor; discriminate).
  split; [exact H1|]. split; [exact H2|].
  exact (proj1 (proj2 (price_score_min_max _ WEIGHT_AVAILABILITY WEIGHT_PRICE H1 H2))).
Defined.

(** The scenario of two rows, one at 10.00 and available, one at 30.00 and
    not: the scores are 1 and 0, and the first row is the top product. *)
Example two_row_scenario :
  let scored :=
    calculate_attractiveness_score
      [example_product "https://s/a" 10 1; example_product "https://s/b" 30 0]
      WEIGHT_AVAILABILITY WEIGHT_PRICE in
  map (fun r => Qred (Scored.price_score r)) scored = [1; 0] /\
  map (fun r => Qred (Scored.final_score r)) scored = [1; 0] /\
  map (fun r => Prep.product_url (Scored.base r)) (display_top_k_products stable_sorter scored 1)
  = [Some "https://s/a"].
Proof. repeat split; reflexivity. Qed.

(** A single row gets the price score 0.5 whatever its price. *)
Example single_row_scenario :
  map Scored.price_score
      (calculate_attractiveness_score [example_product "https://s/a" 1234 1]
                                      WEIGHT_AVAILABILITY WEIGHT_PRICE)
  = [1 # 2].
Proof. reflexivity. Qed.

Lemma unparsed_price_dropped_witness :
  let db := main stable_sorter (fun url => url) example_products example_barefoot_products
                 empty_tables in
  sorts_descending stable_sorter /\
  (0 < DB_BATCH_SIZE)%nat /\
  Forall (fun t => In t (top_k_products_overall empty_tables) \/
                   exists r,
                     In r (scored_frame example_products example_barefoot_products
                                        WEIGHT_AVAILABILITY WEIGHT_PRICE) /\
                     TopK.product_url t = Prep.product_url (Scored.base r))
         (top_k_products_overall db) /\
  map TopK.product_url (top_k_products_overall db) = [Some "https://w/a"; Some "https://s/b"].
Proof.
  assert (Hpos : (0 < DB_BATCH_SIZE)%nat) by (unfold DB_BATCH_SIZE; lia).
  split; [exact stable_sorter_sorts|]. split; [exact Hpos|]. split; [|reflexivity].
  pose proof (unparsed_price_dropped stable_sorter (fun url => url)
                WEIGHT_AVAILABILITY WEIGHT_PRICE TOP_K_OVERALL FLAGSHIP_PER_STORE DB_BATCH_SIZE
                example_products example_barefoot_products empty_tables
                stable_sorter_sorts Hpos) as H.
  exact (proj1 (proj2 (proj2 (proj2 (proj2 (proj2 H)))))).
Defined.

Lemma persistence_idempotent_witness :
  let scored := scored_frame example_products example_barefoot_products
                             WEIGHT_AVAILABILITY WEIGHT_PRICE in
  let persist :=
    persistence_stage (fun url => url) DB_BATCH_SIZE scored
      (display_top_k_products stable_sorter scored TOP_K_OVERALL)
      (display_flagship_products_per_store scored FLAGSHIP_PER_STORE)
      (fst (display_store_rankings stable_sorter scored))
      (snd (display_store_rankings stable_sorter scored))
      (platform_map scored) in
  (0 < DB_BATCH_SIZE)%nat /\
  persist (persist empty_tables) = persist empty_tables.
Proof.
  assert (Hpos : (0 < DB_BATCH_SIZE)%nat) by (unfold DB_BATCH_SIZE; lia).
  split; [exact Hpos|].
  exact (proj1 (persistence_idempotent (fun url => url) DB_BATCH_SIZE _ _ _ _ _ _
                  empty_tables Hpos)).
Defined.

(** * Further properties *)

(** ** Price cleaning, continued *)

Lemma digit_not_dot (c : ascii) : is_digit c = true -> is_dot c = false.
Proof.
  unfold is_dot. destruct (Ascii.eqb c ".") eqn:E; [|reflexivity].
  apply Ascii.eqb_eq in E. subst c. vm_compute. discriminate.
Qed.

Lemma count_chars_filter (p keep : ascii -> bool) (s : string) :
  (forall c, p c = true -> keep c = true) ->
  count_chars p (filter_chars keep s) = count_chars p s.
Proof.
  intros H. induction s as [|c s IH]; simpl; [reflexivity|].
  destruct (keep c) eqn:E; simpl; rewrite IH; [reflexivity|].
  destruct (p c) eqn:Ep; [|reflexivity]. rewrite (H c Ep) in E. discriminate.
Qed.

Lemma filter_chars_filter (p keep : ascii -> bool) (s : string) :
  (forall c, p c = true -> keep c = true) ->
  filter_chars p (filter_chars keep s) = filter_chars p s.
Proof.
  intros H. induction s as [|c s IH]; simpl; [reflexivity|].
  destruct (keep c) eqn:E; simpl; rewrite IH; [reflexivity|].
  destruct (p c) eqn:Ep; [|reflexivity]. rewrite (H c Ep) in E. discriminate.
Qed.

Lemma all_digits_iff_no_dot (s : string) :
  string_forall price_char s = true ->
  (string_forall is_digit s = true <-> count_chars is_dot s = 0%nat).
Proof.
  induction s as [|c s IH]; simpl; [tauto|].
  intros [Hc Hs]%andb_prop. specialize (IH Hs).
  unfold price_char in Hc. destruct (is_digit c) eqn:Ed; simpl in *.
  - rewrite (digit_not_dot c Ed). simpl. exact IH.
  - rewrite Hc. split; [discriminate | lia].
Qed.

Lemma filter_digits_all_digits (s : string) :
  string_forall is_digit s = true -> filter_chars is_digit s = s.
Proof.
  induction s as [|c s IH]; simpl; [reflexivity|].
  intros [Hc Hs]%andb_prop. rewrite Hc, (IH Hs). reflexivity.
Qed.

Lemma filter_chars_app (p : ascii -> bool) (s t : string) :
  filter_chars p (s ++ t) = filter_chars p s ++ filter_chars p t.
Proof.
  induction s as [|c s IH]; simpl; [reflexivity|].
  rewrite IH. destruct (p c); reflexivity.
Qed.

(** What [split_dot] finds in a text of digits and points. *)
Lemma split_dot_spec (s : string) :
  string_forall price_char s = true ->
  match split_dot s with
  | (ip, None) =>
      s = ip /\ string_forall is_digit ip = true /\ count_chars is_dot s = 0%nat
  | (ip, Some fp) =>
      s = ip ++ String "." fp /\ string_forall is_digit ip = true /\
      string_forall price_char fp = true /\
      count_chars is_dot s = S (count_chars is_dot fp)
  end.
Proof.
  induction s as [|c s IH]; simpl; [intros _; repeat split|].
  intros [Hc Hs]%andb_prop. specialize (IH Hs).
  destruct (is_dot c) eqn:Ed.
  - unfold is_dot in Ed. apply Ascii.eqb_eq in Ed. subst c. simpl. repeat split. exact Hs.
  - unfold price_char in Hc. rewrite Ed, orb_false_r in Hc.
    destruct (split_dot s) as [ip [fp|]]; simpl.
    + destruct IH as (-> & H1 & H2 & H3). rewrite Hc. simpl. repeat split; assumption.
    + destruct IH as (-> & H1 & H2). rewrite Hc. simpl. repeat split; assumption.
Qed.

Lemma count_digits_all (s : string) :
  string_forall is_digit s = true -> count_chars is_digit s = String.length s.
Proof.
  induction s as [|c s IH]; simpl; [reflexivity|].
  intros [Hc Hs]%andb_prop. rewrite Hc, (IH Hs). reflexivity.
Qed.

Lemma count_chars_app (p : ascii -> bool) (s t : string) :
  count_chars p (s ++ t) = (count_chars p s + count_chars p t)%nat.
Proof. induction s as [|c s IH]; simpl; [reflexivity|]. rewrite IH. lia. Qed.

Lemma is_empty_length (s : string) : is_empty s = true <-> String.length s = 0%nat.
Proof. destruct s; simpl; split; congruence. Qed.

(** What [float] makes of a text of digits and points: a number exactly when
    there is a digit and at most one point, and then all the digits read as
    one integer, divided by ten to the number of digits after the point. *)
Lemma py_float_spec (s : string) :
  string_forall price_char s = true ->
  match py_float s with
  | Some q =>
      (1 <= count_chars is_digit s)%nat /\ (count_chars is_dot s <= 1)%nat /\
      exists n, (n <= count_chars is_digit s)%nat /\
                q = digits_value 0 (filter_chars is_digit s) # pow10 n
  | None => count_chars is_digit s = 0%nat \/ (2 <= count_chars is_dot s)%nat
  end.
Proof.
  intros Hs. pose proof (split_dot_spec s Hs) as Hsplit. unfold py_float.
  destruct (split_dot s) as [ip [fp|]].
  - destruct Hsplit as (-> & Hip & Hfp & Hdots).
    pose proof (all_digits_iff_no_dot fp Hfp) as Hiff.
    assert (Hipdots : count_chars is_dot ip = 0%nat).
    { apply all_digits_iff_no_dot; [|exact Hip].
      eapply string_forall_impl; [|exact Hip]. intros c Hc. unfold price_char. rewrite Hc.
      reflexivity. }
    destruct (string_forall is_digit fp) eqn:Efp; simpl.
    + assert (Hcount : count_chars is_digit (ip ++ String "." fp)
                       = (String.length ip + String.length fp)%nat).
      { rewrite count_chars_app. simpl.
        rewrite (count_digits_all ip Hip), (count_digits_all fp Efp). reflexivity. }
      destruct (is_empty ip && is_empty fp) eqn:Eempty.
      * left. apply andb_prop in Eempty. destruct Eempty as [E1 E2].
        apply is_empty_length in E1, E2. lia.
      * assert (Hlen : (1 <= String.length ip + String.length fp)%nat).
        { destruct ip, fp; simpl in *; try discriminate; lia. }
        split; [lia|]. split; [rewrite Hdots, (proj1 Hiff eq_refl); lia|].
        exists (String.length fp). split; [lia|].
        rewrite filter_chars_app. simpl.
        rewrite (filter_digits_all_digits ip Hip), (filter_digits_all_digits fp Efp).
        reflexivity.
    + right. rewrite Hdots.
      destruct (count_chars is_dot fp) eqn:E; [|lia].
      pose proof (proj2 Hiff eq_refl). discriminate.
  - destruct Hsplit as (-> & Hip & Hdots).
    destruct (is_empty ip) eqn:Eempty.
    + left. apply is_empty_length in Eempty. rewrite (count_digits_all ip Hip). exact Eempty.
    + split; [rewrite (count_digits_all ip Hip); destruct ip; simpl in *; [discriminate | lia]|].
      split; [lia|]. exists 0%nat. split; [lia|].
      rewrite (filter_digits_all_digits ip Hip). reflexivity.
Qed.

(** The textual prices that parse, and what they parse to. *)
Lemma clean_price_spec (s : string) :
  (clean_and_convert_price (PyStr s) <> None <->
   (1 <= count_chars is_digit s)%nat /\ (count_chars is_dot s <= 1)%nat) /\
  (forall q, clean_and_convert_price (PyStr s) = Some q ->
             exists n, (n <= count_chars is_digit s)%nat /\
                       q = digits_value 0 (filter_chars is_digit s) # pow10 n) /\
  clean_and_convert_price (PyObj s) = clean_and_convert_price (PyStr s).
Proof.
  assert (Hd : forall c, is_digit c = true -> price_char c = true)
    by (intros c H; unfold price_char; rewrite H; reflexivity).
  assert (Hp : forall c, is_dot c = true -> price_char c = true)
    by (intros c H; unfold price_char; rewrite H; apply orb_true_r).
  pose proof (py_float_spec (strip_non_price s) (filter_chars_forall price_char s)) as H.
  unfold strip_non_price in H.
  rewrite (count_chars_filter is_digit price_char s Hd),
          (count_chars_filter is_dot price_char s Hp),
          (filter_chars_filter is_digit price_char s Hd) in H.
  assert (Hempty : is_empty (strip_non_price s) = true ->
                   count_chars is_digit s = 0%nat).
  { intros E. destruct (strip_non_price s) eqn:Es; [|discriminate].
    rewrite <- (count_chars_filter is_digit price_char s Hd).
    unfold strip_non_price in Es. rewrite Es. reflexivity. }
  unfold clean_and_convert_price. fold (strip_non_price s) in H.
  split; [|split; [|reflexivity]].
  - destruct (is_empty (strip_non_price s)) eqn:E.
    + specialize (Hempty eq_refl). split; [congruence | lia].
    + destruct (py_float (strip_non_price s)) as [q|].
      * split; [intros _; split; apply H | discriminate].
      * split; [congruence | destruct H; lia].
  - intros q. destruct (is_empty (strip_non_price s)); [discriminate|].
    destruct (py_float (strip_non_price s)) as [q'|]; [|discriminate].
    intros [= <-]. apply H.
Qed.

(** X1.  A textual price parses exactly when it holds at least one digit and
    at most one decimal point; everything else in the text (currency signs,
    separators, letters, a minus sign) is ignored.  The price is then the
    digits of the text read as one integer, divided by a power of ten.  So a
    price range such as ["$10.00 - $20.00"], with its two points, does not
    parse, and the row is dropped. *)
Theorem price_parses_iff (s : string) :
  (clean_and_convert_price (PyStr s) <> None <->
   (1 <= count_chars is_digit s)%nat /\ (count_chars is_dot s <= 1)%nat) /\
  (forall q, clean_and_convert_price (PyStr s) = Some q ->
             exists n, (n <= count_chars is_digit s)%nat /\
                       q = digits_value 0 (filter_chars is_digit s) # pow10 n) /\
  clean_and_convert_price (PyObj s) = clean_and_convert_price (PyStr s).
Proof. exact (clean_price_spec s). Qed.

(** ** [clean_html] *)

Lemma tag_length_strip_tags (s : string) :
  tag_length s = None -> tag_length (strip_tags 0 s) = None.
Proof.
  induction s as [|c s IH]; simpl; [reflexivity|].
  destruct (Ascii.eqb c ">") eqn:Egt; [discriminate|].
  destruct (Ascii.eqb c newline) eqn:Enl.
  - intros _. destruct (Ascii.eqb c "<") eqn:Elt.
    + apply Ascii.eqb_eq in Enl, Elt. subst c. discriminate.
    + simpl. rewrite Egt, Enl. reflexivity.
  - intros H. destruct (tag_length s) eqn:E; [discriminate|].
    destruct (Ascii.eqb c "<"); simpl; rewrite Egt, Enl, (IH eq_refl); reflexivity.
Qed.

Lemma strip_tags_tag_free (s : string) : forall skip, tag_free (strip_tags skip s) = true.
Proof.
  induction s as [|c s IH]; intros skip; simpl; [reflexivity|].
  destruct skip as [|k]; [|apply IH].
  destruct (Ascii.eqb c "<") eqn:Elt.
  - destruct (tag_length s) eqn:E; [apply IH|].
    simpl. rewrite Elt, (tag_length_strip_tags s E), IH. reflexivity.
  - simpl. rewrite Elt, IH. reflexivity.
Qed.

Lemma tag_free_fixed (s : string) : tag_free s = true -> strip_tags 0 s = s.
Proof.
  induction s as [|c s IH]; simpl; [reflexivity|].
  intros [Hc Hs]%andb_prop. rewrite (IH Hs).
  destruct (Ascii.eqb c "<"); [|reflexivity].
  simpl in Hc. destruct (tag_length s); [discriminate | reflexivity].
Qed.

Lemma lstrip_tag_free (s : string) : tag_free s = true -> tag_free (lstrip s) = true.
Proof.
  induction s as [|c s IH]; simpl; [reflexivity|].
  intros H. destruct (is_space c); [|exact H].
  apply andb_prop in H. apply IH, H.
Qed.

Lemma tag_length_rstrip (s : string) :
  tag_length s = None -> tag_length (rstrip s) = None.
Proof.
  induction s as [|c s IH]; simpl; [reflexivity|].
  destruct (is_space c && is_empty (rstrip s)); [reflexivity|]. simpl.
  destruct (Ascii.eqb c ">"); [discriminate|].
  destruct (Ascii.eqb c newline); [reflexivity|].
  destruct (tag_length s); [discriminate|]. intros _. rewrite (IH eq_refl). reflexivity.
Qed.

Lemma rstrip_tag_free (s : string) : tag_free s = true -> tag_free (rstrip s) = true.
Proof.
  induction s as [|c s IH]; simpl; [reflexivity|].
  intros [Hc Hs]%andb_prop.
  destruct (is_space c && is_empty (rstrip s)); [reflexivity|]. simpl.
  rewrite (IH Hs), andb_true_r.
  destruct (Ascii.eqb c "<"); [|reflexivity]. simpl in *.
  destruct (tag_length s) eqn:E; [discriminate|].
  rewrite (tag_length_rstrip s E). reflexivity.
Qed.

Lemma rstrip_rstrip (s : string) : rstrip (rstrip s) = rstrip s.
Proof.
  induction s as [|c s IH]; simpl; [reflexivity|].
  destruct (is_space c && is_empty (rstrip s)) eqn:E; [reflexivity|].
  simpl. rewrite IH, E. reflexivity.
Qed.

Lemma lstrip_lstrip (s : string) : lstrip (lstrip s) = lstrip s.
Proof.
  induction s as [|c s IH]; simpl; [reflexivity|].
  destruct (is_space c) eqn:E; [exact IH|]. simpl. rewrite E. reflexivity.
Qed.

Lemma lstrip_rstrip (s : string) : lstrip s = s -> lstrip (rstrip s) = rstrip s.
Proof.
  destruct s as [|c s]; simpl; [reflexivity|].
  destruct (is_space c) eqn:E.
  - intros H. exfalso.
    assert (Hlen : forall t, (String.length (lstrip t) <= String.length t)%nat).
    { induction t as [|d t IHt]; simpl; [lia|]. destruct (is_space d); simpl; lia. }
    specialize (Hlen s). rewrite H in Hlen. simpl in Hlen. lia.
  - intros _. simpl. rewrite E. reflexivity.
Qed.

Lemma strip_strip (s : string) : strip (strip s) = strip s.
Proof.
  unfold strip. rewrite (lstrip_rstrip (lstrip s) (lstrip_lstrip s)).
  apply rstrip_rstrip.
Qed.

(** X2.  The text [clean_html] returns holds no tag any more and no white
    space at either end, so cleaning it again changes nothing; a text
    without ["<"] is only trimmed. *)
Theorem clean_html_idempotent (raw_html : pyval) :
  tag_free (clean_html raw_html) = true /\
  strip_tags 0 (clean_html raw_html) = clean_html raw_html /\
  strip (clean_html raw_html) = clean_html raw_html /\
  clean_html (PyStr (clean_html raw_html)) = clean_html raw_html /\
  (forall s, string_forall (fun c => negb (Ascii.eqb c "<")) s = true ->
             clean_html (PyStr s) = strip s).
Proof.
  assert (Hfree : tag_free (clean_html raw_html) = true).
  { destruct raw_html as [|q|s|s]; try reflexivity.
    simpl. unfold strip. apply rstrip_tag_free, lstrip_tag_free, strip_tags_tag_free. }
  assert (Htrim : strip (clean_html raw_html) = clean_html raw_html).
  { destruct raw_html as [|q|s|s]; try reflexivity. simpl. apply strip_strip. }
  pose proof (tag_free_fixed _ Hfree) as Hfixed.
  split; [exact Hfree|]. split; [exact Hfixed|]. split; [exact Htrim|].
  split.
  - simpl. rewrite Hfixed. exact Htrim.
  - intros s Hs. simpl. f_equal. apply tag_free_fixed.
    induction s as [|c s IH]; simpl in *; [reflexivity|].
    apply andb_prop in Hs. destruct Hs as [Hc Hs]. rewrite Hc, (IH Hs). reflexivity.
Qed.

(** ** Scorer, continued *)

Lemma notna_In (price : list (option Q)) (v : Q) : In v (notna price) <-> In (Some v) price.
Proof. unfold notna. apply some_values_In. Qed.

(** The price score of a cell depends on the column through one function,
    which stays within the unit interval, never grows with the price, and
    reaches 1 at the lowest price and 0 at the highest when prices differ. *)
Lemma price_score_col_shape (price : list (option Q)) :
  exists g : option Q -> option Q,
    price_score_col price = map g price /\
    (forall c, In c price -> 0 <= fillna0 (g c) <= 1) /\
    (forall p1 p2, In (Some p1) price -> In (Some p2) price -> p1 <= p2 ->
                   fillna0 (g (Some p2)) <= fillna0 (g (Some p1))) /\
    ((exists a b, In (Some a) price /\ In (Some b) price /\ ~ a == b) ->
     forall p, In (Some p) price ->
               ((forall q, In (Some q) price -> p <= q) -> fillna0 (g (Some p)) == 1) /\
               ((forall q, In (Some q) price -> q <= p) -> fillna0 (g (Some p)) == 0)).
Proof.
  assert (Hhalf : 0 <= 1 # 2 <= 1) by (split; unfold Qle; simpl; lia).
  assert (Hconst : forall x : Q,
            0 <= x <= 1 ->
            ~ (exists a b, In (Some a) price /\ In (Some b) price /\ ~ a == b) ->
            exists g : option Q -> option Q,
              map (fun _ : option Q => Some x) price = map g price /\
              (forall c, In c price -> 0 <= fillna0 (g c) <= 1) /\
              (forall p1 p2, In (Some p1) price -> In (Some p2) price -> p1 <= p2 ->
                             fillna0 (g (Some p2)) <= fillna0 (g (Some p1))) /\
              ((exists a b, In (Some a) price /\ In (Some b) price /\ ~ a == b) ->
               forall p, In (Some p) price ->
                 ((forall q, In (Some q) price -> p <= q) -> fillna0 (g (Some p)) == 1) /\
                 ((forall q, In (Some q) price -> q <= p) -> fillna0 (g (Some p)) == 0))).
  { intros x Hx Hsame. exists (fun _ => Some x). split; [reflexivity|].
    split; [intros; exact Hx|]. split; [intros; apply Qle_refl|].
    intros Hd. contradiction. }
  assert (Hdiff : (exists a b, In (Some a) price /\ In (Some b) price /\ ~ a == b) <->
                  (1 < nunique price)%nat).
  { unfold nunique. rewrite distinct_values_gt1. split.
    - intros (a & b & Ha & Hb & Hab). exists a, b. rewrite !notna_In. tauto.
    - intros (a & b & Ha & Hb & Hab). exists a, b. rewrite <- !notna_In. tauto. }
  unfold price_score_col.
  destruct (1 <? nunique price)%nat eqn:Hlen.
  2:{ simpl. assert (Hsame : ~ (exists a b, In (Some a) price /\ In (Some b) price /\ ~ a == b)).
      { rewrite Hdiff. apply Nat.ltb_ge in Hlen. lia. }
      destruct ((0 <? length price)%nat && negb (isnull_all price)).
      - apply Hconst; assumption.
      - apply Hconst; [split; apply Qle_refl || (unfold Qle; simpl; lia) | exact Hsame]. }
  apply Nat.ltb_lt in Hlen. pose proof (proj2 Hdiff Hlen) as Hd.
  assert (Hnn : isnull_all price = false).
  { destruct Hd as (a & _ & Ha & _). unfold isnull_all.
    destruct (forallb isna price) eqn:E; [|reflexivity].
    rewrite forallb_forall in E. specialize (E _ Ha). discriminate. }
  rewrite Hnn. simpl. unfold series_min, series_max.
  destruct (notna price) as [|x xs] eqn:Evals.
  { destruct Hd as (a & _ & Ha & _). apply notna_In in Ha. rewrite Evals in Ha. destruct Ha. }
  destruct (fold_min_spec xs x) as [Hmin_in Hmin].
  destruct (fold_max_spec xs x) as [Hmax_in Hmax].
  set (mn := fold_left Qmin xs x) in *. set (mx := fold_left Qmax xs x) in *.
  rewrite <- Evals in Hmin_in, Hmax_in, Hmin, Hmax.
  rewrite List.Forall_forall in Hmin, Hmax.
  assert (Hb : forall v, In (Some v) price -> mn <= v <= mx).
  { intros v Hv. apply notna_In in Hv. split; [apply Hmin | apply Hmax]; exact Hv. }
  assert (Hlt : mn < mx).
  { destruct Hd as (a & b & Ha & Hb' & Hab).
    destruct (Hb a Ha) as [Ha1 Ha2]. destruct (Hb b Hb') as [Hb1 Hb2].
    destruct (Qlt_le_dec mn mx) as [H|H]; [exact H|].
    exfalso. apply Hab. apply Qle_antisym.
    - eapply Qle_trans; [exact Ha2|]. eapply Qle_trans; [exact H | exact Hb1].
    - eapply Qle_trans; [exact Hb2|]. eapply Qle_trans; [exact H | exact Ha1]. }
  assert (Hneq : feqb (Some mx) (Some mn) = false).
  { simpl. destruct (Qeq_bool mx mn) eqn:E; [|reflexivity].
    apply Qeq_bool_iff in E. rewrite E in Hlt. exfalso. exact (Qlt_irrefl _ Hlt). }
  rewrite Hneq.
  exists (fun p => fdiv (fsub (Some mx) p) (fsub (Some mx) (Some mn))).
  split; [reflexivity|].
  assert (Hpos : 0 < mx - mn) by lra.
  split; [|split].
  - intros [v|] Hc; simpl; [apply unit_interval; [apply Hb, Hc | exact Hlt]|].
    split; [apply Qle_refl | unfold Qle; simpl; lia].
  - intros p1 p2 _ _ Hle. simpl. unfold Qdiv.
    apply Qmult_le_compat_r; [lra|]. apply Qinv_le_0_compat. lra.
  - intros _ p Hp. simpl. split.
    + intros Hlow.
      assert (E : p == mn).
      { apply Qle_antisym; [apply Hlow, notna_In, Hmin_in | apply Hb, Hp]. }
      rewrite E. field. lra.
    + intros Hhigh.
      assert (E : p == mx).
      { apply Qle_antisym; [apply Hb, Hp | apply Hhigh, notna_In, Hmax_in]. }
      rewrite E. field. lra.
Qed.

(** The rows of the scored frame, through the function of the shape lemma. *)
Lemma calculate_shape (df : list Prep.row) (w_availability w_price : Q) :
  exists g : option Q -> option Q,
    calculate_attractiveness_score df w_availability w_price
    = map (fun r => score_row w_availability w_price r (g (Prep.price r))) df /\
    (forall r, In r df -> 0 <= fillna0 (g (Prep.price r)) <= 1) /\
    (forall r1 r2 p1 p2, In r1 df -> In r2 df ->
       Prep.price r1 = Some p1 -> Prep.price r2 = Some p2 -> p1 <= p2 ->
       fillna0 (g (Some p2)) <= fillna0 (g (Some p1))) /\
    ((exists r1 r2 p1 p2, In r1 df /\ In r2 df /\ Prep.price r1 = Some p1 /\
                          Prep.price r2 = Some p2 /\ ~ p1 == p2) ->
     forall r p, In r df -> Prep.price r = Some p ->
       ((forall r' q, In r' df -> Prep.price r' = Some q -> p <= q) ->
        fillna0 (g (Some p)) == 1) /\
       ((forall r' q, In r' df -> Prep.price r' = Some q -> q <= p) ->
        fillna0 (g (Some p)) == 0)).
Proof.
  destruct (price_score_col_shape (map Prep.price df)) as (g & Hcol & Hb & Hmono & Hext).
  assert (Hin : forall r p, In r df -> Prep.price r = Some p -> In (Some p) (map Prep.price df)).
  { intros r p Hr Hp. rewrite <- Hp. apply in_map, Hr. }
  assert (Hfrom : forall p, In (Some p) (map Prep.price df) ->
                            exists r, In r df /\ Prep.price r = Some p).
  { intros p Hp. apply in_map_iff in Hp. destruct Hp as (r & Hr & Hrin). eauto. }
  exists g. split; [apply calculate_as_map, Hcol|]. split; [|split].
  - intros r Hr. apply Hb, in_map, Hr.
  - intros r1 r2 p1 p2 H1 H2 E1 E2 Hle. apply Hmono; eauto.
  - intros (r1 & r2 & p1 & p2 & H1 & H2 & E1 & E2 & Hd) r p Hr Hp.
    assert (Hd' : exists a b, In (Some a) (map Prep.price df) /\
                              In (Some b) (map Prep.price df) /\ ~ a == b)
      by (exists p1, p2; eauto).
    destruct (Hext Hd' p (Hin _ _ Hr Hp)) as [Hlo Hhi]. split.
    + intros H. apply Hlo. intros q Hq. destruct (Hfrom q Hq) as (r' & Hr' & Hq'). eauto.
    + intros H. apply Hhi. intros q Hq. destruct (Hfrom q Hq) as (r' & Hr' & Hq'). eauto.
Qed.

Lemma In_calculate (df : list Prep.row) (w_availability w_price : Q)
    (g : option Q -> option Q) (r : Scored.row) :
  calculate_attractiveness_score df w_availability w_price
  = map (fun b => score_row w_availability w_price b (g (Prep.price b))) df ->
  In r (calculate_attractiveness_score df w_availability w_price) ->
  exists b, In b df /\ r = score_row w_availability w_price b (g (Prep.price b)).
Proof.
  intros E Hr. rewrite E in Hr. apply in_map_iff in Hr.
  destruct Hr as (b & <- & Hb). exists b. split; [exact Hb | reflexivity].
Qed.

(** X3.  Within one batch a cheaper product never gets a lower price score
    than a dearer one; and when the batch holds two different prices, a
    product at the lowest price gets 1 and a product at the highest gets 0. *)
Theorem price_score_monotone (df : list Prep.row) (w_availability w_price : Q) :
  let scored := calculate_attractiveness_score df w_availability w_price in
  (forall r1 r2 p1 p2,
      In r1 scored -> In r2 scored ->
      Prep.price (Scored.base r1) = Some p1 -> Prep.price (Scored.base r2) = Some p2 ->
      p1 <= p2 -> Scored.price_score r2 <= Scored.price_score r1) /\
  ((exists r1 r2 p1 p2, In r1 df /\ In r2 df /\ Prep.price r1 = Some p1 /\
                        Prep.price r2 = Some p2 /\ ~ p1 == p2) ->
   forall r p,
     In r scored -> Prep.price (Scored.base r) = Some p ->
     ((forall r' q, In r' df -> Prep.price r' = Some q -> p <= q) ->
      Scored.price_score r == 1) /\
     ((forall r' q, In r' df -> Prep.price r' = Some q -> q <= p) ->
      Scored.price_score r == 0)).
Proof.
  intros scored. subst scored.
  destruct (calculate_shape df w_availability w_price) as (g & E & _ & Hmono & Hext).
  split.
  - intros r1 r2 p1 p2 H1 H2 E1 E2 Hle.
    destruct (In_calculate _ _ _ g r1 E H1) as (b1 & Hb1 & ->).
    destruct (In_calculate _ _ _ g r2 E H2) as (b2 & Hb2 & ->).
    simpl in *. rewrite E1, E2. exact (Hmono b1 b2 p1 p2 Hb1 Hb2 E1 E2 Hle).
  - intros Hd r p Hr Hp.
    destruct (In_calculate _ _ _ g r E Hr) as (b & Hb & ->). simpl in *. rewrite Hp.
    exact (Hext Hd _ _ Hb Hp).
Qed.

Lemma scaled_weight (x w : Q) : 0 <= x <= 1 -> 0 <= w -> 0 <= x * w <= w.
Proof.
  intros [H0 H1] Hw. split.
  - apply Qmult_le_0_compat; assumption.
  - rewrite <- (Qmult_1_l w) at 2. apply Qmult_le_compat_r; assumption.
Qed.

Lemma preprocess_flag (df : list Unified.row) :
  Forall (fun b => Prep.is_available_numeric b = 0%Z \/ Prep.is_available_numeric b = 1%Z)
         (preprocess_combined_data df).
Proof.
  apply List.Forall_forall. intros b Hb. apply preprocess_origin in Hb.
  destruct Hb as (u & q & _ & _ & ->). simpl.
  destruct (Unified.availability u) as [| |s|]; simpl; try (left; reflexivity).
  destruct (String.eqb (lower s) "available"); [right | left]; reflexivity.
Qed.

(** X4.  With weights that are not negative, every row of the scored frame
    has a price score between 0 and 1, an availability score of 0 or 1, and
    a final score between 0 and the sum of the two weights. *)
Theorem final_score_bounds (products : list Shopify.row) (barefoot_products : list Woo.row)
    (w_availability w_price : Q) :
  0 <= w_availability -> 0 <= w_price ->
  Forall (fun r =>
            0 <= Scored.price_score r <= 1 /\
            (Scored.availability_score r = 0%Z \/ Scored.availability_score r = 1%Z) /\
            0 <= Scored.final_score r <= w_availability + w_price)
         (scored_frame products barefoot_products w_availability w_price).
Proof.
  intros Ha Hp. unfold scored_frame.
  set (df := preprocess_combined_data _).
  destruct (calculate_shape df w_availability w_price) as (g & E & Hb & _).
  apply List.Forall_forall. intros r Hr.
  destruct (In_calculate _ _ _ g r E Hr) as (b & Hin & ->). simpl.
  specialize (Hb _ Hin).
  pose proof (preprocess_flag
                (combine (fetch_shopify_data products)
                         (fetch_woocommerce_data barefoot_products))) as Hflag.
  rewrite List.Forall_forall in Hflag. specialize (Hflag _ Hin).
  split; [exact Hb|]. split; [exact Hflag|].
  pose proof (scaled_weight _ _ Hb Hp) as [H0 H1].
  destruct Hflag as [-> | ->].
  - change (inject_Z 0) with 0. split; lra.
  - change (inject_Z 1) with 1. split; lra.
Qed.

Lemma final_score_bounds_witness :
  0 <= WEIGHT_AVAILABILITY /\ 0 <= WEIGHT_PRICE /\
  Forall (fun r =>
            0 <= Scored.price_score r <= 1 /\
            (Scored.availability_score r = 0%Z \/ Scored.availability_score r = 1%Z) /\
            0 <= Scored.final_score r <= WEIGHT_AVAILABILITY + WEIGHT_PRICE)
         (scored_frame example_products example_barefoot_products
                       WEIGHT_AVAILABILITY WEIGHT_PRICE).
Proof.
  assert (Ha : 0 <= WEIGHT_AVAILABILITY) by (unfold Qle; simpl; lia).
  assert (Hp : 0 <= WEIGHT_PRICE) by (unfold Qle; simpl; lia).
  split; [exact Ha|]. split; [exact Hp|].
  exact (final_score_bounds example_products example_barefoot_products _ _ Ha Hp).
Defined.

(** X5.  When the price weight is not negative and smaller than the
    availability weight (0.4 against 0.6 in the main block), every available
    product scores strictly higher than every unavailable one, whatever their
    prices; so no unavailable product stands before an available one among
    the top products. *)
Theorem available_outranks (sort_values : sorter) (df : list Prep.row)
    (w_availability w_price : Q) :
  sorts_descending sort_values ->
  0 <= w_price -> w_price < w_availability ->
  let scored := calculate_attractiveness_score df w_availability w_price in
  (forall r1 r2, In r1 scored -> In r2 scored ->
                 Scored.availability_score r1 = 1%Z -> Scored.availability_score r2 = 0%Z ->
                 Scored.final_score r2 < Scored.final_score r1) /\
  (forall k before x between y after,
      display_top_k_products sort_values scored k
      = (before ++ x :: between ++ y :: after)%list ->
      Scored.availability_score y = 1%Z -> Scored.availability_score x <> 0%Z).
Proof.
  intros Hsort Hp Hlt scored. subst scored.
  destruct (calculate_shape df w_availability w_price) as (g & E & Hb & _).
  assert (Hdom : forall r1 r2,
            In r1 (calculate_attractiveness_score df w_availability w_price) ->
            In r2 (calculate_attractiveness_score df w_availability w_price) ->
            Scored.availability_score r1 = 1%Z -> Scored.availability_score r2 = 0%Z ->
            Scored.final_score r2 < Scored.final_score r1).
  { intros r1 r2 H1 H2.
    destruct (In_calculate _ _ _ g r1 E H1) as (b1 & Hb1 & ->).
    destruct (In_calculate _ _ _ g r2 E H2) as (b2 & Hb2 & ->).
    simpl. intros -> ->.
    pose proof (scaled_weight _ _ (Hb _ Hb1) Hp) as [H10 H11].
    pose proof (scaled_weight _ _ (Hb _ Hb2) Hp) as [H20 H21].
    change (inject_Z 0) with 0. change (inject_Z 1) with 1. lra. }
  split; [exact Hdom|].
  intros k l1 x l2 y l3 Etop Hy Hx.
  set (scored := calculate_attractiveness_score df w_availability w_price) in *.
  assert (Hinx : In x scored).
  { apply (display_top_k_In sort_values scored k x Hsort). rewrite Etop.
    apply in_or_app. right. left. reflexivity. }
  assert (Hiny : In y scored).
  { apply (display_top_k_In sort_values scored k y Hsort). rewrite Etop.
    apply in_or_app. right. right. apply in_or_app. right. left. reflexivity. }
  assert (Hsorted : StronglySorted (fun a b => Scored.final_score b <= Scored.final_score a)
                                   (display_top_k_products sort_values scored k)).
  { unfold display_top_k_products. destruct scored as [|r0 rest]; [constructor|].
    apply sorted_head, Hsort. }
  rewrite Etop in Hsorted. apply StronglySorted_app_inv in Hsorted.
  destruct Hsorted as (_ & Hs & _). inversion Hs as [|? ? _ Hall]; subst.
  rewrite List.Forall_forall in Hall.
  assert (Hle : Scored.final_score y <= Scored.final_score x).
  { apply Hall. apply in_or_app. right. left. reflexivity. }
  pose proof (Hdom y x Hiny Hinx Hy Hx). lra.
Qed.

Lemma available_outranks_witness :
  let scored :=
    calculate_attractiveness_score
      [example_product "https://s/a" 10 0; example_product "https://s/b" 30 1]
      WEIGHT_AVAILABILITY WEIGHT_PRICE in
  sorts_descending stable_sorter /\ 0 <= WEIGHT_PRICE /\ WEIGHT_PRICE < WEIGHT_AVAILABILITY /\
  forall r1 r2, In r1 scored -> In r2 scored ->
                Scored.availability_score r1 = 1%Z -> Scored.availability_score r2 = 0%Z ->
                Scored.final_score r2 < Scored.final_score r1.
Proof.
  assert (Hp : 0 <= WEIGHT_PRICE) by (unfold Qle; simpl; lia).
  assert (Hlt : WEIGHT_PRICE < WEIGHT_AVAILABILITY) by (unfold Qlt; simpl; lia).
  split; [exact stable_sorter_sorts|]. split; [exact Hp|]. split; [exact Hlt|].
  exact (proj1 (available_outranks stable_sorter _ _ _ stable_sorter_sorts Hp Hlt)).
Defined.

(** ** Source readers and the merge *)

Lemma combine_In (df_shopify_raw df_woocommerce_raw : list Unified.row) (u : Unified.row) :
  In u (combine df_shopify_raw df_woocommerce_raw) ->
  In u df_shopify_raw \/ In u df_woocommerce_raw.
Proof.
  unfold combine, drop_duplicates_url, dropna_all. intros H.
  apply keep_first_In, filter_In in H. apply in_app_or, H.
Qed.

(** X7.  A row that the WooCommerce reader fetched carries, once scored, the
    store and vendor name "Barefoot Buttons", an availability score of 1 and
    an empty description text, whatever the table holds; and its title and
    price were not null in the table. *)
Theorem woocommerce_rows_available (products : list Shopify.row)
    (barefoot_products : list Woo.row) (w_availability w_price : Q) :
  Forall (fun r =>
            Prep.source_platform (Scored.base r) = Some "WooCommerce" ->
            Scored.availability_score r = 1%Z /\
            Prep.source_store_name (Scored.base r) = Some "Barefoot Buttons" /\
            Prep.vendor (Scored.base r) = Some "Barefoot Buttons" /\
            Prep.description_text (Scored.base r) = "" /\
            exists w, In w barefoot_products /\
                      Woo.title w <> None /\ Woo.price w <> PyNull /\
                      Prep.product_url (Scored.base r) = Woo.product_url w /\
                      Prep.title (Scored.base r) = Woo.title w /\
                      Prep.price (Scored.base r) = clean_and_convert_price (Woo.price w))
         (scored_frame products barefoot_products w_availability w_price).
Proof.
  unfold scored_frame. eapply List.Forall_impl; [|apply calculate_rows].
  intros r [Hb Hs] Hplat. rewrite Hs.
  apply preprocess_origin in Hb. destruct Hb as (u & q & Hu & Hq & Hr).
  rewrite Hr in *. simpl in Hplat. apply combine_In in Hu. destruct Hu as [Hu|Hu].
  - unfold fetch_shopify_data in Hu. apply in_map_iff in Hu.
    destruct Hu as (x & <- & _). simpl in Hplat. discriminate.
  - unfold fetch_woocommerce_data in Hu. apply in_map_iff in Hu.
    destruct Hu as (w & <- & Hw). apply filter_In in Hw. destruct Hw as [Hw Hfilter].
    apply andb_prop in Hfilter. destruct Hfilter as [Hprice Htitle]. simpl in *.
    repeat split.
    exists w. split; [exact Hw|].
    split; [destruct (Woo.title w); [discriminate | discriminate Htitle]|].
    split; [destruct (Woo.price w); try discriminate; discriminate Hprice|].
    split; [reflexivity|].
    split; [destruct (Woo.title w); [reflexivity | discriminate Htitle]|].
    symmetry. exact Hq.
Qed.

(** X8.  When no fetched price parses (and so when both source tables are
    empty) the run stops before the sink writers: the four tables are left
    exactly as they were. *)
Theorem run_without_prices (sort_values : sorter) (ukey : string -> string)
    (w_availability w_price : Q) (k n_flagship batch_size : nat)
    (products : list Shopify.row) (barefoot_products : list Woo.row) (db : tables) :
  Forall (fun r => clean_and_convert_price (Shopify.price r) = None) products ->
  Forall (fun r => clean_and_convert_price (Woo.price r) = None) barefoot_products ->
  scored_frame products barefoot_products w_availability w_price = [] /\
  run sort_values ukey w_availability w_price k n_flagship batch_size
      products barefoot_products db = db.
Proof.
  intros Hs Hw.
  assert (Hkept : preprocess_combined_data
                    (combine (fetch_shopify_data products)
                             (fetch_woocommerce_data barefoot_products)) = []).
  { destruct (preprocess_combined_data _) as [|b kept] eqn:E; [reflexivity|].
    exfalso. assert (Hb : In b (preprocess_combined_data
                                   (combine (fetch_shopify_data products)
                                            (fetch_woocommerce_data barefoot_products))))
      by (rewrite E; left; reflexivity).
    apply preprocess_origin in Hb. destruct Hb as (u & q & Hu & Hq & _).
    rewrite List.Forall_forall in Hs, Hw.
    apply combine_In in Hu. destruct Hu as [Hu|Hu].
    - unfold fetch_shopify_data in Hu. apply in_map_iff in Hu.
      destruct Hu as (x & <- & Hx). apply filter_In in Hx. simpl in Hq.
      rewrite (Hs x (proj1 Hx)) in Hq. discriminate.
    - unfold fetch_woocommerce_data in Hu. apply in_map_iff in Hu.
      destruct Hu as (x & <- & Hx). apply filter_In in Hx. simpl in Hq.
      rewrite (Hw x (proj1 Hx)) in Hq. discriminate. }
  assert (Hscored : scored_frame products barefoot_products w_availability w_price = []).
  { unfold scored_frame. rewrite Hkept. reflexivity. }
  split; [exact Hscored|]. unfold run. rewrite Hscored. reflexivity.
Qed.

Lemma run_without_prices_witness :
  let products :=
    [Shopify.mk (Some "https://s/c") (Some "Desk") (Some "V") (PyStr "call for price")
                (PyStr "available") PyNull (Some "Home") (Some "S")] in
  let barefoot_products :=
    [Woo.mk (Some "https://w/a") (Some "Button") (PyStr "N/A") None None (Some "Mini")] in
  Forall (fun r => clean_and_convert_price (Shopify.price r) = None) products /\
  Forall (fun r => clean_and_convert_price (Woo.price r) = None) barefoot_products /\
  main stable_sorter (fun url => url) products barefoot_products empty_tables = empty_tables.
Proof.
  assert (H1 : Forall (fun r => clean_and_convert_price (Shopify.price r) = None)
                 [Shopify.mk (Some "https://s/c") (Some "Desk") (Some "V")
                             (PyStr "call for price") (PyStr "available") PyNull
                             (Some "Home") (Some "S")])
    by (repeat constructor).
  assert (H2 : Forall (fun r => clean_and_convert_price (Woo.price r) = None)
                 [Woo.mk (Some "https://w/a") (Some "Button") (PyStr "N/A") None None
                         (Some "Mini")])
    by (repeat constructor).
  split; [exact H1|]. split; [exact H2|].
  exact (proj2 (run_without_prices stable_sorter (fun url => url)
                  WEIGHT_AVAILABILITY WEIGHT_PRICE TOP_K_OVERALL FLAGSHIP_PER_STORE
                  DB_BATCH_SIZE _ _ empty_tables H1 H2)).
Defined.

(** ** Unique product URLs *)

Lemma NoDup_map_filter {A B} (f : A -> B) (p : A -> bool) (l : list A) :
  List.NoDup (map f l) -> List.NoDup (map f (List.filter p l)).
Proof.
  induction l as [|a l IH]; simpl; [intros _; constructor|].
  intros H. inversion H as [|? ? Hnotin Hnd]; subst.
  destruct (p a); simpl; [|exact (IH Hnd)].
  constructor; [|exact (IH Hnd)].
  intros Hin. apply Hnotin. apply in_map_iff in Hin. destruct Hin as (x & Hx & Hin).
  apply filter_In in Hin. rewrite <- Hx. apply in_map, Hin.
Qed.

Lemma NoDup_firstn {A} (k : nat) (l : list A) : List.NoDup l -> List.NoDup (firstn k l).
Proof.
  intros H. rewrite <- (firstn_skipn k l) in H. exact (NoDup_app_remove_r _ _ H).
Qed.

Lemma NoDup_map_inj {A B} (f : A -> B) (l : list A) (x y : A) :
  List.NoDup (map f l) -> In x l -> In y l -> f x = f y -> x = y.
Proof.
  induction l as [|a l IH]; simpl; [tauto|].
  intros H. inversion H as [|? ? Hnotin Hnd]; subst.
  intros [->|Hx] [->|Hy] E; try reflexivity.
  - exfalso. apply Hnotin. rewrite E. apply in_map, Hy.
  - exfalso. apply Hnotin. rewrite <- E. apply in_map, Hx.
  - exact (IH Hnd Hx Hy E).
Qed.

Lemma preprocess_urls (df : list Unified.row) :
  map Prep.product_url (preprocess_combined_data df)
  = map Unified.product_url
        (List.filter (fun r => negb (isna (clean_and_convert_price (Unified.price r)))) df).
Proof.
  rewrite preprocess_as_flat_map. induction df as [|r df IH]; simpl; [reflexivity|].
  destruct (clean_and_convert_price (Unified.price r)); simpl; rewrite IH; reflexivity.
Qed.

(** The scored frame has one row per product URL. *)
Lemma scored_frame_urls (products : list Shopify.row) (barefoot_products : list Woo.row)
    (w_availability w_price : Q) :
  List.NoDup (map (fun r => Prep.product_url (Scored.base r))
                  (scored_frame products barefoot_products w_availability w_price)).
Proof.
  unfold scored_frame. rewrite <- (map_map Scored.base Prep.product_url), calculate_base.
  rewrite preprocess_urls. apply NoDup_map_filter. unfold combine.
  apply drop_duplicates_url_NoDup.
Qed.

Lemma top_k_tuples_urls (top_k_df : list Scored.row) :
  map TopK.product_url (top_k_tuples top_k_df)
  = map (fun r => Prep.product_url (Scored.base r)) top_k_df.
Proof.
  unfold top_k_tuples. rewrite map_map. simpl.
  rewrite <- (enumerate_from_snd top_k_df 0) at 2. rewrite map_map. reflexivity.
Qed.

Lemma display_top_k_NoDup {B} (key : Scored.row -> B) (sort_values : sorter)
    (df : list Scored.row) (k : nat) :
  sorts_descending sort_values ->
  List.NoDup (map key df) ->
  List.NoDup (map key (display_top_k_products sort_values df k)).
Proof.
  intros Hsort Hnd. unfold display_top_k_products. destruct df as [|r0 df0]; [constructor|].
  rewrite <- List.firstn_map. apply NoDup_firstn.
  eapply Permutation_NoDup; [|exact Hnd].
  symmetry. apply Permutation_map, Hsort.
Qed.

Lemma nlargest_NoDup {A B} (key : A -> B) (score : A -> Q) (n : nat) (l : list A) :
  List.NoDup (map key l) -> List.NoDup (map key (nlargest score n l)).
Proof.
  intros Hnd. unfold nlargest. rewrite <- firstn_map. apply NoDup_firstn.
  eapply Permutation_NoDup; [|exact Hnd].
  symmetry. apply Permutation_map, stable_sort_perm.
Qed.

Lemma NoDup_flat_map_groups {A B} (key : A -> B) (store : A -> option string)
    (f : string -> list A) (df : list A) (keys : list string) :
  List.NoDup (map key df) ->
  List.NoDup keys ->
  (forall s, List.NoDup (map key (f s))) ->
  (forall s r, In r (f s) -> In r df /\ store r = Some s) ->
  List.NoDup (map key (flat_map f keys)).
Proof.
  intros Hdf Hkeys Hgroup Hf. induction Hkeys as [|s keys Hs _ IH]; simpl; [constructor|].
  rewrite map_app. apply List.NoDup_app; [apply Hgroup | exact IH |].
  intros b Hb1 Hb2. apply in_map_iff in Hb1, Hb2.
  destruct Hb1 as (x & <- & Hx). destruct Hb2 as (y & Ey & Hy).
  apply in_flat_map in Hy. destruct Hy as (s' & Hs' & Hy).
  destruct (Hf _ _ Hx) as [Hxdf Hxs]. destruct (Hf _ _ Hy) as [Hydf Hys].
  assert (y = x) by exact (NoDup_map_inj key df y x Hdf Hydf Hxdf Ey). subst y.
  rewrite Hxs in Hys. injection Hys as ->. contradiction.
Qed.

Lemma display_flagship_NoDup {B} (key : Scored.row -> B) (df : list Scored.row)
    (n_flagship : nat) :
  List.NoDup (map key df) ->
  List.NoDup (map key (display_flagship_products_per_store df n_flagship)).
Proof.
  intros Hnd. unfold display_flagship_products_per_store.
  destruct df as [|r0 df0]; [constructor|].
  apply (NoDup_flat_map_groups key store_of _ (r0 :: df0)).
  - exact Hnd.
  - apply group_keys_NoDup.
  - intros s. apply nlargest_NoDup. unfold group. apply NoDup_map_filter, Hnd.
  - intros s r Hr. apply nlargest_In, group_In in Hr. exact Hr.
Qed.

Lemma filter_partition {A} (p : A -> bool) (l : list A) :
  Permutation (List.filter p l ++ List.filter (fun a => negb (p a)) l) l.
Proof.
  induction l as [|a l IH]; simpl; [reflexivity|].
  destruct (p a); simpl.
  - constructor. exact IH.
  - rewrite <- Permutation_middle. constructor. exact IH.
Qed.

(** The groups of a frame, one after the other, are the frame rearranged. *)
Lemma groups_partition {A} (store : A -> option string) (keys : list string) :
  List.NoDup keys ->
  forall l : list A,
    (forall r, In r l -> exists s, store r = Some s /\ In s keys) ->
    Permutation (flat_map (fun s => group store s l) keys) l.
Proof.
  induction 1 as [|k keys Hk Hnd IH]; intros l Hl; simpl.
  - destruct l as [|r l]; [reflexivity|].
    destruct (Hl r (or_introl eq_refl)) as (s & _ & []).
  - set (rest := List.filter (fun r => negb (opt_string_eqb (store r) (Some k))) l).
    assert (Hrest : flat_map (fun s => group store s l) keys
                    = flat_map (fun s => group store s rest) keys).
    { rewrite !flat_map_concat_map. f_equal. apply map_ext_in. intros s Hs.
      unfold group, rest. symmetry. apply filter_filter_all.
      intros y Hy. apply opt_string_eqb_eq in Hy. rewrite Hy. simpl.
      apply negb_true_iff. destruct (String.eqb s k) eqn:E; [|reflexivity].
      apply String.eqb_eq in E. subst s. contradiction. }
    rewrite Hrest, (IH rest).
    + apply filter_partition.
    + intros r Hr. unfold rest in Hr. apply filter_In in Hr. destruct Hr as [Hr Hne].
      destruct (Hl r Hr) as (s & Hs & [<-|Hin]); [|eauto].
      rewrite Hs in Hne. simpl in Hne. rewrite String.eqb_refl in Hne. discriminate.
Qed.

Lemma flagship_tuples_rows (flagship_df : list Scored.row) :
  (forall r, In r flagship_df -> store_of r <> None) ->
  Permutation (map Flagship.product_url (flagship_tuples flagship_df))
              (map (fun r => Prep.product_url (Scored.base r)) flagship_df) /\
  length (flagship_tuples flagship_df) = length flagship_df.
Proof.
  intros Hstores.
  assert (Hperm : Permutation
                    (flat_map (fun s => group store_of s flagship_df)
                              (group_keys (map store_of flagship_df)))
                    flagship_df).
  { apply groups_partition; [apply group_keys_NoDup|].
    intros r Hr. destruct (store_of r) as [s|] eqn:E; [|exfalso; exact (Hstores r Hr E)].
    exists s. split; [reflexivity|]. apply group_keys_In. rewrite <- E. apply in_map, Hr. }
  assert (Hrows : map snd (concat (ranked_flagship_list flagship_df))
                  = flat_map (fun s => group store_of s flagship_df)
                             (group_keys (map store_of flagship_df))).
  { unfold ranked_flagship_list. rewrite concat_map, map_map, flat_map_concat_map.
    f_equal. apply map_ext. intros s. apply enumerate_from_snd. }
  split.
  - unfold flagship_tuples. rewrite map_map. simpl.
    rewrite <- (map_map snd (fun r => Prep.product_url (Scored.base r))), Hrows.
    apply Permutation_map, Hperm.
  - unfold flagship_tuples. rewrite length_map, <- (length_map snd), Hrows.
    apply Permutation_length, Hperm.
Qed.

Lemma display_flagship_stores (df : list Scored.row) (n_flagship : nat) (r : Scored.row) :
  In r (display_flagship_products_per_store df n_flagship) -> store_of r <> None.
Proof.
  unfold display_flagship_products_per_store. destruct df as [|r0 df0]; [tauto|].
  intros H. apply in_flat_map in H. destruct H as (s & _ & H).
  apply nlargest_In, group_In in H. destruct H as [_ ->]. discriminate.
Qed.

(** X9.  One row per product URL: the scored frame never holds a URL twice,
    and neither do the tuples written to [top_k_products_overall] (whose
    primary key is the URL) nor those written to [flagship_products_by_store];
    the flagship tuples are as many as the flagship rows. *)
Theorem unique_product_urls (sort_values : sorter)
    (products : list Shopify.row) (barefoot_products : list Woo.row)
    (w_availability w_price : Q) (k n_flagship : nat) :
  sorts_descending sort_values ->
  let scored := scored_frame products barefoot_products w_availability w_price in
  let top_k_df := display_top_k_products sort_values scored k in
  let flagship_df := display_flagship_products_per_store scored n_flagship in
  List.NoDup (map (fun r => Prep.product_url (Scored.base r)) scored) /\
  List.NoDup (map TopK.product_url (top_k_tuples top_k_df)) /\
  List.NoDup (map Flagship.product_url (flagship_tuples flagship_df)) /\
  length (flagship_tuples flagship_df) = length flagship_df /\
  length (top_k_tuples top_k_df) = length top_k_df.
Proof.
  intros Hsort scored top_k_df flagship_df.
  pose proof (scored_frame_urls products barefoot_products w_availability w_price) as Hnd.
  fold scored in Hnd.
  destruct (flagship_tuples_rows flagship_df
              (display_flagship_stores scored n_flagship)) as [Hperm Hlen].
  split; [exact Hnd|]. split; [|split; [|split; [exact Hlen|]]].
  - rewrite top_k_tuples_urls. apply display_top_k_NoDup; assumption.
  - eapply Permutation_NoDup; [symmetry; exact Hperm|].
    apply display_flagship_NoDup, Hnd.
  - unfold top_k_tuples. rewrite length_map.
    rewrite <- (length_map snd), enumerate_from_snd. reflexivity.
Qed.

Lemma unique_product_urls_witness :
  let scored := scored_frame example_products example_barefoot_products
                             WEIGHT_AVAILABILITY WEIGHT_PRICE in
  sorts_descending stable_sorter /\
  List.NoDup (map TopK.product_url
                  (top_k_tuples (display_top_k_products stable_sorter scored TOP_K_OVERALL))).
Proof.
  split; [exact stable_sorter_sorts|].
  exact (proj1 (proj2 (unique_product_urls stable_sorter example_products
                         example_barefoot_products WEIGHT_AVAILABILITY WEIGHT_PRICE
                         TOP_K_OVERALL FLAGSHIP_PER_STORE stable_sorter_sorts))).
Defined.

(** ** The [scored_products] table *)

Lemma filter_key_singleton {A} (f : A -> string) (l : list A) (x : A) :
  List.NoDup (map f l) -> In x l ->
  List.filter (fun y => bool_decide (f y = f x)) l = [x].
Proof.
  induction l as [|a l IH]; simpl; [tauto|].
  intros H. inversion H as [|? ? Hnotin Hnd]; subst. intros [->|Hx].
  - rewrite bool_decide_eq_true_2 by reflexivity. f_equal.
    destruct (List.filter _ l) as [|y ys] eqn:E; [reflexivity|].
    exfalso. assert (Hy : In y (List.filter (fun y => bool_decide (f y = f x)) l))
      by (rewrite E; left; reflexivity).
    apply filter_In in Hy. destruct Hy as [Hy Hf]. apply bool_decide_eq_true_1 in Hf.
    apply Hnotin. rewrite <- Hf. apply in_map, Hy.
  - rewrite bool_decide_eq_false_2; [exact (IH Hnd Hx)|].
    intros E. apply Hnotin. rewrite E. apply in_map, Hx.
Qed.

Lemma fold_upsert_dom (ukey : string -> string) (ts : list ScoredProducts.row) :
  forall tbl : gmap string ScoredProducts.row,
    dom (fold_left (upsert ukey) ts tbl)
    = dom tbl ∪ list_to_set (map (fun t => ukey (ScoredProducts.product_url t)) ts).
Proof.
  induction ts as [|t ts IH]; intros tbl; simpl.
  - rewrite union_empty_r_L. reflexivity.
  - rewrite IH. unfold upsert. rewrite dom_insert_L.
    rewrite (union_comm_L _ (dom tbl)), <- (assoc_L (∪)). reflexivity.
Qed.

(** X10.  Insert, then look up: when the scored rows have pairwise different
    index keys, after the persistence stage the row filed under the key of a
    scored row holds that row's title, store, price, flags, texts and scores,
    whether the key was new or already in the table; its URL is the one the
    table had under this key, and the URL of the scored row when the key was
    new.  Rows under other keys are left as they were, and the keys of the
    table are the old keys and the keys of the scored rows, no more and no
    fewer. *)
Theorem scored_products_lookup (ukey : string -> string) (batch_size : nat)
    (combined_df top_k_df flagship_df : list Scored.row) (avg_scores max_scores : series)
    (platform_map_df : list (option string * option string)) (db : tables) :
  (0 < batch_size)%nat ->
  let key := fun r => ukey (ScoredProducts.product_url (scored_tuple r)) in
  List.NoDup (map key combined_df) ->
  let db' := persistence_stage ukey batch_size combined_df top_k_df flagship_df
                               avg_scores max_scores platform_map_df db in
  (forall r, In r combined_df ->
             exists stored,
               scored_products db' !! key r = Some stored /\
               holds_values stored (scored_tuple r) /\
               ScoredProducts.product_url stored
               = match scored_products db !! key r with
                 | Some old => ScoredProducts.product_url old
                 | None => ScoredProducts.product_url (scored_tuple r)
                 end) /\
  (forall k, ~ In k (map key combined_df) ->
             scored_products db' !! k = scored_products db !! k) /\
  dom (scored_products db') = dom (scored_products db) ∪ list_to_set (map key combined_df).
Proof.
  intros Hpos key Hnd db'. subst db'.
  rewrite (persistence_stage_tables ukey batch_size _ _ _ _ _ _ _ Hpos). simpl.
  assert (Hlookup : forall r, In r combined_df ->
            fold_left (upsert ukey) (map scored_tuple combined_df) (scored_products db) !! key r
            = Some (upsert_cell (scored_products db !! key r) (scored_tuple r))).
  { intros r Hr. rewrite fold_upsert_lookup.
    rewrite (filter_map_comm _ scored_tuple).
    change (fun a => bool_decide (ukey (ScoredProducts.product_url (scored_tuple a)) = key r))
      with (fun a => bool_decide (key a = key r)).
    rewrite (filter_key_singleton key combined_df r Hnd Hr). reflexivity. }
  split; [|split].
  - intros r Hr. rewrite (Hlookup r Hr).
    destruct (scored_products db !! key r) as [old|];
      eexists; (split; [reflexivity|]); split; try reflexivity;
      unfold holds_values; repeat split.
  - intros k Hk. apply fold_upsert_untouched. apply List.Forall_forall.
    intros t Ht E. apply Hk. apply in_map_iff in Ht. destruct Ht as (r & <- & Hr).
    apply in_map_iff. exists r. split; [exact E | exact Hr].
  - rewrite fold_upsert_dom, map_map. reflexivity.
Qed.

Lemma scored_products_lookup_witness :
  let scored := scored_frame example_products example_barefoot_products
                             WEIGHT_AVAILABILITY WEIGHT_PRICE in
  let key := fun r => ScoredProducts.product_url (scored_tuple r) in
  let old := ScoredProducts.mk "https://s/b" "Old lamp" "S" (Some 45) 1 "" "Home" "N/A" "N/A"
                               "Shopify" 1 1 1 in
  let db := {| scored_products := {[ "https://s/b" := old ]};
               top_k_products_overall := []; flagship_products_by_store := [];
               store_rankings := [] |} in
  (0 < DB_BATCH_SIZE)%nat /\
  List.NoDup (map key scored) /\
  In "https://s/b" (map key scored) /\
  scored_products db !! "https://s/b" = Some old /\
  forall r, In r scored ->
            exists stored,
              scored_products (persistence_stage (fun url => url) DB_BATCH_SIZE scored
                                                 [] [] [] [] [] db) !! key r
              = Some stored /\
              holds_values stored (scored_tuple r).
Proof.
  intros scored key old db.
  assert (Hpos : (0 < DB_BATCH_SIZE)%nat) by (unfold DB_BATCH_SIZE; lia).
  assert (Hnd : List.NoDup (map key scored)).
  { vm_compute. repeat constructor; simpl; intuition discriminate. }
  split; [exact Hpos|]. split; [exact Hnd|].
  split; [vm_compute; tauto|]. split; [apply lookup_singleton_eq|].
  intros r Hr.
  destruct (proj1 (scored_products_lookup (fun url => url) DB_BATCH_SIZE scored [] [] [] [] []
                     db Hpos Hnd) r Hr) as (stored & Hstored & Hvalues & _).
  exists stored. split; [exact Hstored | exact Hvalues].
Defined.

(** X11.  With a positive batch size the loop over the batches sends every
    tuple once, in order: the batches put end to end are the tuples; there
    are [ceil(len / batch_size)] of them; none is empty and none is longer
    than the batch size; all but the last are full. *)
Theorem batches_cover {A : Type} (batch_size : nat) (l : list A) :
  (0 < batch_size)%nat ->
  concat (batches batch_size l) = l /\
  length (batches batch_size l) = ((length l + batch_size - 1) / batch_size)%nat /\
  Forall (fun b => (1 <= length b <= batch_size)%nat) (batches batch_size l) /\
  (forall j b, nth_error (batches batch_size l) j = Some b ->
               (S j < length (batches batch_size l))%nat -> length b = batch_size).
Proof.
  intros Hpos. split; [apply batches_concat, Hpos|].
  unfold batches. set (m := ((length l + batch_size - 1) / batch_size)%nat).
  assert (Hdiv : exists r, (length l + batch_size - 1 = batch_size * m + r)%nat /\
                           (r < batch_size)%nat).
  { exists ((length l + batch_size - 1) mod batch_size)%nat. split.
    - apply Nat.div_mod_eq.
    - apply Nat.mod_upper_bound. lia. }
  destruct Hdiv as (r & Hdiv & Hr).
  assert (Hlen : forall j, length (firstn batch_size (skipn (j * batch_size) l))
                           = Nat.min batch_size (length l - j * batch_size)).
  { intros j. rewrite List.length_firstn, List.length_skipn. reflexivity. }
  split; [rewrite length_map, length_seq; reflexivity|]. split.
  - apply List.Forall_forall. intros b Hb. apply in_map_iff in Hb.
    destruct Hb as (j & <- & Hj). apply in_seq in Hj. rewrite Hlen. nia.
  - intros j b Hnth Hj. rewrite length_map, length_seq in Hj.
    rewrite nth_error_map in Hnth.
    destruct (nth_error (seq 0 m) j) as [i|] eqn:E; [|discriminate].
    apply nth_error_nth with (d := 0%nat) in E. rewrite seq_nth in E by lia. simpl in E.
    subst i. injection Hnth as <-. rewrite Hlen. nia.
Qed.

Lemma batches_cover_witness :
  (0 < 2)%nat /\
  concat (batches 2 [1; 2; 3; 4; 5]%nat) = [1; 2; 3; 4; 5]%nat /\
  batches 2 [1; 2; 3; 4; 5]%nat = [[1; 2]; [3; 4]; [5]]%nat.
Proof.
  split; [lia|]. split; [|reflexivity].
  exact (proj1 (batches_cover 2 [1; 2; 3; 4; 5]%nat ltac:(lia))).
Defined.

(** ** The [top_k_products_overall] table *)

Lemma enumerate_from_bound {A} (l : list A) : forall i j x,
  In (j, x) (enumerate_from i l) -> (i <= j)%nat /\ In x l.
Proof.
  induction l as [|a l IH]; intros i j x; simpl; [tauto|].
  intros [[= <- <-]|H]; [split; [lia | left; reflexivity]|].
  destruct (IH _ _ _ H). split; [lia | right; assumption].
Qed.

Lemma enumerate_sorted {A} (R : A -> A -> Prop) (l : list A) :
  StronglySorted R l ->
  forall i, StronglySorted (fun a b => R (snd a) (snd b) /\ (fst a < fst b)%nat)
                           (enumerate_from i l).
Proof.
  induction 1 as [|x l Hl IH Hx]; intros i; simpl; constructor; [apply IH|].
  apply List.Forall_forall. intros [j y] Hy. simpl.
  apply enumerate_from_bound in Hy. destruct Hy as [Hj Hy].
  rewrite List.Forall_forall in Hx. split; [apply Hx, Hy | lia].
Qed.

Lemma StronglySorted_map {A B} (R : B -> B -> Prop) (f : A -> B) (l : list A) :
  StronglySorted (fun a b => R (f a) (f b)) l -> StronglySorted R (map f l).
Proof.
  induction 1 as [|x l Hl IH Hx]; simpl; constructor; [exact IH|].
  apply List.Forall_map. exact Hx.
Qed.

(** X12.  The tuples written to [top_k_products_overall] carry the ranks
    1, 2, ..., [min k (population size)], in this order; a better rank never
    goes with a lower final score; and the product of rank 1 has the highest
    final score of the whole scored set. *)
Theorem top_k_ranks (sort_values : sorter) (df : list Scored.row) (k : nat) :
  sorts_descending sort_values ->
  let data_tuples := top_k_tuples (display_top_k_products sort_values df k) in
  map TopK.rank_overall data_tuples = seq 1 (Nat.min k (length df)) /\
  StronglySorted (fun a b => TopK.final_score b <= TopK.final_score a /\
                             (TopK.rank_overall a < TopK.rank_overall b)%nat)
                 data_tuples /\
  (forall t r, In t data_tuples -> TopK.rank_overall t = 1%nat -> In r df ->
               Scored.final_score r <= TopK.final_score t).
Proof.
  intros Hsort data_tuples. subst data_tuples.
  assert (Hsorted : StronglySorted
                      (fun x y => Scored.final_score y <= Scored.final_score x)
                      (display_top_k_products sort_values df k) /\
                    length (display_top_k_products sort_values df k)
                    = Nat.min k (length df)).
  { unfold display_top_k_products. destruct df as [|r0 df0].
    - split; [constructor | rewrite Nat.min_0_r; reflexivity].
    - destruct (Hsort _ Scored.final_score (r0 :: df0)) as [Hperm Hs].
      destruct (sorted_head Scored.final_score k _ Hs) as (H1 & H2 & _).
      split; [exact H1|]. rewrite H2, (Permutation_length Hperm). reflexivity. }
  destruct Hsorted as [Hsorted Hlen].
  unfold top_k_tuples. split; [|split].
  - rewrite map_map. simpl.
    rewrite <- (map_map fst (fun i => (i + 1)%nat)), enumerate_from_fst, Hlen.
    rewrite <- seq_shift. apply map_ext. intros i. lia.
  - apply StronglySorted_map. simpl.
    eapply Sorted.StronglySorted_ind with
      (P := fun l => StronglySorted
                       (fun a b : nat * Scored.row =>
                          Scored.final_score (snd b) <= Scored.final_score (snd a) /\
                          (fst a + 1 < fst b + 1)%nat) l);
      [constructor | | apply (enumerate_sorted _ _ Hsorted 0)].
    intros a l _ IH Ha. constructor; [exact IH|].
    eapply List.Forall_impl; [|exact Ha]. intros b [H1 H2]. split; [exact H1 | lia].
  - intros t r Ht Hrank Hr. apply in_map_iff in Ht. destruct Ht as ([i x] & <- & Hx).
    simpl in *. assert (i = 0%nat) by lia. subst i.
    unfold display_top_k_products in Hx. destruct df as [|r0 df0]; [destruct Hx|].
    destruct (Hsort _ Scored.final_score (r0 :: df0)) as [Hperm Hs].
    apply (Permutation_in _ (Permutation_sym Hperm)) in Hr.
    destruct (sort_values Scored.row Scored.final_score (r0 :: df0)) as [|y ys];
      [destruct Hr|].
    destruct k as [|k']; [destruct Hx|]. simpl in Hx.
    destruct Hx as [[= <-]|Hx].
    + destruct Hr as [<-|Hr]; [apply Qle_refl|].
      inversion Hs as [|? ? _ Hall]; subst. rewrite List.Forall_forall in Hall.
      apply Hall, Hr.
    + apply enumerate_from_bound in Hx. lia.
Qed.

Lemma top_k_ranks_witness :
  let df := [example_row "https://s/a" "S" (1 # 5); example_row "https://t/c" "T" (1 # 3);
             example_row "https://s/b" "S" (1 # 2)] in
  sorts_descending stable_sorter /\
  map TopK.rank_overall (top_k_tuples (display_top_k_products stable_sorter df 2))
  = seq 1 (Nat.min 2 (length df)).
Proof.
  split; [exact stable_sorter_sorts|].
  exact (proj1 (top_k_ranks stable_sorter _ 2 stable_sorter_sorts)).
Defined.

(** ** Store rankings *)

Lemma maximum_spec (l : list Q) :
  l <> [] -> In (maximum l) l /\ Forall (fun y => y <= maximum l) l.
Proof.
  destruct l as [|x xs]; [congruence|]. intros _. apply fold_max_spec.
Qed.

Lemma groupby_In (agg : list Q -> Q) (df : list Scored.row) (s : string) (v : Q) :
  In (s, v) (groupby_final_score agg df) <->
  In (Some s) (map store_of df) /\ v = agg (map Scored.final_score (group store_of s df)).
Proof.
  unfold groupby_final_score. rewrite in_map_iff. split.
  - intros (k & [= <- <-] & Hk). split; [apply group_keys_In, Hk | reflexivity].
  - intros [Hs ->]. exists s. split; [reflexivity | apply group_keys_In, Hs].
Qed.

Lemma groupby_keys (agg : list Q -> Q) (df : list Scored.row) :
  map fst (groupby_final_score agg df) = group_keys (map store_of df).
Proof. unfold groupby_final_score. rewrite map_map. simpl. apply map_id. Qed.

Lemma group_scores_nonempty (df : list Scored.row) (s : string) :
  In (Some s) (map store_of df) -> map Scored.final_score (group store_of s df) <> [].
Proof.
  intros Hs. apply in_map_iff in Hs. destruct Hs as (r & Hr & Hin).
  assert (H : In r (group store_of s df)) by (apply group_In; split; assumption).
  destruct (group store_of s df); [destruct H | discriminate].
Qed.

(** X13.  The two Series of the store ranking list every store of the
    scored set once, the one by descending average and the other by
    descending best score.  A store's best score is the final score of one of
    its products and no product of the store has a higher one; its average
    is the mean of its products' scores. *)
Theorem store_rankings_series (sort_values : sorter) (df : list Scored.row) :
  sorts_descending sort_values ->
  let avg_store_scores := fst (display_store_rankings sort_values df) in
  let max_store_scores := snd (display_store_rankings sort_values df) in
  List.NoDup (map fst avg_store_scores) /\
  List.NoDup (map fst max_store_scores) /\
  (forall s, In s (map fst avg_store_scores) <-> In (Some s) (map store_of df)) /\
  (forall s, In s (map fst max_store_scores) <-> In (Some s) (map store_of df)) /\
  StronglySorted (fun x y => snd y <= snd x) avg_store_scores /\
  StronglySorted (fun x y => snd y <= snd x) max_store_scores /\
  (forall s a, In (s, a) avg_store_scores ->
     a = mean (map Scored.final_score (group store_of s df)) /\
     exists m, In (s, m) max_store_scores /\
               (exists r, In r df /\ store_of r = Some s /\ Scored.final_score r = m) /\
               (forall r, In r df -> store_of r = Some s -> Scored.final_score r <= m)).
Proof.
  intros Hsort avg mx. subst avg mx. unfold display_store_rankings.
  destruct df as [|r0 df0].
  { simpl. repeat split; try constructor; try tauto. }
  set (df := r0 :: df0). cbn [fst snd].
  destruct (Hsort _ snd (groupby_final_score mean df)) as [Pavg Savg].
  destruct (Hsort _ snd (groupby_final_score maximum df)) as [Pmax Smax].
  assert (Hkeys : forall agg l, Permutation l (groupby_final_score agg df) ->
            List.NoDup (map fst l) /\
            (forall s, In s (map fst l) <-> In (Some s) (map store_of df))).
  { intros agg l P. pose proof (Permutation_map fst P) as P'. rewrite groupby_keys in P'.
    split.
    - eapply Permutation_NoDup; [symmetry; exact P' | apply group_keys_NoDup].
    - intros s. rewrite <- group_keys_In. split; apply Permutation_in;
        [exact P' | symmetry; exact P']. }
  destruct (Hkeys _ _ Pavg) as [H1 H3]. destruct (Hkeys _ _ Pmax) as [H2 H4].
  split; [exact H1|]. split; [exact H2|]. split; [exact H3|]. split; [exact H4|].
  split; [exact Savg|]. split; [exact Smax|].
  intros s a Ha. apply (Permutation_in _ Pavg) in Ha. apply groupby_In in Ha.
  destruct Ha as [Hs ->]. split; [reflexivity|].
  set (scores := map Scored.final_score (group store_of s df)).
  pose proof (group_scores_nonempty df s Hs) as Hne. fold scores in Hne.
  destruct (maximum_spec scores Hne) as [Hin Hall].
  exists (maximum scores). split; [|split].
  - apply (Permutation_in _ (Permutation_sym Pmax)). apply groupby_In. split; [exact Hs | reflexivity].
  - unfold scores in Hin. apply in_map_iff in Hin. destruct Hin as (r & Hr & Hin).
    apply group_In in Hin. exists r. tauto.
  - intros r Hr Hstore. rewrite List.Forall_forall in Hall. apply Hall.
    unfold scores. apply in_map. apply group_In. split; assumption.
Qed.

Lemma store_rankings_series_witness :
  let df := [example_row "https://s/a" "S" (1 # 5); example_row "https://t/c" "T" (1 # 3);
             example_row "https://s/b" "S" (1 # 2)] in
  sorts_descending stable_sorter /\
  List.NoDup (map fst (fst (display_store_rankings stable_sorter df))) /\
  map fst (fst (display_store_rankings stable_sorter df)) = ["S"; "T"].
Proof.
  split; [exact stable_sorter_sorts|]. split; [|reflexivity].
  exact (proj1 (store_rankings_series stable_sorter _ stable_sorter_sorts)).
Defined.

Lemma same_store_sym (x y : Scored.row) :
  opt_string_eqb (store_of x) (store_of y) = true ->
  opt_string_eqb (store_of y) (store_of x) = true.
Proof. rewrite !opt_string_eqb_eq. congruence. Qed.

Lemma same_store_trans (x y z : Scored.row) :
  opt_string_eqb (store_of x) (store_of y) = true ->
  opt_string_eqb (store_of y) (store_of z) = true ->
  opt_string_eqb (store_of x) (store_of z) = true.
Proof. rewrite !opt_string_eqb_eq. congruence. Qed.

(** The platform joined to a store is that of the first row of the store. *)
Lemma merge_platform_first (df : list Scored.row) (s : string) :
  In (Some s) (map store_of df) ->
  exists r, List.find (fun r => opt_string_eqb (store_of r) (Some s)) df = Some r /\
            merge_platform (platform_map df) s
            = [match Prep.source_platform (Scored.base r) with
               | Some p => p
               | None => "Unknown"
               end].
Proof.
  intros Hs. apply in_map_iff in Hs. destruct Hs as (x & Hx & Hin).
  destruct (find_some_of_In (fun r => opt_string_eqb (store_of r) (Some s)) df x Hin)
    as [r Hr]; [apply opt_string_eqb_eq, Hx|].
  exists r. split; [exact Hr|].
  unfold merge_platform, platform_map. rewrite filter_map_comm. cbn [fst].
  rewrite <- Hx.
  rewrite (keep_first_filter_find (fun a b => opt_string_eqb (store_of a) (store_of b))
             same_store_sym same_store_trans df x).
  rewrite Hx, Hr. reflexivity.
Qed.

Lemma find_unique_key (l : series) (s : string) (v : Q) :
  List.NoDup (map fst l) -> In (s, v) l -> series_at l s = Some v.
Proof.
  unfold series_at. induction l as [|[k w] l IH]; simpl; [tauto|].
  intros H. inversion H as [|? ? Hnotin Hnd]; subst. intros [[= -> ->]|Hin].
  - rewrite String.eqb_refl. reflexivity.
  - destruct (String.eqb k s) eqn:E; [|exact (IH Hnd Hin)].
    apply String.eqb_eq in E. subst k. exfalso. apply Hnotin.
    change s with (fst (s, v)). apply in_map, Hin.
Qed.

Lemma flat_map_singletons {A B} (f : A -> list B) (g : A -> B) (l : list A) :
  (forall k, In k l -> f k = [g k]) -> flat_map f l = map g l.
Proof.
  induction l as [|a l IH]; simpl; intros H; [reflexivity|].
  rewrite (H a (or_introl eq_refl)), IH; [reflexivity|].
  intros k Hk. apply H. right. exact Hk.
Qed.

Lemma union_index_spec (a b : series) (keys : list string) :
  Permutation (map fst a) keys -> Permutation (map fst b) keys -> List.NoDup keys ->
  List.NoDup (union_index a b) /\ (forall s, In s (union_index a b) <-> In s keys).
Proof.
  intros Pa Pb Hnd. unfold union_index. case_bool_decide as E.
  - split; [eapply Permutation_NoDup; [symmetry; exact Pa | exact Hnd]|].
    intros s. split; apply Permutation_in; [exact Pa | symmetry; exact Pa].
  - split.
    + eapply Permutation_NoDup; [symmetry; apply stable_sort_perm|].
      rewrite <- (map_id (keep_first String.eqb _)).
      apply distinct_pairs_NoDup.
      eapply ForallOrdPairs_impl; [|apply (keep_first_distinct String.eqb)].
      intros x y H Heq. simpl in Heq. subst y. rewrite String.eqb_refl in H. discriminate.
    + intros s. split.
      * intros H. apply (Permutation_in _ (stable_sort_perm String.leb _)) in H.
        apply keep_first_In, in_app_or in H.
        destruct H as [H|H]; [exact (Permutation_in _ Pa H) | exact (Permutation_in _ Pb H)].
      * intros H. apply (Permutation_in _ (Permutation_sym (stable_sort_perm String.leb _))).
        destruct (keep_first_repr String.eqb String.eqb_refl string_eqb_sym string_eqb_trans
                    (map fst a ++ map fst b)%list s) as (y & Hy & Hys).
        { apply in_or_app. left. exact (Permutation_in _ (Permutation_sym Pa) H). }
        apply String.eqb_eq in Hys. subst y. exact Hy.
Qed.

(** X14.  The tuples written to [store_rankings] are one per store of the
    scored set (the table's unique key on the store name is respected); each
    holds the mean and the best of the store's final scores, never a null,
    and the platform of the first row of the store in the scored set
    (["Unknown"] only when that row has no platform). *)
Theorem store_ranking_rows (sort_values : sorter) (df : list Scored.row) :
  sorts_descending sort_values ->
  let data_tuples :=
    store_ranking_tuples (fst (display_store_rankings sort_values df))
                         (snd (display_store_rankings sort_values df))
                         (platform_map df) in
  List.NoDup (map StoreRankings.source_store_name data_tuples) /\
  (forall s, In s (map StoreRankings.source_store_name data_tuples) <->
             In (Some s) (map store_of df)) /\
  Forall (fun t =>
            let members := group store_of (StoreRankings.source_store_name t) df in
            StoreRankings.avg_product_score t
            = Some (mean (map Scored.final_score members)) /\
            StoreRankings.max_product_score t
            = Some (maximum (map Scored.final_score members)) /\
            exists r, List.head members = Some r /\
                      StoreRankings.source_platform t
                      = match Prep.source_platform (Scored.base r) with
                        | Some p => p
                        | None => "Unknown"
                        end)
         data_tuples.
Proof.
  intros Hsort data_tuples. subst data_tuples. unfold display_store_rankings.
  destruct df as [|r0 df0].
  { simpl. repeat split; try constructor; tauto. }
  set (df := r0 :: df0). cbn [fst snd].
  destruct (Hsort _ snd (groupby_final_score mean df)) as [Pavg _].
  destruct (Hsort _ snd (groupby_final_score maximum df)) as [Pmax _].
  set (avg := sort_values _ snd (groupby_final_score mean df)) in *.
  set (mx := sort_values _ snd (groupby_final_score maximum df)) in *.
  pose proof (Permutation_map fst Pavg) as Pa. rewrite groupby_keys in Pa.
  pose proof (Permutation_map fst Pmax) as Pb. rewrite groupby_keys in Pb.
  destruct (union_index_spec avg mx _ Pa Pb (group_keys_NoDup _)) as [Hnd Hin].
  assert (Hstores : forall s, In s (union_index avg mx) -> In (Some s) (map store_of df)).
  { intros s Hs. apply group_keys_In, Hin, Hs. }
  assert (Hshape : store_ranking_tuples avg mx (platform_map df)
                   = map (fun k =>
                            {| StoreRankings.source_store_name := k;
                               StoreRankings.avg_product_score := series_at avg k;
                               StoreRankings.max_product_score := series_at mx k;
                               StoreRankings.source_platform :=
                                 List.hd "Unknown" (merge_platform (platform_map df) k) |})
                         (union_index avg mx)).
  { unfold store_ranking_tuples. apply flat_map_singletons. intros k Hk.
    pose proof (merge_platform_first df k (Hstores k Hk)) as (r & _ & E).
    revert E. generalize (merge_platform (platform_map df) k). intros m E. subst m.
    reflexivity. }
  rewrite Hshape. rewrite map_map. cbn [StoreRankings.source_store_name]. rewrite map_id.
  split; [exact Hnd|]. split; [intros s; rewrite Hin; apply group_keys_In|].
  apply List.Forall_map, List.Forall_forall. intros k Hk.
  cbn [StoreRankings.avg_product_score StoreRankings.max_product_score
       StoreRankings.source_platform StoreRankings.source_store_name].
  pose proof (Hstores k Hk) as Hs.
  split; [|split].
  - apply find_unique_key.
    + eapply Permutation_NoDup; [symmetry; exact Pa | apply group_keys_NoDup].
    + apply (Permutation_in _ (Permutation_sym Pavg)), groupby_In. split; [exact Hs | reflexivity].
  - apply find_unique_key.
    + eapply Permutation_NoDup; [symmetry; exact Pb | apply group_keys_NoDup].
    + apply (Permutation_in _ (Permutation_sym Pmax)), groupby_In. split; [exact Hs | reflexivity].
  - pose proof (merge_platform_first df k Hs) as (r & Hfind & E). rewrite E.
    exists r. split; [|reflexivity].
    clear -Hfind. unfold group. induction df as [|a l IH]; simpl in *; [discriminate|].
    destruct (opt_string_eqb (store_of a) (Some k)); [exact Hfind | exact (IH Hfind)].
Qed.

Lemma store_ranking_rows_witness :
  let df := [example_row "https://s/a" "S" (1 # 5); example_row "https://t/c" "T" (1 # 3);
             example_row "https://s/b" "S" (1 # 2)] in
  sorts_descending stable_sorter /\
  List.NoDup (map StoreRankings.source_store_name
                  (store_ranking_tuples (fst (display_store_rankings stable_sorter df))
                                        (snd (display_store_rankings stable_sorter df))
                                        (platform_map df))).
Proof.
  split; [exact stable_sorter_sorts|].
  exact (proj1 (store_ranking_rows stable_sorter _ stable_sorter_sorts)).
Defined.

(** * The WooCommerce scraper *)

Lemma retry_loop_spec {R} (attempt : nat -> option R) (retries remaining : nat) :
  forall i, (i + remaining = retries)%nat ->
  match retry_loop attempt retries i remaining with
  | (Some x, sleeps) =>
      exists j, (i <= j < retries)%nat /\ attempt j = Some x /\
                (forall m, (i <= m < j)%nat -> attempt m = None) /\
                sleeps = (j - i)%nat
  | (None, sleeps) =>
      (forall m, (i <= m < retries)%nat -> attempt m = None) /\
      sleeps = (remaining - 1)%nat
  end.
Proof.
  induction remaining as [|remaining IH]; intros i Hi; simpl.
  - split; [intros m Hm; lia | reflexivity].
  - destruct (attempt i) as [x|] eqn:E.
    + exists i. split; [lia|]. split; [exact E|]. split; [intros m Hm; lia | lia].
    + destruct (i <? retries - 1)%nat eqn:Hlt.
      * apply Nat.ltb_lt in Hlt. specialize (IH (S i) ltac:(lia)).
        destruct (retry_loop attempt retries (S i) remaining) as [[x|] sleeps].
        -- destruct IH as (j & Hj & Ex & Hbefore & ->).
           exists j. split; [lia|]. split; [exact Ex|]. split; [|lia].
           intros m Hm. destruct (Nat.eq_dec m i) as [->|Hne]; [exact E|].
           apply Hbefore. lia.
        -- destruct IH as [Hall ->]. split; [|lia].
           intros m Hm. destruct (Nat.eq_dec m i) as [->|Hne]; [exact E|].
           apply Hall. lia.
      * apply Nat.ltb_ge in Hlt. split; [|lia].
        intros m Hm. assert (m = i) by lia. subst m. exact E.
Qed.

(** X15.  [fetch_page_with_retries] returns the answer of the first attempt
    that succeeds among the first [retries] ones, after sleeping once for
    each failed attempt before it; it returns nothing exactly when all
    [retries] attempts fail (and always when [retries] is 0), having slept
    after each failure but the last. *)
Theorem retries_first_success {R : Type} (attempt : nat -> option R) (retries : nat) :
  let result := fst (fetch_page_with_retries attempt retries) in
  let sleeps := snd (fetch_page_with_retries attempt retries) in
  (result = None <-> forall i, (i < retries)%nat -> attempt i = None) /\
  (forall x, result = Some x ->
             exists i, (i < retries)%nat /\ attempt i = Some x /\
                       (forall j, (j < i)%nat -> attempt j = None) /\ sleeps = i) /\
  (result = None -> sleeps = (retries - 1)%nat).
Proof.
  intros result sleeps. subst result sleeps. unfold fetch_page_with_retries.
  pose proof (retry_loop_spec attempt retries retries 0 eq_refl) as H.
  destruct (retry_loop attempt retries 0 retries) as [[x|] sleeps]; simpl.
  - destruct H as (j & Hj & Ex & Hbefore & ->).
    split; [|split].
    + split; [discriminate|]. intros Hall. rewrite (Hall j) in Ex by lia. discriminate.
    + intros y [= <-]. exists j. split; [lia|]. split; [exact Ex|].
      split; [intros m Hm; apply Hbefore; lia | lia].
    + discriminate.
  - destruct H as [Hall ->]. split; [|split].
    + split; [intros _ i Hi; apply Hall; lia | reflexivity].
    + discriminate.
    + reflexivity.
Qed.

Lemma filter_neq_existsb (x a : string) (l : list string) :
  String.eqb x a = false ->
  existsb (String.eqb x) (List.filter (fun y => negb (String.eqb y a)) l)
  = existsb (String.eqb x) l.
Proof.
  intros Hne. induction l as [|b l IH]; simpl; [reflexivity|].
  destruct (String.eqb b a) eqn:E; simpl; [|rewrite IH; reflexivity].
  apply String.eqb_eq in E. subst b. rewrite Hne. exact IH.
Qed.

(** Appending a link unless it is there already keeps the list of first
    occurrences. *)
Lemma append_if_new_keep_first (l : list string) (x : string) :
  append_if_new (keep_first String.eqb l) x = keep_first String.eqb (l ++ [x]).
Proof.
  induction l as [|a l IH]; [reflexivity|].
  change (keep_first String.eqb ((a :: l) ++ [x]))
    with (a :: List.filter (fun y => negb (String.eqb y a)) (keep_first String.eqb (l ++ [x]))).
  rewrite <- IH. simpl keep_first. unfold append_if_new. simpl existsb.
  destruct (String.eqb x a) eqn:E.
  - apply String.eqb_eq in E. subst x. simpl. f_equal.
    destruct (existsb (String.eqb a) (keep_first String.eqb l)); [reflexivity|].
    rewrite List.filter_app. simpl. rewrite String.eqb_refl. simpl. rewrite app_nil_r.
    reflexivity.
  - simpl. rewrite (filter_neq_existsb x a _ E).
    destruct (existsb (String.eqb x) (keep_first String.eqb l)); [reflexivity|].
    rewrite List.filter_app. simpl. rewrite E. reflexivity.
Qed.

Lemma fold_append_if_new (xs : list string) : forall l,
  fold_left append_if_new xs (keep_first String.eqb l) = keep_first String.eqb (l ++ xs).
Proof.
  induction xs as [|x xs IH]; intros l; simpl.
  - rewrite app_nil_r. reflexivity.
  - rewrite append_if_new_keep_first, IH, <- app_assoc. reflexivity.
Qed.

Lemma scrape_category_spec (get_page : page_oracle) (remaining : nat) :
  forall pages_scraped current_page_url l,
    scrape_category get_page remaining pages_scraped current_page_url
                    (keep_first String.eqb l)
    = (keep_first String.eqb
         (l ++ concat (map snd (pages_fetched get_page remaining pages_scraped
                                              current_page_url))),
       (pages_scraped
        + length (pages_fetched get_page remaining pages_scraped current_page_url))%nat).
Proof.
  induction remaining as [|remaining IH]; intros n cur l; simpl.
  - rewrite app_nil_r, Nat.add_0_r. reflexivity.
  - destruct cur as [url|]; [|simpl; rewrite app_nil_r, Nat.add_0_r; reflexivity].
    destruct (is_empty url); [simpl; rewrite app_nil_r, Nat.add_0_r; reflexivity|].
    destruct (get_page n url) as [links next]. simpl.
    rewrite fold_append_if_new, IH, <- app_assoc. f_equal. lia.
Qed.

Lemma pages_fetched_length (get_page : page_oracle) (remaining : nat) :
  forall pages_scraped current_page_url,
    (length (pages_fetched get_page remaining pages_scraped current_page_url)
     <= remaining)%nat.
Proof.
  induction remaining as [|remaining IH]; intros n cur; simpl; [lia|].
  destruct cur as [url|]; [|simpl; lia].
  destruct (is_empty url); [simpl; lia|].
  destruct (get_page n url) as [links next]. simpl. specialize (IH (S n) (next_page url next)).
  lia.
Qed.

Lemma keep_first_strings_NoDup (l : list string) : List.NoDup (keep_first String.eqb l).
Proof.
  rewrite <- (map_id (keep_first String.eqb l)).
  apply distinct_pairs_NoDup.
  eapply ForallOrdPairs_impl; [|apply (keep_first_distinct String.eqb)].
  intros x y H Heq. simpl in Heq. subst y. rewrite String.eqb_refl in H. discriminate.
Qed.

(** X16.  Whatever the site answers, [get_all_product_links_for_category]
    fetches at most 20 pages, so it ends even when the pagination links go
    in a circle; it returns the links of the pages it fetched, each link
    once, in the order in which they were first seen. *)
Theorem category_links_unique (get_page : page_oracle) (start_category_url : string) :
  let all_links := fst (get_all_product_links_for_category get_page start_category_url) in
  let pages_scraped := snd (get_all_product_links_for_category get_page start_category_url) in
  let pages := pages_fetched get_page max_pages 0 (Some start_category_url) in
  all_links = keep_first String.eqb (concat (map snd pages)) /\
  List.NoDup all_links /\
  (forall link, In link all_links <-> exists page, In page pages /\ In link (snd page)) /\
  pages_scraped = length pages /\
  (pages_scraped <= 20)%nat /\
  (start_category_url = "" -> all_links = [] /\ pages_scraped = 0%nat).
Proof.
  intros all_links pages_scraped pages. subst all_links pages_scraped.
  unfold get_all_product_links_for_category.
  change (@nil string) with (keep_first String.eqb []).
  rewrite scrape_category_spec. fold pages. cbn [fst snd app Nat.add].
  split; [reflexivity|]. split; [apply keep_first_strings_NoDup|].
  split; [|split; [reflexivity|split]].
  - intros link. split.
    + intros H. apply keep_first_In, in_concat in H. destruct H as (links & Hl & Hin).
      apply in_map_iff in Hl. destruct Hl as (page & <- & Hp). exists page. tauto.
    + intros (page & Hp & Hin).
      destruct (keep_first_repr String.eqb String.eqb_refl string_eqb_sym string_eqb_trans
                  (concat (map snd pages)) link) as (y & Hy & Hyl).
      { apply in_concat. exists (snd page). split; [apply in_map, Hp | exact Hin]. }
      apply String.eqb_eq in Hyl. subst y. exact Hy.
  - apply (pages_fetched_length get_page max_pages 0 (Some start_category_url)).
  - intros ->. subst pages. split; reflexivity.
Qed.

(** X17.  From the product page to the ranking: the row the scraper stores
    for a product is kept by the preprocessing of stage 2 exactly when the
    price text it scraped holds at least one digit and at most one decimal
    point.  A page without a price, and a page that failed to parse, give a
    row that is dropped; a row that is kept has the scraped title, tag and
    SKU (["N/A"] where the page had none), the category of the configuration
    and the availability flag 1. *)
Theorem scraped_product_ranked (outcome : page_outcome) (product_url category : string)
    (product_data : product_details) :
  get_product_data outcome = Some product_data ->
  let kept :=
    preprocess_combined_data
      (fetch_woocommerce_data [insert_values product_data product_url category]) in
  (kept <> [] <->
   (1 <= count_chars is_digit (pd_price product_data))%nat /\
   (count_chars is_dot (pd_price product_data) <= 1)%nat) /\
  (outcome = ParseFailed -> kept = []) /\
  (forall page, outcome = Parsed page ->
                price_elements page = [] -> price_any page = None -> kept = []) /\
  Forall (fun b =>
            Prep.product_url b = Some product_url /\
            Prep.title b = Some (pd_title product_data) /\
            Prep.product_tags b = Some (pd_tag product_data) /\
            Prep.sku b = Some (pd_sku product_data) /\
            Prep.product_category b = Some category /\
            Prep.price b = clean_and_convert_price (PyStr (pd_price product_data)) /\
            Prep.is_available_numeric b = 1%Z) kept.
Proof.
  intros Hdata kept.
  assert (Hkept : kept = match clean_and_convert_price (PyStr (pd_price product_data)) with
                         | Some q => [fill_columns
                                        (Some q,
                                         {| Unified.product_url := Some product_url;
                                            Unified.title := Some (pd_title product_data);
                                            Unified.vendor := Some "Barefoot Buttons";
                                            Unified.price := PyStr (pd_price product_data);
                                            Unified.availability := PyStr "Available";
                                            Unified.description := PyNull;
                                            Unified.product_category := Some category;
                                            Unified.source_store_name := Some "Barefoot Buttons";
                                            Unified.source_platform := Some "WooCommerce";
                                            Unified.product_tags := Some (pd_tag product_data);
                                            Unified.sku := Some (pd_sku product_data) |})]
                         | None => []
                         end).
  { subst kept. rewrite preprocess_as_flat_map. unfold fetch_woocommerce_data, insert_values.
    cbn -[clean_and_convert_price fill_columns].
    destruct (clean_and_convert_price (PyStr (pd_price product_data))); reflexivity. }
  pose proof (proj1 (clean_price_spec (pd_price product_data))) as Hiff.
  assert (Hsentinel : forall t, (count_chars is_digit t = 0)%nat ->
                                pd_price product_data = t -> kept = []).
  { intros t Ht Hp. rewrite Hkept.
    destruct (clean_and_convert_price (PyStr (pd_price product_data))) eqn:E; [|reflexivity].
    exfalso. apply proj1 in Hiff. specialize (Hiff ltac:(discriminate)).
    rewrite Hp in Hiff. lia. }
  split; [|split; [|split]].
  - rewrite <- Hiff, Hkept.
    destruct (clean_and_convert_price (PyStr (pd_price product_data)));
      split; congruence.
  - intros ->. injection Hdata as <-. apply (Hsentinel "N/A (Parse Error)"); reflexivity.
  - intros page -> Hnone Hany. injection Hdata as <-.
    apply (Hsentinel "N/A"); [reflexivity|]. simpl. unfold scraped_price.
    rewrite Hnone, Hany. reflexivity.
  - rewrite Hkept.
    destruct (clean_and_convert_price (PyStr (pd_price product_data))) eqn:E;
      constructor; [|constructor]. simpl. repeat split.
Qed.

Lemma scraped_product_ranked_witness :
  let page := {| title_el := Some " Button "; price_elements := ["$12.00"; "$9.50"];
                 price_any := None; tag_el := None; sku_el := Some "BB-1" |} in
  get_product_data (Parsed page)
  = Some {| pd_title := "Button"; pd_price := "$9.50"; pd_tag := "N/A"; pd_sku := "BB-1" |} /\
  map Prep.price
      (preprocess_combined_data
         (fetch_woocommerce_data
            [insert_values {| pd_title := "Button"; pd_price := "$9.50"; pd_tag := "N/A";
                              pd_sku := "BB-1" |} "https://w/a" "Mini"]))
  = [Some (950 # 100)].
Proof.
  assert (H : get_product_data
                (Parsed {| title_el := Some " Button "; price_elements := ["$12.00"; "$9.50"];
                           price_any := None; tag_el := None; sku_el := Some "BB-1" |})
              = Some {| pd_title := "Button"; pd_price := "$9.50"; pd_tag := "N/A";
                        pd_sku := "BB-1" |}) by reflexivity.
  split; [exact H|].
  pose proof (proj2 (proj2 (proj2 (scraped_product_ranked _ "https://w/a" "Mini" _ H)))) as Hall.
  cbv zeta in Hall.
  destruct (preprocess_combined_data _) as [|b [|b' l]] eqn:E; try discriminate E.
  inversion Hall as [|? ? Hb _]; subst. simpl.
  destruct Hb as (_ & _ & _ & _ & _ & Hprice & _). rewrite Hprice. reflexivity.
Defined.

(** * The Shopify scraper *)

Lemma prefix_first_mark (pat : string) : forall s c,
  String.prefix pat s = true -> first_mark pat = Some c -> first_mark s = Some c.
Proof.
  induction pat as [|a pat IH]; intros s c Hp Hm; [discriminate Hm|].
  destruct s as [|b s]; [discriminate Hp|].
  simpl in Hp. destruct (ascii_dec a b) as [Hab|]; [subst b|discriminate Hp].
  simpl in *. destruct (is_dot a || Ascii.eqb a ":"); [exact Hm|]. exact (IH _ _ Hp Hm).
Qed.

Lemma first_mark_host (name rest : string) :
  first_mark name = None -> first_mark (name ++ String "." rest) = Some "."%char.
Proof.
  induction name as [|c name IH]; simpl; [reflexivity|].
  destruct (is_dot c || Ascii.eqb c ":"); [discriminate|]. exact IH.
Qed.

Lemma remove_all_step (pat : string) (c : ascii) (s : string) :
  remove_all pat 0 (String c s) =
  if String.prefix pat (String c s)
  then remove_all pat (String.length pat - 1) s
  else String c (remove_all pat 0 s).
Proof. reflexivity. Qed.

(** A pattern whose first mark is a colon does not occur in the first label
    of a host name, so removing it leaves that label in front. *)
Lemma remove_all_host (pat name rest : string) :
  first_mark pat = Some ":"%char -> first_mark name = None ->
  exists rest', remove_all pat 0 (name ++ String "." rest) = name ++ String "." rest'.
Proof.
  intros Hpat. induction name as [|c name IH]; intros Hname.
  - change ("" ++ String "." rest) with (String "." rest).
    rewrite remove_all_step.
    destruct (String.prefix pat (String "." rest)) eqn:E.
    + pose proof (prefix_first_mark pat _ _ E Hpat) as H. simpl in H. discriminate.
    + eexists. reflexivity.
  - change (String c name ++ String "." rest) with (String c (name ++ String "." rest)).
    rewrite remove_all_step.
    destruct (String.prefix pat (String c (name ++ String "." rest))) eqn:E.
    + pose proof (prefix_first_mark pat _ _ E Hpat) as H.
      change (String c (name ++ String "." rest)) with (String c name ++ String "." rest) in H.
      rewrite (first_mark_host _ rest Hname) in H. discriminate.
    + simpl in Hname. destruct (is_dot c || Ascii.eqb c ":"); [discriminate|].
      destruct (IH Hname) as [rest' ->]. eexists. reflexivity.
Qed.

Lemma split_dot_host (name rest : string) :
  first_mark name = None -> fst (split_dot (name ++ String "." rest)) = name.
Proof.
  induction name as [|c name IH]; simpl; [reflexivity|].
  destruct (is_dot c) eqn:E; [discriminate|]. simpl.
  destruct (Ascii.eqb c ":"); [discriminate|]. intros H. specialize (IH H).
  destruct (split_dot (name ++ String "." rest)). simpl in *. rewrite IH. reflexivity.
Qed.

Lemma prefix_cons (a : ascii) (pat : string) (b : ascii) (s : string) :
  String.prefix (String a pat) (String b s) = true -> a = b /\ String.prefix pat s = true.
Proof.
  simpl. destruct (ascii_dec a b); [tauto|discriminate].
Qed.

Lemma www_prefix (name rest : string) :
  first_mark name = None ->
  String.prefix "www." (name ++ String "." rest) = true -> name = "www".
Proof.
  intros Hname H.
  destruct name as [|c1 name]; [apply prefix_cons in H as [? _]; discriminate|].
  apply prefix_cons in H as [<- H].
  destruct name as [|c2 name]; [apply prefix_cons in H as [? _]; discriminate|].
  apply prefix_cons in H as [<- H].
  destruct name as [|c3 name]; [apply prefix_cons in H as [? _]; discriminate|].
  apply prefix_cons in H as [<- H].
  destruct name as [|c4 name]; [reflexivity|].
  apply prefix_cons in H as [<- H]. discriminate Hname.
Qed.

Lemma prefix_self (pat s : string) : String.prefix pat (pat ++ s) = true.
Proof.
  induction pat as [|a pat IH]; simpl.
  - destruct s; reflexivity.
  - destruct (ascii_dec a a); [exact IH|congruence].
Qed.

Lemma remove_all_skip (pat pre s : string) :
  remove_all pat (String.length pre) (pre ++ s) = remove_all pat 0 s.
Proof.
  induction pre as [|c pre IH]; simpl; [destruct s; reflexivity|exact IH].
Qed.

(** A leading occurrence of the pattern is removed. *)
Lemma remove_all_leading (a : ascii) (pat s : string) :
  remove_all (String a pat) 0 (String a pat ++ s) = remove_all (String a pat) 0 s.
Proof.
  change (String a pat ++ s) with (String a (pat ++ s)).
  rewrite remove_all_step.
  change (String a (pat ++ s)) with (String a pat ++ s).
  rewrite prefix_self.
  change (String.length (String a pat) - 1)%nat with (String.length pat - 0)%nat.
  rewrite Nat.sub_0_r. apply remove_all_skip.
Qed.

(** X18.  The store name the scraper derives from a store URL is the first
    label of the host name, whether or not the URL has the [www.] prefix: for
    a label without point or colon, [https://www.<label>.<rest>] and
    [https://<label>.<rest>] both give [<label>]. *)
Theorem store_name_is_first_label (name rest : string) :
  first_mark name = None ->
  name <> "www" ->
  store_name_of ("https://www." ++ name ++ String "." rest) = name /\
  store_name_of ("https://" ++ name ++ String "." rest) = name /\
  store_name_of (name ++ String "." rest) = name.
Proof.
  intros Hname Hwww.
  assert (H1 : first_mark "https://www." = Some ":"%char) by reflexivity.
  assert (H2 : first_mark "https://" = Some ":"%char) by reflexivity.
  assert (Hplain : forall r, store_name_of (name ++ String "." r) = name).
  { intros r. unfold store_name_of.
    destruct (remove_all_host "https://www." name r H1 Hname) as [r1 ->].
    destruct (remove_all_host "https://" name r1 H2 Hname) as [r2 ->].
    apply split_dot_host, Hname. }
  split; [|split; [|apply Hplain]].
  - unfold store_name_of. rewrite remove_all_leading. apply Hplain.
  - unfold store_name_of.
    assert (E : remove_all "https://www." 0 ("https://" ++ name ++ String "." rest)
                = "https://" ++ remove_all "https://www." 0 (name ++ String "." rest)).
    { change ("https://" ++ name ++ String "." rest)
        with (String "h" (String "t" (String "t" (String "p" (String "s"
               (String ":" (String "/" (String "/" (name ++ String "." rest))))))))).
      rewrite remove_all_step.
      destruct (String.prefix _ _) eqn:Ep.
      { exfalso. apply Hwww, (www_prefix name rest Hname).
        do 8 (apply prefix_cons in Ep as [_ Ep]). exact Ep. }
      clear Ep.
      do 7 (rewrite remove_all_step;
            destruct (String.prefix _ _) eqn:Ep;
            [apply prefix_cons in Ep as [Ep _]; discriminate Ep|clear Ep]).
      reflexivity. }
    rewrite E.
    destruct (remove_all_host "https://www." name rest H1 Hname) as [r1 ->].
    rewrite remove_all_leading.
    destruct (remove_all_host "https://" name r1 H2 Hname) as [r2 ->].
    apply split_dot_host, Hname.
Qed.

Lemma store_name_is_first_label_witness :
  store_name_of "https://www.allbirds.com" = "allbirds" /\
  store_name_of "https://allbirds.com" = "allbirds" /\
  store_name_of "allbirds.com" = "allbirds".
Proof.
  apply (store_name_is_first_label "allbirds" "com"); [reflexivity|discriminate].
Defined.

(** X19.  From [products.json] to the ranking: a Shopify product whose row
    is stored is kept by the preprocessing of stage 2 exactly when the price
    cell read back converts to a number.  The row kept is flagged available
    exactly when the first variant of the product has [available] set to
    true (no variant, no key and [null] all give 0), its description text is
    the body HTML without tags ([""] when it is [null] or missing), its store
    name is the one the scraper sent, and a vendor or product type that is
    [null] or missing reads ["N/A"].  A product whose title is [null] is not
    stored at all. *)
Theorem shopify_product_ranked (float_of : string -> option Q) (price_cell : pyval)
    (base_url store_name : string) (product : shopify_product)
    (v : shopify_values) (r : Shopify.row) :
  product_values float_of base_url store_name product = Some v ->
  stored_product price_cell v = Some r ->
  let kept := preprocess_combined_data (fetch_shopify_data [r]) in
  let text_of (field : json_field string) :=
    match field with Value s => s | _ => "N/A" end in
  (kept <> [] <-> clean_and_convert_price price_cell <> None) /\
  Forall (fun b =>
            (Prep.is_available_numeric b = 1%Z <->
             variant_available (first_variant product) = Value true) /\
            (Prep.is_available_numeric b = 0%Z <->
             variant_available (first_variant product) <> Value true) /\
            Prep.description_text b =
              match json_body_html product with
              | Value html => clean_html (PyStr html)
              | _ => ""
              end /\
            Prep.source_store_name b = Some store_name /\
            Prep.source_platform b = Some "Shopify" /\
            Prep.title b = Some (text_of (json_title product)) /\
            Prep.vendor b = Some (text_of (json_vendor product)) /\
            Prep.product_category b = Some (text_of (json_product_type product)) /\
            Prep.product_tags b = Some "N/A" /\
            Prep.sku b = Some "N/A" /\
            Prep.price b = clean_and_convert_price price_cell) kept.
Proof.
  intros Hv Hr kept text_of.
  unfold product_values in Hv.
  destruct (if truthy _ then _ else _) as [p|]; [|discriminate Hv].
  injection Hv as <-. unfold stored_product in Hr. cbn in Hr.
  destruct (dict_get (json_title product) (Some "N/A")) as [title|] eqn:Et; [|discriminate Hr].
  injection Hr as <-.
  assert (Htitle : title = text_of (json_title product)).
  { subst text_of. destruct (json_title product); simpl in *; congruence. }
  assert (Hkept : kept = match clean_and_convert_price price_cell with
                         | Some q =>
                             [fill_columns
                                (Some q,
                                 {| Unified.product_url :=
                                      Some (if truthy (dict_get (json_handle product) None)
                                            then match dict_get (json_handle product) None with
                                                 | Some h => base_url ++ "/products/" ++ h
                                                 | None => "N/A"
                                                 end
                                            else "N/A");
                                    Unified.title := Some title;
                                    Unified.vendor := dict_get (json_vendor product) (Some "N/A");
                                    Unified.price := price_cell;
                                    Unified.availability :=
                                      PyStr match dict_get (variant_available (first_variant product))
                                                           (Some false) with
                                            | Some true => "Available"
                                            | _ => "Out of Stock"
                                            end;
                                    Unified.description :=
                                      match dict_get (json_body_html product) (Some "") with
                                      | Some d => PyStr d
                                      | None => PyNull
                                      end;
                                    Unified.product_category :=
                                      dict_get (json_product_type product) (Some "N/A");
                                    Unified.source_store_name := Some store_name;
                                    Unified.source_platform := Some "Shopify";
                                    Unified.product_tags := None;
                                    Unified.sku := None |})]
                         | None => []
                         end).
  { subst kept. rewrite preprocess_as_flat_map. unfold fetch_shopify_data.
    cbn -[clean_and_convert_price fill_columns truthy dict_get].
    destruct price_cell; cbn -[clean_and_convert_price fill_columns truthy dict_get];
      try reflexivity;
      destruct (clean_and_convert_price _); reflexivity. }
  split.
  - rewrite Hkept. destruct (clean_and_convert_price price_cell); split; congruence.
  - rewrite Hkept.
    destruct (clean_and_convert_price price_cell) eqn:E; constructor; [|constructor].
    subst text_of. cbn -[clean_html]. rewrite Htitle.
    destruct (variant_available (first_variant product)) as [| |[|]];
      destruct (json_body_html product), (json_vendor product), (json_product_type product);
      cbn -[clean_html]; repeat split; try reflexivity; try congruence; try discriminate.
Qed.

Lemma shopify_product_ranked_witness :
  let product :=
    {| json_title := Value "Runner"; json_vendor := Null;
       json_variants := [{| variant_price := Value "98.00"; variant_available := Value true |}];
       json_body_html := Value "<p>Light</p>"; json_product_type := Missing;
       json_handle := Value "runner" |} in
  map (fun b => (Prep.is_available_numeric b, Prep.description_text b, Prep.vendor b))
      (preprocess_combined_data
         (fetch_shopify_data
            [{| Shopify.product_url := Some "https://www.allbirds.com/products/runner";
                Shopify.title := Some "Runner"; Shopify.vendor := None;
                Shopify.price := PyNum 98; Shopify.availability := PyStr "Available";
                Shopify.description := PyStr "<p>Light</p>";
                Shopify.category := Some "N/A"; Shopify.store_name := Some "allbirds" |}]))
  = [(1%Z, "Light", Some "N/A")].
Proof.
  intros product.
  pose proof (proj2 (shopify_product_ranked py_float (PyNum 98) "https://www.allbirds.com"
                       "allbirds" product _ _ eq_refl eq_refl)) as Hall.
  cbv zeta in Hall.
  destruct (preprocess_combined_data _) as [|b [|b' l]] eqn:E; try discriminate E.
  inversion Hall as [|? ? Hb _]; subst. simpl.
  destruct Hb as (Ha & _ & Hd & _ & _ & _ & Hven & _).
  rewrite (proj2 Ha eq_refl), Hd, Hven. reflexivity.
Defined.
